(** * Token-refresh daemon: credential minting, refresh loop, controller
      and monitoring server

    Shallow embedding of
      - [token-manager.ts]         (module [TokenManager]),
      - [token-refresh-daemon.ts]  (module [Daemon]),
      - [daemon-controller.ts]     (module [Controller]),
      - [mcp/token-refresh-server.ts] (module [Server]),
      - [github/token.ts]          (module [Token]),
    with the status record they share (module [Status]), the timers of
    the runtime, and JavaScript strings (module [JsString]).

    Conventions of the embedding.
      - JavaScript numbers that the code uses as integers (pids, counters,
        minutes, milliseconds) are [Z].
      - An ISO-8601 timestamp string ([new Date(ms).toISOString()], read back
        with [new Date(s).getTime()]) is represented by the instant it
        denotes, in milliseconds since the epoch.
      - [Date.now()] is the field [clock] of the state at hand.
      - A file is [option] of its content; [JSON.parse] of the status file
        either throws ([Garbage]) or yields a status record ([Json]).
        Calls of [fs] on a file that exists succeed.
      - What the outside world does (the handshake, the subprocesses, the
        signalled process, the operating system's answer to [spawn]) is an
        argument of the function that meets it.
      - Output on the console and through [core.info], [core.warning] and
        [core.error] is not part of the state. *)

From Stdlib Require Import ZArith NArith List String Ascii Bool Lia
  DecimalPos.
Import ListNotations.
Open Scope Z_scope.

Definition Timestamp := Z.

(** ** Values thrown by the code *)

Inductive Err : Type :=
| AuthFailed (msg : string)
    (* the promise returned by [this.auth] rejects *)
| NoInstallationToken
    (* [new Error("Failed to get installation token from GitHub App")] *)
| CommandFailed (cmd : string) (args : list string)
    (* [new Error(`Command ${command} ${args.join(" ")} failed: ...`)] *)
| GhLoginFailed (code : Z)
    (* [new Error(`gh auth login failed with code ${code}`)] *)
| JsonSyntaxError
    (* thrown by [JSON.parse] *)
| NoSuchProcess (pid : Z)
    (* thrown by [process.kill] when no process has this pid *)
| SpawnFailed.
    (* [new Error("Failed to start daemon process")] *)

(** What [`${error}`] renders, up to the interpolated details. *)
Definition Err_message (e : Err) : string :=
  match e with
  | AuthFailed msg => msg
  | NoInstallationToken =>
      "Error: Failed to get installation token from GitHub App"
  | CommandFailed cmd _ => "Error: Command " ++ cmd ++ " failed"
  | GhLoginFailed _ => "Error: gh auth login failed"
  | JsonSyntaxError => "SyntaxError: JSON Parse error"
  | NoSuchProcess _ => "Error: kill ESRCH"
  | SpawnFailed => "Error: Failed to start daemon process"
  end.

(** Outcome of a call that either returns or throws, together with the
    state it leaves behind. *)
Inductive Outcome (S A : Type) : Type :=
| Returns (a : A) (s : S)
| Throws (e : Err) (s : S).
Arguments Returns {S A} a s.
Arguments Throws {S A} e s.

(** JavaScript truthiness of a string and of a number. *)
Definition truthy_string (s : string) : bool :=
  negb (String.eqb s EmptyString).

Definition truthy_number (n : Z) : bool := negb (n =? 0).

(** ** token-manager.ts *)

Module TokenManager.

Record TokenManagerConfig : Type := {
  appId : string;
  privateKey : string;
  cfg_installationId : option Z;
  repositoryOwner : string;
  repositoryName : string
}.

Record TokenInfo : Type := {
  token : string;
  expiresAt : Timestamp;
  installationId : Z
}.

(** What the promise [this.auth({type: "installation", ...})] resolves
    to: an object whose fields may be missing. *)
Record AuthResult : Type := {
  ar_token : option string;
  ar_expiresAt : option Timestamp;
  ar_installationId : option Z
}.

Inductive AuthOutcome : Type :=
| AuthRejects (msg : string)
| AuthResolves (r : AuthResult).

Record t : Type := {
  config : TokenManagerConfig;
  currentToken : option TokenInfo
}.

(** [new TokenManager(config)] *)
Definition new (c : TokenManagerConfig) : t :=
  {| config := c; currentToken := None |}.

Definition set_currentToken (ti : TokenInfo) (tm : t) : t :=
  {| config := config tm; currentToken := Some ti |}.

(** [!("token" in authResult) || !authResult.token] *)
Definition lacks_token (r : AuthResult) : bool :=
  match ar_token r with
  | None => true
  | Some tk => negb (truthy_string tk)
  end.

(** [authResult.installationId || 0] *)
Definition installationId_or_0 (r : AuthResult) : Z :=
  match ar_installationId r with
  | Some n => if truthy_number n then n else 0
  | None => 0
  end.

(** [getToken()]; [now] is [Date.now()] and [auth] what
    [await this.auth(...)] does.  The [catch] block logs and rethrows. *)
Definition getToken (now : Z) (auth : AuthOutcome) (tm : t)
  : Outcome t TokenInfo :=
  match auth with
  | AuthRejects msg => Throws (AuthFailed msg) tm
  | AuthResolves r =>
      if lacks_token r then Throws NoInstallationToken tm
      else
        let tokenInfo :=
          {| token := match ar_token r with Some tk => tk | None => EmptyString end;
             expiresAt := match ar_expiresAt r with
                          | Some e => e
                          | None => now + 60 * 60 * 1000
                          end;
             installationId := installationId_or_0 r |} in
        Returns tokenInfo (set_currentToken tokenInfo tm)
  end.

(** The margin of [needsRefresh]: five minutes, in milliseconds. *)
Definition marginMs : Z := 5 * 60 * 1000.

(** [needsRefresh()] *)
Definition needsRefresh (now : Z) (tm : t) : bool :=
  match currentToken tm with
  | None => true
  | Some ti => expiresAt ti <=? now + marginMs
  end.

(** [getCurrentToken()] *)
Definition getCurrentToken (now : Z) (auth : AuthOutcome) (tm : t)
  : Outcome t TokenInfo :=
  if needsRefresh now tm then getToken now auth tm
  else match currentToken tm with
       | None => getToken now auth tm
       | Some ti => Returns ti tm
       end.

(** What [getInstallationId] meets outside: the app-level handshake
    [this.auth({ type: "app" })], then the answer of [fetch] for the
    repository's installation, whose body is [{ id }]. *)
Inductive AppAuthOutcome : Type :=
| AppAuthRejects (msg : string)
| AppAuthResolves (appToken : string).

Inductive FetchOutcome : Type :=
| FetchRejects (msg : string)
| Response (ok : bool) (statusText : string) (id : Z).

(** What [getInstallationId] throws. *)
Inductive LookupError : Type :=
| AppAuthError (msg : string)
| FetchError (msg : string)
| InstallationLookupFailed (statusText : string).
    (* [new Error(`Failed to get installation ID: ${response.statusText}`)] *)

Inductive Lookup : Type :=
| Found (id : Z) (tm : t)
| LookupThrows (e : LookupError) (tm : t).

(** [this.config.installationId = installation.id] *)
Definition set_installationId (id : Z) (tm : t) : t :=
  {| config :=
       {| appId := appId (config tm);
          privateKey := privateKey (config tm);
          cfg_installationId := Some id;
          repositoryOwner := repositoryOwner (config tm);
          repositoryName := repositoryName (config tm) |};
     currentToken := currentToken tm |}.

(** [getInstallationId()]; the [catch] block logs and rethrows. *)
Definition getInstallationId (appAuth : AppAuthOutcome) (resp : FetchOutcome)
           (tm : t) : Lookup :=
  let lookup :=
    match appAuth with
    | AppAuthRejects msg => LookupThrows (AppAuthError msg) tm
    | AppAuthResolves _ =>
        match resp with
        | FetchRejects msg => LookupThrows (FetchError msg) tm
        | Response ok statusText id =>
            if negb ok then LookupThrows (InstallationLookupFailed statusText) tm
            else Found id (set_installationId id tm)
        end
    end in
  match cfg_installationId (config tm) with
  | Some id => if truthy_number id then Found id tm else lookup
  | None => lookup
  end.

End TokenManager.

(** ** The status file shared by the daemon, the controller and the server *)

Module Status.

(** [interface DaemonStatus].  The [status] field is whatever string the
  file holds; the code compares it against ["running"], ["stopped"] and
  ["error"]. *)
Record DaemonStatus : Type := {
pid : Z;
startTime : Timestamp;
status : string;
lastRefresh : option Timestamp;
nextRefresh : option Timestamp;
refreshCount : Z
}.

(** [Partial<DaemonStatus>]: the fields an update carries. *)
Record StatusUpdate : Type := {
u_pid : option Z;
u_startTime : option Timestamp;
u_status : option string;
u_lastRefresh : option Timestamp;
u_nextRefresh : option Timestamp;
u_refreshCount : option Z
}.

Definition no_update : StatusUpdate :=
{| u_pid := None; u_startTime := None; u_status := None;
   u_lastRefresh := None; u_nextRefresh := None; u_refreshCount := None |}.

(** [{ status: s }] *)
Definition status_only (s : string) : StatusUpdate :=
{| u_pid := None; u_startTime := None; u_status := Some s;
   u_lastRefresh := None; u_nextRefresh := None; u_refreshCount := None |}.

(** A whole [DaemonStatus] passed where a [Partial<DaemonStatus>] is
  expected: optional fields that are absent stay absent from the update. *)
Definition full_update (st : DaemonStatus) : StatusUpdate :=
{| u_pid := Some (pid st); u_startTime := Some (startTime st);
   u_status := Some (status st);
   u_lastRefresh := lastRefresh st; u_nextRefresh := nextRefresh st;
   u_refreshCount := Some (refreshCount st) |}.

Definition overlay {A : Type} (cur : A) (upd : option A) : A :=
match upd with Some v => v | None => cur end.

Definition overlay_opt {A : Type} (cur upd : option A) : option A :=
match upd with Some v => Some v | None => cur end.

(** [{ ...currentStatus, ...updates }] *)
Definition merge (cur : DaemonStatus) (u : StatusUpdate) : DaemonStatus :=
{| pid := overlay (pid cur) (u_pid u);
   startTime := overlay (startTime cur) (u_startTime u);
   status := overlay (status cur) (u_status u);
   lastRefresh := overlay_opt (lastRefresh cur) (u_lastRefresh u);
   nextRefresh := overlay_opt (nextRefresh cur) (u_nextRefresh u);
   refreshCount := overlay (refreshCount cur) (u_refreshCount u) |}.

(** Content of the status file as [JSON.parse] sees it. *)
Inductive StatusFile : Type :=
| Garbage                      (* [JSON.parse] throws *)
| Json (st : DaemonStatus).    (* written by [JSON.stringify(newStatus)] *)

End Status.

(** ** Timers of the runtime *)

Inductive TimerKind : Type := RefreshTimer | MaxRuntimeTimer.

Definition TimerKind_eqb (a b : TimerKind) : bool :=
  match a, b with
  | RefreshTimer, RefreshTimer | MaxRuntimeTimer, MaxRuntimeTimer => true
  | _, _ => false
  end.

Record Timer : Type := {
  tid : nat;           (* creation order *)
  kind : TimerKind;    (* which callback it runs *)
  delay : Z;           (* the delay passed to [setTimeout] *)
  due : Z              (* the instant it fires *)
}.

Definition TIMEOUT_MAX : Z := 2147483647.

(** The runtime honours a delay between 1 and [TIMEOUT_MAX] milliseconds
    and replaces any other by 1. *)
Definition timer_delay (d : Z) : Z :=
  if (1 <=? d) && (d <=? TIMEOUT_MAX) then d else 1.

(** Timers fire in order of their instant, and in creation order among
    timers of the same instant. *)
Definition fires_before (a b : Timer) : bool :=
  (due a <? due b) || ((due a =? due b) && (tid a <? tid b)%nat).

Fixpoint earliest (l : list Timer) : option Timer :=
  match l with
  | [] => None
  | t :: l' =>
      match earliest l' with
      | None => Some t
      | Some t' => if fires_before t' t then Some t' else Some t
      end
  end.

Definition remove_timer (id : nat) (l : list Timer) : list Timer :=
  filter (fun t => negb (tid t =? id)%nat) l.

Definition timers_of (k : TimerKind) (l : list Timer) : list Timer :=
  filter (fun t => TimerKind_eqb (kind t) k) l.

(** ** token-refresh-daemon.ts *)

Module Daemon.

Record DaemonConfig : Type := {
  tmConfig : TokenManager.TokenManagerConfig;
  refreshIntervalMinutes : Z;
  maxRuntimeHours : Z
}.

(** The messages passed to [this.log], with the values they interpolate. *)
Inductive LogMsg : Type :=
| LDaemonStarting                       (* "Token refresh daemon starting..." *)
| LConfiguration (c : DaemonConfig)     (* "Configuration: ..." *)
| LStarting                             (* "Starting token refresh daemon" *)
| LStarted (interval hours : Z)         (* "Daemon started successfully. ..." *)
| LFailedToStart (e : Err)              (* "Failed to start daemon: ..." *)
| LUncaught (e : Err)                   (* "Uncaught exception: ..." *)
| LMaxRuntimeReached (hours : Z)        (* "Maximum runtime of ... reached" *)
| LRefreshing                           (* "Refreshing GitHub App token..." *)
| LObtainedToken (expires : Timestamp)  (* "Successfully obtained token ..." *)
| LRefreshCompleted (n : Z) (next : Timestamp)
| LRefreshFailed (e : Err)              (* "Token refresh failed: ..." *)
| LUpdatingGit | LGitUpdated
| LGitFailed (e : Err)
| LUpdatingGh | LGhUpdated
| LGhFailed (e : Err)
| LScheduledRefreshFailed (e : Err)     (* "Scheduled refresh failed: ..." *)
| LShuttingDown (reason : string)       (* "Shutting down daemon (reason: ...)" *)
| LShutdownComplete                     (* "Daemon shutdown complete" *)
| LFailedToUpdateStatus (e : Err).      (* "Failed to update status: ..." *)

(** The fields of [TokenRefreshDaemon], then the part of the process and
    of the file system the class acts on.  [ticks] is a ghost counter of
    the calls of [refreshTokenAndAuth]. *)
Record t : Type := {
  config : DaemonConfig;
  tokenManager : TokenManager.t;
  refreshTimer : option nat;
  maxRuntimeTimer : option nat;
  refreshCount : Z;
  (* process *)
  process_pid : Z;
  clock : Z;
  timers : list Timer;          (* pending [setTimeout] timers *)
  nextTimerId : nat;
  keepAlive : bool;             (* the 10 s [setInterval] is armed *)
  (* files *)
  statusFile : option Status.StatusFile;
  logFile : list (Timestamp * LogMsg);
  (* ghost *)
  ticks : nat
}.

Definition set_tokenManager (v : TokenManager.t) (s : t) : t :=
  {| config := config s; tokenManager := v; refreshTimer := refreshTimer s;
     maxRuntimeTimer := maxRuntimeTimer s; refreshCount := refreshCount s;
     process_pid := process_pid s; clock := clock s; timers := timers s;
     nextTimerId := nextTimerId s; keepAlive := keepAlive s;
     statusFile := statusFile s; logFile := logFile s; ticks := ticks s |}.

Definition set_refreshTimer (v : option nat) (s : t) : t :=
  {| config := config s; tokenManager := tokenManager s; refreshTimer := v;
     maxRuntimeTimer := maxRuntimeTimer s; refreshCount := refreshCount s;
     process_pid := process_pid s; clock := clock s; timers := timers s;
     nextTimerId := nextTimerId s; keepAlive := keepAlive s;
     statusFile := statusFile s; logFile := logFile s; ticks := ticks s |}.

Definition set_maxRuntimeTimer (v : option nat) (s : t) : t :=
  {| config := config s; tokenManager := tokenManager s;
     refreshTimer := refreshTimer s;
     maxRuntimeTimer := v; refreshCount := refreshCount s;
     process_pid := process_pid s; clock := clock s; timers := timers s;
     nextTimerId := nextTimerId s; keepAlive := keepAlive s;
     statusFile := statusFile s; logFile := logFile s; ticks := ticks s |}.

Definition set_refreshCount (v : Z) (s : t) : t :=
  {| config := config s; tokenManager := tokenManager s;
     refreshTimer := refreshTimer s;
     maxRuntimeTimer := maxRuntimeTimer s; refreshCount := v;
     process_pid := process_pid s; clock := clock s; timers := timers s;
     nextTimerId := nextTimerId s; keepAlive := keepAlive s;
     statusFile := statusFile s; logFile := logFile s; ticks := ticks s |}.

Definition set_clock (v : Z) (s : t) : t :=
  {| config := config s; tokenManager := tokenManager s;
     refreshTimer := refreshTimer s;
     maxRuntimeTimer := maxRuntimeTimer s; refreshCount := refreshCount s;
     process_pid := process_pid s; clock := v; timers := timers s;
     nextTimerId := nextTimerId s; keepAlive := keepAlive s;
     statusFile := statusFile s; logFile := logFile s; ticks := ticks s |}.

Definition set_timers (v : list Timer) (n : nat) (s : t) : t :=
  {| config := config s; tokenManager := tokenManager s;
     refreshTimer := refreshTimer s;
     maxRuntimeTimer := maxRuntimeTimer s; refreshCount := refreshCount s;
     process_pid := process_pid s; clock := clock s; timers := v;
     nextTimerId := n; keepAlive := keepAlive s;
     statusFile := statusFile s; logFile := logFile s; ticks := ticks s |}.

Definition set_keepAlive (v : bool) (s : t) : t :=
  {| config := config s; tokenManager := tokenManager s;
     refreshTimer := refreshTimer s;
     maxRuntimeTimer := maxRuntimeTimer s; refreshCount := refreshCount s;
     process_pid := process_pid s; clock := clock s; timers := timers s;
     nextTimerId := nextTimerId s; keepAlive := v;
     statusFile := statusFile s; logFile := logFile s; ticks := ticks s |}.

Definition set_statusFile (v : option Status.StatusFile) (s : t) : t :=
  {| config := config s; tokenManager := tokenManager s;
     refreshTimer := refreshTimer s;
     maxRuntimeTimer := maxRuntimeTimer s; refreshCount := refreshCount s;
     process_pid := process_pid s; clock := clock s; timers := timers s;
     nextTimerId := nextTimerId s; keepAlive := keepAlive s;
     statusFile := v; logFile := logFile s; ticks := ticks s |}.

Definition set_logFile (v : list (Timestamp * LogMsg)) (s : t) : t :=
  {| config := config s; tokenManager := tokenManager s;
     refreshTimer := refreshTimer s;
     maxRuntimeTimer := maxRuntimeTimer s; refreshCount := refreshCount s;
     process_pid := process_pid s; clock := clock s; timers := timers s;
     nextTimerId := nextTimerId s; keepAlive := keepAlive s;
     statusFile := statusFile s; logFile := v; ticks := ticks s |}.

Definition set_ticks (v : nat) (s : t) : t :=
  {| config := config s; tokenManager := tokenManager s;
     refreshTimer := refreshTimer s;
     maxRuntimeTimer := maxRuntimeTimer s; refreshCount := refreshCount s;
     process_pid := process_pid s; clock := clock s; timers := timers s;
     nextTimerId := nextTimerId s; keepAlive := keepAlive s;
     statusFile := statusFile s; logFile := logFile s; ticks := v |}.

(** *** The monad of the daemon's code

    A piece of code run from a state returns, throws, or ends the
    process with [process.exit(code)]. *)
Inductive Res (A : Type) : Type :=
| Ok (a : A) (s : t)
| Thrown (e : Err) (s : t)
| Exit (code : Z) (s : t).
Arguments Ok {A} a s.
Arguments Thrown {A} e s.
Arguments Exit {A} code s.

Definition M (A : Type) : Type := t -> Res A.

Definition ret {A : Type} (a : A) : M A := fun s => Ok a s.

Definition bind {A B : Type} (m : M A) (k : A -> M B) : M B :=
  fun s => match m s with
           | Ok a s' => k a s'
           | Thrown e s' => Thrown e s'
           | Exit c s' => Exit c s'
           end.

Definition throw {A : Type} (e : Err) : M A := fun s => Thrown e s.

Definition process_exit {A : Type} (code : Z) : M A := fun s => Exit code s.

(** [try { body } catch (error) { handler }] *)
Definition try_catch {A : Type} (body : M A) (handler : Err -> M A) : M A :=
  fun s => match body s with
           | Thrown e s' => handler e s'
           | r => r
           end.

Definition get {A : Type} (f : t -> A) : M A := fun s => Ok (f s) s.
Definition modify (f : t -> t) : M unit := fun s => Ok tt (f s).

Declare Scope daemon_scope.
Delimit Scope daemon_scope with daemon.
Notation "x <- m ;; k" := (bind m (fun x => k))
  (at level 61, m at next level, right associativity) : daemon_scope.
Notation "m ;; k" := (bind m (fun _ => k))
  (at level 61, right associativity) : daemon_scope.
Open Scope daemon_scope.

(** *** Runtime services *)

(** [log(message)]: the entry is stamped with [new Date()]; a failing
    append is ignored by the code. *)
Definition log (msg : LogMsg) : M unit :=
  modify (fun s => set_logFile (logFile s ++ [(clock s, msg)]) s).

(** [setTimeout(callback, ms)] returns the new timer. *)
Definition setTimeout (k : TimerKind) (ms : Z) : M nat :=
  fun s =>
    let id := nextTimerId s in
    let tm := {| tid := id; kind := k; delay := ms;
                 due := clock s + timer_delay ms |} in
    Ok id (set_timers (timers s ++ [tm]) (S id) s).

(** [clearTimeout(timer)]: no effect on a timer that has fired. *)
Definition clearTimeout (id : nat) : M unit :=
  modify (fun s => set_timers (remove_timer id (timers s)) (nextTimerId s) s).

(** [if (timer) { clearTimeout(timer) }] *)
Definition clear_if_set (tm : option nat) : M unit :=
  match tm with
  | Some id => clearTimeout id
  | None => ret tt
  end.

(** *** [updateStatus] *)

(** The [if (fs.existsSync(...)) ... else ...] that yields
    [currentStatus]. *)
Definition currentStatus : M Status.DaemonStatus :=
  fun s =>
    match statusFile s with
    | Some (Status.Json st) => Ok st s
    | Some Status.Garbage => Thrown JsonSyntaxError s
    | None =>
        Ok {| Status.pid := process_pid s;
              Status.startTime := clock s;
              Status.status := "running";
              Status.lastRefresh := None;
              Status.nextRefresh := None;
              Status.refreshCount := 0 |} s
    end.

Definition updateStatus (updates : Status.StatusUpdate) : M unit :=
  try_catch
    (cur <- currentStatus ;;
     let newStatus := Status.merge cur updates in
     modify (set_statusFile (Some (Status.Json newStatus))))
    (fun error => log (LFailedToUpdateStatus error)).

(** What [updateStatus], run at [now] in the process [pid], makes of
    the status file (lemma [updateStatus_statusFile] below). *)
Definition statusFile_after (pid now : Z) (updates : Status.StatusUpdate)
           (f : option Status.StatusFile) : option Status.StatusFile :=
  match f with
  | Some (Status.Json st) => Some (Status.Json (Status.merge st updates))
  | Some Status.Garbage => Some Status.Garbage
  | None =>
      Some (Status.Json
              (Status.merge
                 {| Status.pid := pid;
                    Status.startTime := now;
                    Status.status := "running";
                    Status.lastRefresh := None;
                    Status.nextRefresh := None;
                    Status.refreshCount := 0 |} updates))
  end.

(** *** [shutdown] *)

Definition shutdown (reason : string) : M unit :=
  log (LShuttingDown reason) ;;
  rt <- get refreshTimer ;;
  clear_if_set rt ;;
  mt <- get maxRuntimeTimer ;;
  clear_if_set mt ;;
  updateStatus (Status.status_only "stopped") ;;
  log LShutdownComplete ;;
  process_exit 0.

(** The callback of the maximum-runtime timer set by [start]. *)
Definition maxRuntimeCallback : M unit :=
  hours <- get (fun s => maxRuntimeHours (config s)) ;;
  log (LMaxRuntimeReached hours) ;;
  shutdown "MAX_RUNTIME".

(** The [SIGTERM] and [SIGINT] handlers installed by [start]. *)
Definition onSignal (sig : string) : M unit := shutdown sig.

(** The ["uncaughtException"] handler installed by [start]. *)
Definition onUncaughtException (error : Err) : M unit :=
  log (LUncaught error) ;;
  updateStatus (Status.status_only "error") ;;
  process_exit 1.

(** The timer has fired: it is no longer pending and the clock stands
    at its instant, or later when the loop was busy. *)
Definition fired (tm : Timer) (s : t) : t :=
  set_timers (remove_timer (tid tm) (timers s)) (nextTimerId s)
    (set_clock (Z.max (clock s) (due tm)) s).

(** [await] of an operation that completes after [ms] milliseconds.
    While the code is suspended the event loop runs the callbacks that
    come due; during a refresh no refresh timer is pending (the one that
    started it has fired and the next is set when it ends), so the only
    one is the maximum-runtime callback, which ends the process. *)
Definition await (ms : Z) : M unit :=
  fun s =>
    let wake := clock s + ms in
    match earliest (filter (fun tm => due tm <=? wake)
                           (timers_of MaxRuntimeTimer (timers s))) with
    | Some tm => maxRuntimeCallback (fired tm s)
    | None => Ok tt (set_clock wake s)
    end.

(** *** One refresh *)

(** What the outside world does during one call of
    [refreshTokenAndAuth]: the answer of the authentication handshake,
    the exit codes of the three subprocesses, and how long each takes.
    Every subprocess is one that was created and has closed, and the
    token was written to the input of [gh auth login]: a command that
    cannot be spawned, or a write that fails, emits an ["error"] event
    for which the source registers no listener, and is not among the
    outcomes described here. *)
Record TickEnv : Type := {
  auth : TokenManager.AuthOutcome;   authMs : Z;
  gitConfig : Z;                     gitConfigMs : Z;
  ghLogin : Z;                       ghLoginMs : Z;
  ghSetupGit : Z;                    ghSetupGitMs : Z
}.

(** [this.tokenManager.getToken()] *)
Definition tokenManager_getToken (te : TickEnv) : M TokenManager.TokenInfo :=
  await (authMs te) ;;
  fun s =>
    match TokenManager.getToken (clock s) (auth te) (tokenManager s) with
    | Returns ti tm => Ok ti (set_tokenManager tm s)
    | Throws e tm => Thrown e (set_tokenManager tm s)
    end.

(** [runCommand(command, args)]: resolves when the subprocess closes
    with code 0 and rejects otherwise; [code] is the exit code of a
    subprocess that was created. *)
Definition runCommand (command : string) (args : list string)
           (code ms : Z) : M unit :=
  await ms ;;
  if code =? 0 then ret tt else throw (CommandFailed command args).

Definition updateGitAuth (token : string) (te : TickEnv) : M unit :=
  try_catch
    (log LUpdatingGit ;;
     runCommand "git"
       ["config"; "--global";
        "url.https://x-access-token:" ++ token ++ "@github.com/.insteadOf";
        "https://github.com/"]%string
       (gitConfig te) (gitConfigMs te) ;;
     log LGitUpdated)
    (fun error => log (LGitFailed error) ;; throw error).

Definition updateGhAuth (token : string) (te : TickEnv) : M unit :=
  try_catch
    (log LUpdatingGh ;;
     (* gh auth login --with-token, the token written to its stdin *)
     await (ghLoginMs te) ;;
     (if ghLogin te =? 0 then ret tt
      else throw (GhLoginFailed (ghLogin te))) ;;
     runCommand "gh" ["auth"; "setup-git"]%string
       (ghSetupGit te) (ghSetupGitMs te) ;;
     log LGhUpdated)
    (fun error => log (LGhFailed error) ;; throw error).

Definition refreshTokenAndAuth (te : TickEnv) : M unit :=
  modify (fun s => set_ticks (S (ticks s)) s) ;;
  try_catch
    (log LRefreshing ;;
     tokenInfo <- tokenManager_getToken te ;;
     log (LObtainedToken (TokenManager.expiresAt tokenInfo)) ;;
     updateGitAuth (TokenManager.token tokenInfo) te ;;
     updateGhAuth (TokenManager.token tokenInfo) te ;;
     modify (fun s => set_refreshCount (refreshCount s + 1) s) ;;
     nextRefresh <- get (fun s =>
       clock s + refreshIntervalMinutes (config s) * 60 * 1000) ;;
     now <- get clock ;;
     count <- get refreshCount ;;
     updateStatus
       {| Status.u_pid := None; Status.u_startTime := None;
          Status.u_status := None;
          Status.u_lastRefresh := Some now;
          Status.u_nextRefresh := Some nextRefresh;
          Status.u_refreshCount := Some count |} ;;
     log (LRefreshCompleted count nextRefresh))
    (fun error =>
       log (LRefreshFailed error) ;;
       updateStatus (Status.status_only "error") ;;
       throw error).

(** *** Scheduling *)

Definition scheduleNextRefresh : M unit :=
  rt <- get refreshTimer ;;
  clear_if_set rt ;;
  intervalMs <- get (fun s => refreshIntervalMinutes (config s) * 60 * 1000) ;;
  id <- setTimeout RefreshTimer intervalMs ;;
  modify (set_refreshTimer (Some id)).

(** The callback [scheduleNextRefresh] passes to [setTimeout]. *)
Definition refreshCallback (te : TickEnv) : M unit :=
  try_catch
    (refreshTokenAndAuth te ;;
     scheduleNextRefresh)
    (fun error =>
       log (LScheduledRefreshFailed error) ;;
       scheduleNextRefresh).

(** *** Construction, [start] and the event loop *)

(** [new TokenRefreshDaemon()] in a process [pid] whose environment holds
    the configuration [c], at the instant [now], with the status file
    [sf] and the log file [lf] as found on disk. *)
Definition new (c : DaemonConfig) (pid now : Z)
           (sf : option Status.StatusFile)
           (lf : list (Timestamp * LogMsg)) : t :=
  {| config := c;
     tokenManager := TokenManager.new (tmConfig c);
     refreshTimer := None; maxRuntimeTimer := None; refreshCount := 0;
     process_pid := pid; clock := now; timers := []; nextTimerId := O;
     keepAlive := false;
     statusFile := sf;
     logFile := lf ++ [(now, LDaemonStarting); (now, LConfiguration c)];
     ticks := O |}.

(** [start()]; [te] is what the world does during the initial refresh. *)
Definition start (te : TickEnv) : M unit :=
  try_catch
    (log LStarting ;;
     (* signal and uncaughtException handlers: [onSignal],
        [onUncaughtException] *)
     pid <- get process_pid ;;
     now <- get clock ;;
     updateStatus
       {| Status.u_pid := Some pid; Status.u_startTime := Some now;
          Status.u_status := Some "running"%string;
          Status.u_lastRefresh := None; Status.u_nextRefresh := None;
          Status.u_refreshCount := Some 0 |} ;;
     refreshTokenAndAuth te ;;
     scheduleNextRefresh ;;
     maxRuntimeMs <- get (fun s => maxRuntimeHours (config s) * 60 * 60 * 1000) ;;
     id <- setTimeout MaxRuntimeTimer maxRuntimeMs ;;
     modify (set_maxRuntimeTimer (Some id)) ;;
     interval <- get (fun s => refreshIntervalMinutes (config s)) ;;
     hours <- get (fun s => maxRuntimeHours (config s)) ;;
     log (LStarted interval hours) ;;
     (* setInterval(() => {}, 10000): its callback does nothing *)
     modify (set_keepAlive true))
    (fun error =>
       log (LFailedToStart error) ;;
       updateStatus (Status.status_only "error") ;;
       process_exit 1).

(** The world as the daemon meets it: what happens during its [n]-th
    refresh (the initial one is number 0). *)
Definition World : Type := nat -> TickEnv.

(** The event loop runs the callback of a timer that has come due.  An
    exception that escapes it reaches the ["uncaughtException"]
    handler. *)
Definition fire (tm : Timer) (w : World) : M unit :=
  try_catch
    (modify (fired tm) ;;
     match kind tm with
     | RefreshTimer => n <- get ticks ;; refreshCallback (w n)
     | MaxRuntimeTimer => maxRuntimeCallback
     end)
    onUncaughtException.

(** The loop, for at most [fuel] timers.  The keep-alive interval, whose
    callback is empty, is left out. *)
Fixpoint eventLoop (fuel : nat) (w : World) : M unit :=
  match fuel with
  | O => ret tt
  | S fuel' =>
      fun s =>
        match earliest (timers s) with
        | None => Ok tt s
        | Some tm => (fire tm w ;; eventLoop fuel' w) s
        end
  end.

(** [daemon.start()] followed by the event loop. *)
Definition main (fuel : nat) (w : World) : M unit :=
  start (w O) ;; eventLoop fuel w.

End Daemon.

(** ** JavaScript strings

    The text of a file read with [fs.readFileSync(path, "utf8")] is a
    JavaScript string: a sequence of UTF-16 code units. *)

Module JsString.

Definition t : Type := list N.

(** A literal of the source (ASCII). *)
Fixpoint lit (s : string) : t :=
  match s with
  | EmptyString => []
  | String c s' => N_of_ascii c :: lit s'
  end.

Definition LF : N := 10%N.

(** ECMAScript [WhiteSpace] and [LineTerminator] code units: what
    [String.prototype.trim] strips. *)
Definition is_whitespace (c : N) : bool :=
  ((9 <=? c) && (c <=? 13) || (c =? 32) || (c =? 160) || (c =? 5760)
   || (8192 <=? c) && (c <=? 8202) || (c =? 8232) || (c =? 8233)
   || (c =? 8239) || (c =? 8287) || (c =? 12288) || (c =? 65279))%N.

Fixpoint trimStart (s : t) : t :=
  match s with
  | c :: s' => if is_whitespace c then trimStart s' else s
  | [] => []
  end.

Definition trimEnd (s : t) : t := rev (trimStart (rev s)).

(** [s.trim()] *)
Definition trim (s : t) : t := trimEnd (trimStart s).

(** Truthiness of a string: it is not empty. *)
Definition truthy (s : t) : bool :=
  match s with [] => false | _ :: _ => true end.

(** [s.split("\n")]: never empty; [cur] is the line being read, kept
    in reverse. *)
Fixpoint split_from (cur : t) (s : t) : list t :=
  match s with
  | [] => [rev cur]
  | c :: s' =>
      if (c =? LF)%N then rev cur :: split_from [] s'
      else split_from (c :: cur) s'
  end.

Definition split_lines (s : t) : list t := split_from [] s.

(** [lines.join("\n")] *)
Fixpoint join_lines (l : list t) : t :=
  match l with
  | [] => []
  | [x] => x
  | x :: l' => x ++ LF :: join_lines l'
  end.

(** [array.slice(start)] for an integer [start]: a negative [start]
    counts from the end. *)
Definition slice_from {A : Type} (start : Z) (l : list A) : list A :=
  let len := Z.of_nat (List.length l) in
  let k := if start <? 0 then Z.max (len + start) 0 else Z.min start len in
  skipn (Z.to_nat k) l.

Definition is_digit (c : N) : bool := ((48 <=? c) && (c <=? 57))%N.

(** Value of the longest prefix of decimal digits, [None] when there is
    none. *)
Fixpoint digits_from (acc : option Z) (s : t) : option Z :=
  match s with
  | c :: s' =>
      if is_digit c
      then digits_from
             (Some (10 * match acc with Some a => a | None => 0 end
                    + Z.of_N (c - 48))) s'
      else acc
  | [] => acc
  end.

(** [parseInt(s, 10)]; [None] is [NaN].  The result is exact as long as
    it is a safe integer (below [2 ^ 53] in magnitude); beyond that
    JavaScript rounds to the nearest double, which [Z] does not. *)
Definition parseInt (s : t) : option Z :=
  match trimStart s with
  | 45%N :: s' => option_map Z.opp (digits_from None s')   (* "-" *)
  | 43%N :: s' => digits_from None s'                      (* "+" *)
  | s' => digits_from None s'
  end.

Fixpoint of_uint (d : Decimal.uint) : t :=
  match d with
  | Decimal.Nil => []
  | Decimal.D0 d' => 48%N :: of_uint d'
  | Decimal.D1 d' => 49%N :: of_uint d'
  | Decimal.D2 d' => 50%N :: of_uint d'
  | Decimal.D3 d' => 51%N :: of_uint d'
  | Decimal.D4 d' => 52%N :: of_uint d'
  | Decimal.D5 d' => 53%N :: of_uint d'
  | Decimal.D6 d' => 54%N :: of_uint d'
  | Decimal.D7 d' => 55%N :: of_uint d'
  | Decimal.D8 d' => 56%N :: of_uint d'
  | Decimal.D9 d' => 57%N :: of_uint d'
  end.

(** [n.toString()] of an integer: its decimal digits.  JavaScript
    prints the digits of every safe integer (below [2 ^ 53] in
    magnitude) and changes to exponent notation from [1e21] on. *)
Definition toString (n : Z) : t :=
  match Z.to_int n with
  | Decimal.Pos d => of_uint d
  | Decimal.Neg d => 45%N :: of_uint d
  end.

End JsString.

(** ** daemon-controller.ts *)

Module Controller.

(** [interface DaemonConfig] of the controller: the two numbers and the
    log file are optional. *)
Record DaemonConfig : Type := {
  tmConfig : TokenManager.TokenManagerConfig;
  refreshIntervalMinutes : option Z;
  maxRuntimeHours : option Z;
  cfg_logFile : option string
}.

(** The fields of [DaemonController], then the part of the caller's
    process, of the operating system and of the file system it acts on.
    [daemonProcess] is the [ChildProcess] handle, whose [pid] is
    undefined when the spawn failed; [exitListeners] are the children
    whose ["exit"] listener is registered and has not run. *)
Record t : Type := {
  config : DaemonConfig;
  daemonProcess : option (option Z);
  exitListeners : list Z;
  clock : Z;
  live : list Z;                       (* pids of the running processes *)
  statusFile : option Status.StatusFile;
  pidFile : option JsString.t;
  logFile : option JsString.t
}.

(** [new DaemonController(config)]: the defaults are overridden by the
    fields the caller gives. *)
Definition new (c : DaemonConfig) (now : Z) (procs : list Z)
           (sf : option Status.StatusFile) (pf lf : option JsString.t) : t :=
  {| config :=
       {| tmConfig := tmConfig c;
          refreshIntervalMinutes :=
            Status.overlay_opt (Some 30) (refreshIntervalMinutes c);
          maxRuntimeHours := Status.overlay_opt (Some 6) (maxRuntimeHours c);
          cfg_logFile := cfg_logFile c |};
     daemonProcess := None; exitListeners := [];
     clock := now; live := procs;
     statusFile := sf; pidFile := pf; logFile := lf |}.

Definition set_daemonProcess (v : option (option Z)) (w : t) : t :=
  {| config := config w; daemonProcess := v;
     exitListeners := exitListeners w; clock := clock w; live := live w;
     statusFile := statusFile w; pidFile := pidFile w; logFile := logFile w |}.

Definition set_exitListeners (v : list Z) (w : t) : t :=
  {| config := config w; daemonProcess := daemonProcess w;
     exitListeners := v; clock := clock w; live := live w;
     statusFile := statusFile w; pidFile := pidFile w; logFile := logFile w |}.

Definition set_clock (v : Z) (w : t) : t :=
  {| config := config w; daemonProcess := daemonProcess w;
     exitListeners := exitListeners w; clock := v; live := live w;
     statusFile := statusFile w; pidFile := pidFile w; logFile := logFile w |}.

Definition set_live (v : list Z) (w : t) : t :=
  {| config := config w; daemonProcess := daemonProcess w;
     exitListeners := exitListeners w; clock := clock w; live := v;
     statusFile := statusFile w; pidFile := pidFile w; logFile := logFile w |}.

Definition set_statusFile (v : option Status.StatusFile) (w : t) : t :=
  {| config := config w; daemonProcess := daemonProcess w;
     exitListeners := exitListeners w; clock := clock w; live := live w;
     statusFile := v; pidFile := pidFile w; logFile := logFile w |}.

Definition set_pidFile (v : option JsString.t) (w : t) : t :=
  {| config := config w; daemonProcess := daemonProcess w;
     exitListeners := exitListeners w; clock := clock w; live := live w;
     statusFile := statusFile w; pidFile := v; logFile := logFile w |}.

Definition set_logFile (v : option JsString.t) (w : t) : t :=
  {| config := config w; daemonProcess := daemonProcess w;
     exitListeners := exitListeners w; clock := clock w; live := live w;
     statusFile := statusFile w; pidFile := pidFile w; logFile := v |}.

(** *** The monad of the controller's code: return or throw *)

Definition C (A : Type) : Type := t -> Outcome t A.

Definition ret {A : Type} (a : A) : C A := fun w => Returns a w.

Definition bind {A B : Type} (m : C A) (k : A -> C B) : C B :=
  fun w => match m w with
           | Returns a w' => k a w'
           | Throws e w' => Throws e w'
           end.

Definition throw {A : Type} (e : Err) : C A := fun w => Throws e w.

Definition try_catch {A : Type} (body : C A) (handler : Err -> C A) : C A :=
  fun w => match body w with
           | Throws e w' => handler e w'
           | r => r
           end.

Definition get {A : Type} (f : t -> A) : C A := fun w => Returns (f w) w.
Definition modify (f : t -> t) : C unit := fun w => Returns tt (f w).

Declare Scope controller_scope.
Delimit Scope controller_scope with controller.
Notation "x <- m ;; k" := (bind m (fun x => k))
  (at level 61, m at next level, right associativity) : controller_scope.
Notation "m ;; k" := (bind m (fun _ => k))
  (at level 61, right associativity) : controller_scope.
Open Scope controller_scope.

(** *** The operating system *)

Inductive Signal : Type := SIG0 | SIGTERM | SIGKILL.

Definition is_live (pid : Z) (procs : list Z) : bool :=
  existsb (Z.eqb pid) procs.

Definition kill_process (pid : Z) (procs : list Z) : list Z :=
  filter (fun p => negb (p =? pid)) procs.

(** [process.kill(pid, signal)]: throws when no process has this pid.
    Signal 0 only probes; [SIGKILL] ends the process at once; what
    [SIGTERM] leads to shows during the wait that follows it
    ([gracePeriod]).  This is the call for a [pid] that names one
    process, a positive number.  With a negative [pid] the operating
    system signals every process of the group [- pid]; [live] does not
    record groups, so what is proved about which processes end is stated
    for targets that are not negative ([targetsOneProcess] below). *)
Definition process_kill (pid : Z) (sig : Signal) : C unit :=
  fun w =>
    if is_live pid (live w) then
      match sig with
      | SIGKILL => Returns tt (set_live (kill_process pid (live w)) w)
      | _ => Returns tt w
      end
    else Throws (NoSuchProcess pid) w.

(** [isProcessRunning(pid)] *)
Definition isProcessRunning (pid : Z) : C bool :=
  try_catch (process_kill pid SIG0 ;; ret true) (fun _ => ret false).

(** *** Status file *)

(** [getStatus()]: the [catch] turns a failing [JSON.parse] into
    [null]. *)
Definition getStatus : C (option Status.DaemonStatus) :=
  try_catch
    (fun w =>
       match statusFile w with
       | None => Returns None w
       | Some Status.Garbage => Throws JsonSyntaxError w
       | Some (Status.Json st) => Returns (Some st) w
       end)
    (fun _ => ret None).

(** [updateStatus(updates)] *)
Definition updateStatus (updates : Status.StatusUpdate) : C unit :=
  try_catch
    (cur <- getStatus ;;
     now <- get clock ;;
     let currentStatus :=
       match cur with
       | Some st => st
       | None => {| Status.pid := 0; Status.startTime := now;
                    Status.status := "stopped";
                    Status.lastRefresh := None; Status.nextRefresh := None;
                    Status.refreshCount := 0 |}
       end in
     let newStatus := Status.merge currentStatus updates in
     modify (set_statusFile (Some (Status.Json newStatus))))
    (fun _ => ret tt).

(** The ["exit"] listener [startDaemon] registers on the child: it runs
    once, after the child has ended. *)
Definition onChildExit (child : Z) : C unit :=
  modify (fun w => set_exitListeners
                     (filter (fun p => negb (p =? child)) (exitListeners w)) w) ;;
  updateStatus (Status.status_only "stopped").

(** The ["data"] listeners on the child's output: [tag] is ["[STDOUT] "]
    or ["[STDERR] "]. *)
Definition onChildData (tag : string) (data : JsString.t) : C unit :=
  modify (fun w =>
    set_logFile
      (Some (match logFile w with Some c => c | None => [] end
             ++ JsString.lit tag ++ data)) w).

(** *** [stopDaemon] *)

(** What the process that was sent [SIGTERM] does during the two
    seconds the controller waits: it is still there at the end, or it
    has ended, after writing the final ["stopped"] record when
    [wroteStopped] (the daemon's [shutdown]); when [notified], the
    child's ["exit"] listener, if one is registered, has run during the
    wait. *)
Inductive Grace : Type :=
| Survives
| Exits (wroteStopped notified : bool).

(** [await new Promise((resolve) => setTimeout(resolve, 2000))] *)
Definition gracePeriod (g : Grace) (pid : Z) : C unit :=
  match g with
  | Survives => ret tt
  | Exits wroteStopped notified =>
      (if wroteStopped
       then modify (fun w =>
              set_statusFile
                (Daemon.statusFile_after pid (clock w)
                   (Status.status_only "stopped") (statusFile w)) w)
       else ret tt) ;;
      modify (fun w => set_live (kill_process pid (live w)) w) ;;
      listeners <- get exitListeners ;;
      if notified && is_live pid listeners then onChildExit pid else ret tt
  end ;;
  modify (fun w => set_clock (clock w + 2000) w).

(** [if (fs.existsSync(file)) { fs.unlinkSync(file) }] for the pid file
    and the status file. *)
Definition cleanUpFiles : C unit :=
  modify (set_pidFile None) ;;
  modify (set_statusFile None).

(** The pid [stopDaemon] acts on; [None] is [null] or [NaN]. *)
Definition targetPid (w : t) : option Z :=
  let fromFile :=
    match pidFile w with
    | Some pidStr => JsString.parseInt (JsString.trim pidStr)
    | None => None
    end in
  match daemonProcess w with
  | Some (Some p) => if truthy_number p then Some p else fromFile
  | _ => fromFile
  end.

Definition stopDaemon (g : Grace) : C unit :=
  try_catch
    (pid <- get targetPid ;;
     match pid with
     | Some p =>
         if truthy_number p then
           running <- isProcessRunning p ;;
           if running then
             process_kill p SIGTERM ;;
             gracePeriod g p ;;
             still <- isProcessRunning p ;;
             if still then process_kill p SIGKILL else ret tt
           else ret tt
         else ret tt
     | None => ret tt
     end ;;
     cleanUpFiles ;;
     modify (set_daemonProcess None))
    (fun _ => ret tt).

(** *** [startDaemon] *)

(** [spawned] is the pid the operating system gives the child, [None]
    when it refuses to create the process; [g] is what the previous
    daemon, if any, does when told to stop. *)
Definition startDaemon (spawned : option Z) (g : Grace)
  : C Status.DaemonStatus :=
  try_catch
    (stopDaemon g ;;
     modify (fun w =>
       set_daemonProcess (Some spawned)
         (set_live (match spawned with
                    | Some p => p :: live w
                    | None => live w
                    end) w)) ;;
     match spawned with
     | None => throw SpawnFailed
     | Some p =>
         if negb (truthy_number p) then throw SpawnFailed
         else
           modify (set_pidFile (Some (JsString.toString p))) ;;
           (* stdout, stderr and exit listeners *)
           modify (fun w => set_exitListeners (exitListeners w ++ [p]) w) ;;
           now <- get clock ;;
           let initialStatus :=
             {| Status.pid := p; Status.startTime := now;
                Status.status := "running";
                Status.lastRefresh := None; Status.nextRefresh := None;
                Status.refreshCount := 0 |} in
           updateStatus (Status.full_update initialStatus) ;;
           ret initialStatus
     end)
    (fun error => throw error).

(** *** Queries *)

Definition isHealthy : C bool :=
  status <- getStatus ;;
  match status with
  | None => ret false
  | Some st =>
      if negb (String.eqb (Status.status st) "running") then ret false
      else isProcessRunning (Status.pid st)
  end.

(** The lines kept by [lines.slice(-tailLines).filter((line) =>
    line.trim())]. *)
Definition tailNonBlank (tailLines : Z) (lines : list JsString.t)
  : list JsString.t :=
  filter (fun line => JsString.truthy (JsString.trim line))
         (JsString.slice_from (- tailLines) lines).

Definition getLogs (tailLines : Z) : C JsString.t :=
  try_catch
    (lf <- get logFile ;;
     match lf with
     | None => ret (JsString.lit "No logs available")
     | Some logContent =>
         let lines := JsString.split_lines logContent in
         ret (JsString.join_lines (tailNonBlank tailLines lines))
     end)
    (fun error =>
       ret (JsString.lit ("Error reading logs: " ++ Err_message error))).

(** *** The controller seen from outside

    What can happen in the caller's process: a call of one of the
    public operations, or the event loop running a listener that
    [startDaemon] registered on a child. *)
Inductive Op : Type :=
| StartDaemon (spawned : option Z) (g : Grace)
| StopDaemon (g : Grace)
| GetStatus
| IsHealthy
| GetLogs (tailLines : Z)
| ChildExit (child : Z)
| ChildData (tag : string) (data : JsString.t).

(** The ["exit"] event of a child is emitted once, after it ended. *)
Definition enabled (op : Op) (w : t) : bool :=
  match op with
  | ChildExit child =>
      is_live child (exitListeners w) && negb (is_live child (live w))
  | _ => true
  end.

Definition state_of {A : Type} (o : Outcome t A) : t :=
  match o with Returns _ w | Throws _ w => w end.

Definition exec (op : Op) (w : t) : t :=
  match op with
  | StartDaemon spawned g => state_of (startDaemon spawned g w)
  | StopDaemon g => state_of (stopDaemon g w)
  | GetStatus => state_of (getStatus w)
  | IsHealthy => state_of (isHealthy w)
  | GetLogs n => state_of (getLogs n w)
  | ChildExit child => state_of (onChildExit child w)
  | ChildData tag data => state_of (onChildData tag data w)
  end.

Definition step (op : Op) (w : t) : option t :=
  if enabled op w then Some (exec op w) else None.

Fixpoint run (ops : list Op) (w : t) : option t :=
  match ops with
  | [] => Some w
  | op :: ops' =>
      match step op w with
      | Some w' => run ops' w'
      | None => None
      end
  end.

(** The daemon this controller started is running. *)
Definition daemonRunning (w : t) : bool :=
  match daemonProcess w with
  | Some (Some p) => is_live p (live w)
  | _ => false
  end.

End Controller.

(** ** mcp/token-refresh-server.ts *)

Module Server.

(** The classification [checkDaemonHealth] reports in the first line of
    its text. *)
Inductive Health : Type :=
| UnknownNoStatusFile              (* "Unknown - Status file not found" *)
| Warning (minutesAgo : Z)         (* "Daemon Health: Warning" *)
| Healthy (pid : Z) (lastRefresh : option Timestamp) (count : Z)
| ErrorStatus                      (* "Daemon Health: Error" *)
| Stopped                          (* "Daemon Health: Stopped" *)
| DeadProcess (pid : Z)            (* "Daemon Health: Dead Process" *)
| UnknownStatus (status : string)  (* "Daemon Health: Unknown" *)
| CheckFailed (e : Err).           (* "Error - Failed to check health" *)

(** [isProcessRunning(pid)] *)
Definition isProcessRunning (procs : list Z) (pid : Z) : bool :=
  Controller.is_live pid procs.

(** [const refreshIntervalMs = 30 * 60 * 1000; // 30 minutes] *)
Definition refreshIntervalMs : Z := 30 * 60 * 1000.

(** [timeSinceRefresh > refreshIntervalMs * 1.5], on integers. *)
Definition overdue (timeSinceRefresh : Z) : bool :=
  3 * refreshIntervalMs <? 2 * timeSinceRefresh.

(** [Math.round(timeSinceRefresh / (60 * 1000))] *)
Definition roundMinutes (ms : Z) : Z := (2 * ms + 60 * 1000) / (2 * (60 * 1000)).

(** [checkDaemonHealth()] at the instant [now], with the processes
    [procs] running and the status file [sf]. *)
Definition checkDaemonHealth (now : Z) (procs : list Z)
           (sf : option Status.StatusFile) : Health :=
  match sf with
  | None => UnknownNoStatusFile
  | Some Status.Garbage => CheckFailed JsonSyntaxError
  | Some (Status.Json status) =>
      let isProcessRunning := isProcessRunning procs (Status.pid status) in
      if String.eqb (Status.status status) "running" && isProcessRunning then
        let lastRefresh :=
          match Status.lastRefresh status with
          | Some t => t
          | None => 0
          end in
        let timeSinceRefresh := now - lastRefresh in
        if overdue timeSinceRefresh
        then Warning (roundMinutes timeSinceRefresh)
        else Healthy (Status.pid status) (Status.lastRefresh status)
                     (Status.refreshCount status)
      else if String.eqb (Status.status status) "error" then ErrorStatus
      else if String.eqb (Status.status status) "stopped" then Stopped
      else if negb isProcessRunning then DeadProcess (Status.pid status)
      else UnknownStatus (Status.status status)
  end.

(** The text [getTokenRefreshLogs(tailLines)] returns. *)
Definition getTokenRefreshLogs (tailLines : Z) (lf : option JsString.t)
  : JsString.t :=
  match lf with
  | None =>
      JsString.lit "Token refresh daemon log file not found. Daemon may not have started logging yet."
  | Some logContent =>
      let lines := JsString.split_lines logContent in
      let recentLines :=
        JsString.join_lines (Controller.tailNonBlank tailLines lines) in
      JsString.lit "**Token Refresh Daemon Logs (last "
        ++ JsString.toString tailLines
        ++ JsString.lit " lines)**" ++ [JsString.LF; JsString.LF]
        ++ JsString.lit "```" ++ [JsString.LF]
        ++ (if JsString.truthy recentLines then recentLines
            else JsString.lit "No recent logs available")
        ++ [JsString.LF] ++ JsString.lit "```"
  end.

(** The handler of [get_token_refresh_logs]:
    [arguments?.tail_lines || 50]. *)
Definition tailLinesArgument (arg : option Z) : Z :=
  match arg with
  | Some n => if truthy_number n then n else 50
  | None => 50
  end.

End Server.

(** ** github/token.ts *)

Module Token.

(** The environment variables [setupGitHubToken] reads; [None] is a
    variable that is not set. *)
Record Env : Type := {
  OVERRIDE_GITHUB_TOKEN : option string;
  APP_ID : option string;
  APP_PRIVATE_KEY : option string;
  GITHUB_REPOSITORY : option string
}.

(** Truthiness of [process.env.X]: set and not empty. *)
Definition given (v : option string) : option string :=
  match v with
  | Some x => if truthy_string x then Some x else None
  | None => None
  end.

(** [repository.split("/")]; [cur] is the segment being read, kept in
    reverse. *)
Fixpoint split_slash_from (cur : string) (s : string) : list string :=
  match s with
  | EmptyString => [cur]
  | String c s' =>
      if Ascii.eqb c "/" then cur :: split_slash_from EmptyString s'
      else split_slash_from (cur ++ String c EmptyString) s'
  end.

Definition split_slash (s : string) : list string :=
  split_slash_from EmptyString s.

(** [const [repositoryOwner, repositoryName] = repository.split("/")] with
    the check that follows it: [None] when an element is missing or
    empty. *)
Definition ownerAndName (repository : string) : option (string * string) :=
  match split_slash repository with
  | owner :: name :: _ =>
      if truthy_string owner && truthy_string name then Some (owner, name)
      else None
  | _ => None
  end.

(** What [setupGitHubAppAuth] throws before or while it sets things up. *)
Inductive SetupError : Type :=
| MissingAppCredentials       (* "APP_ID and APP_PRIVATE_KEY ... are required" *)
| MissingRepository           (* "GITHUB_REPOSITORY environment variable not found" *)
| InvalidRepository (r : string)   (* "Invalid repository format: ..." *)
| InstallationError (e : TokenManager.LookupError)
| TokenError (e : Err)
| DaemonError (e : Err).

Inductive Setup : Type :=
| Ready (token : string) (tm : TokenManager.t) (w : Controller.t)
| SetupThrows (e : SetupError) (w : Controller.t).

(** What [setupGitHubAppAuth] meets outside. *)
Record AppWorld : Type := {
  appAuth : TokenManager.AppAuthOutcome;
  installation : TokenManager.FetchOutcome;
  handshake : TokenManager.AuthOutcome;
  spawned : option Z;
  grace : Controller.Grace
}.

(** The controller [setupGitHubAppAuth] creates, acting on the processes
    and files of [w]. *)
Definition newController (c : TokenManager.TokenManagerConfig)
           (w : Controller.t) : Controller.t :=
  Controller.new
    {| Controller.tmConfig := c;
       Controller.refreshIntervalMinutes := Some 30;
       Controller.maxRuntimeHours := Some 6;
       Controller.cfg_logFile := None |}
    (Controller.clock w) (Controller.live w)
    (Controller.statusFile w) (Controller.pidFile w) (Controller.logFile w).

(** [setupGitHubAppAuth()], in a process whose files and child processes
    are those of [w]. *)
Definition setupGitHubAppAuth (env : Env) (o : AppWorld) (w : Controller.t)
  : Setup :=
  match given (APP_ID env), given (APP_PRIVATE_KEY env) with
  | Some appId, Some appPrivateKey =>
      match given (GITHUB_REPOSITORY env) with
      | None => SetupThrows MissingRepository w
      | Some repository =>
          match ownerAndName repository with
          | None => SetupThrows (InvalidRepository repository) w
          | Some (repositoryOwner, repositoryName) =>
              let c :=
                {| TokenManager.appId := appId;
                   TokenManager.privateKey := appPrivateKey;
                   TokenManager.cfg_installationId := None;
                   TokenManager.repositoryOwner := repositoryOwner;
                   TokenManager.repositoryName := repositoryName |} in
              let tokenManager := TokenManager.new c in
              match TokenManager.getInstallationId
                      (appAuth o) (installation o) tokenManager with
              | TokenManager.LookupThrows e _ =>
                  SetupThrows (InstallationError e) w
              | TokenManager.Found _ tm1 =>
                  match TokenManager.getToken (Controller.clock w)
                          (handshake o) tm1 with
                  | Throws e _ => SetupThrows (TokenError e) w
                  | Returns initialToken tm2 =>
                      match Controller.startDaemon (spawned o) (grace o)
                              (newController c w) with
                      | Throws e w' => SetupThrows (DaemonError e) w'
                      | Returns _ w' =>
                          Ready (TokenManager.token initialToken) tm2 w'
                      end
                  end
              end
          end
      end
  | _, _ => SetupThrows MissingAppCredentials w
  end.

(** The method [setupGitHubToken] chooses, in its order of priority. *)
Inductive AuthMethod : Type :=
| ProvidedToken (token : string)
| GitHubApp
| Oidc.

Definition authMethod (env : Env) : AuthMethod :=
  match given (OVERRIDE_GITHUB_TOKEN env) with
  | Some providedToken => ProvidedToken providedToken
  | None =>
      match given (APP_ID env), given (APP_PRIVATE_KEY env) with
      | Some _, Some _ => GitHubApp
      | _, _ => Oidc
      end
  end.

(** How [setupGitHubToken] ends: it returns the token, with the
    controller's world when a daemon was started, or the process exits
    with the code given. *)
Inductive TokenSetup : Type :=
| TokenReady (token : string) (daemon : option Controller.t)
| ProcessExit (code : Z) (w : Controller.t).

(** What the OIDC path does ([getOidcToken] and [exchangeForAppToken],
    each under [retryWithBackoff], which is not part of these sources):
    it yields a token, throws, or ends the process with code 0 when the
    workflow validation asks to skip. *)
Inductive OidcOutcome : Type :=
| OidcToken (appToken : string)
| OidcThrows
| OidcSkips.

(** [setupGitHubToken()] *)
Definition setupGitHubToken (env : Env) (o : AppWorld) (oidc : OidcOutcome)
           (w : Controller.t) : TokenSetup :=
  match authMethod env with
  | ProvidedToken providedToken => TokenReady providedToken None
  | GitHubApp =>
      match setupGitHubAppAuth env o w with
      | Ready token _ w' => TokenReady token (Some w')
      | SetupThrows _ w' => ProcessExit 1 w'
      end
  | Oidc =>
      match oidc with
      | OidcToken appToken => TokenReady appToken None
      | OidcThrows => ProcessExit 1 w
      | OidcSkips => ProcessExit 0 w
      end
  end.

End Token.

(** * Statements and sample inputs

    The notions the properties below are stated with, the claims that
    turn out false written as propositions, and the concrete inputs the
    properties are run on. *)

Definition sample_tmConfig : TokenManager.TokenManagerConfig :=
  {| TokenManager.appId := "12345";
     TokenManager.privateKey := "key";
     TokenManager.cfg_installationId := None;
     TokenManager.repositoryOwner := "octo";
     TokenManager.repositoryName := "repo" |}.

Definition sample_authResult : TokenManager.AuthResult :=
  {| TokenManager.ar_token := Some "ghs_token"%string;
     TokenManager.ar_expiresAt := None;
     TokenManager.ar_installationId := None |}.

Definition cached_token : TokenManager.TokenInfo :=
  {| TokenManager.token := "ghs_old";
     TokenManager.expiresAt := 3600000;
     TokenManager.installationId := 7 |}.

(** The last [n] elements of a list. *)
Definition last_n {A : Type} (n : nat) (l : list A) : list A :=
  skipn (List.length l - n) l.

(** A line that [filter((line) => line.trim())] keeps. *)
Definition nonBlank (line : JsString.t) : bool :=
  JsString.truthy (JsString.trim line).


Definition sample_status (st : string) (p : Z) (last : option Timestamp)
  : Status.DaemonStatus :=
  {| Status.pid := p; Status.startTime := 0; Status.status := st;
     Status.lastRefresh := last; Status.nextRefresh := None;
     Status.refreshCount := 3 |}.

(** The health query follows a refresh interval of [minutes] minutes:
    for a running daemon it reports a warning exactly when more than 1.5
    times that interval has passed since the last refresh. *)
Definition health_follows_interval (minutes : Z) : Prop :=
  forall (now last : Z) (procs : list Z) (st : Status.DaemonStatus),
    Status.status st = "running"%string ->
    In (Status.pid st) procs ->
    Status.lastRefresh st = Some last ->
    (exists m, Server.checkDaemonHealth now procs (Some (Status.Json st))
               = Server.Warning m)
    <-> 3 * (minutes * 60 * 1000) < 2 * (now - last).

Definition sample_controller (procs : list Z)
           (sf : option Status.StatusFile) (pf lf : option JsString.t)
  : Controller.t :=
  Controller.new
    {| Controller.tmConfig := sample_tmConfig;
       Controller.refreshIntervalMinutes := None;
       Controller.maxRuntimeHours := None;
       Controller.cfg_logFile := None |} 0 procs sf pf lf.

Definition three_line_log : JsString.t :=
  JsString.lit "one" ++ JsString.LF :: JsString.lit "two"
    ++ JsString.LF :: JsString.lit "three" ++ [JsString.LF].




(** The operations of the controller that C4 allows to change the
    status file. *)
Definition startsOrStops (op : Controller.Op) : Prop :=
  match op with
  | Controller.StartDaemon _ _ | Controller.StopDaemon _ => True
  | _ => False
  end.

(** The single-writer rule as C4 states it: in every state the
    controller reaches from a fresh one in which its daemon is running,
    a step of the controller that changes the status file is a
    [startDaemon] or a [stopDaemon]. *)
Definition controller_writes_only_at_start_and_stop : Prop :=
  forall (ops : list Controller.Op) (op : Controller.Op)
         (w w' : Controller.t),
    Controller.run ops (sample_controller [] None None None) = Some w ->
    Controller.daemonRunning w = true ->
    Controller.step op w = Some w' ->
    Controller.statusFile w' <> Controller.statusFile w ->
    startsOrStops op.

(** The only ["exit"] listener registered is that of the child the
    controller holds: no listener of an earlier child is left. *)
Definition noStaleListener (w : Controller.t) : Prop :=
  forall q, In q (Controller.exitListeners w) ->
            Controller.daemonProcess w = Some (Some q).

(** A restart on one controller: a daemon is started with pid 100, then
    another with pid 200; the first does not end within the two seconds
    [stopDaemon] gives it and is killed. *)
Definition restart_ops : list Controller.Op :=
  [Controller.StartDaemon (Some 100) Controller.Survives;
   Controller.StartDaemon (Some 200) Controller.Survives].

(** How long after its start a refresh is seen to fail: when the
    handshake is rejected or yields no usable token, when [git config]
    exits with a code other than 0, or when [gh auth login] or
    [gh auth setup-git] does.  [None]: the refresh succeeds. *)
Definition failsAfter (te : Daemon.TickEnv) : option Z :=
  let mintFails :=
    match Daemon.auth te with
    | TokenManager.AuthRejects _ => true
    | TokenManager.AuthResolves r => TokenManager.lacks_token r
    end in
  if mintFails then Some (Daemon.authMs te)
  else if negb (Daemon.gitConfig te =? 0)
  then Some (Daemon.authMs te + Daemon.gitConfigMs te)
  else if negb (Daemon.ghLogin te =? 0)
  then Some (Daemon.authMs te + Daemon.gitConfigMs te + Daemon.ghLoginMs te)
  else if negb (Daemon.ghSetupGit te =? 0)
  then Some (Daemon.authMs te + Daemon.gitConfigMs te + Daemon.ghLoginMs te
             + Daemon.ghSetupGitMs te)
  else None.

(** How long a refresh that succeeds takes. *)
Definition tickMs (te : Daemon.TickEnv) : Z :=
  Daemon.authMs te + Daemon.gitConfigMs te + Daemon.ghLoginMs te
  + Daemon.ghSetupGitMs te.

(** Time does not run backwards. *)
Definition durationsOk (te : Daemon.TickEnv) : Prop :=
  0 <= Daemon.authMs te /\ 0 <= Daemon.gitConfigMs te
  /\ 0 <= Daemon.ghLoginMs te /\ 0 <= Daemon.ghSetupGitMs te.

(** No maximum-runtime timer among [l] comes due by the instant
    [wake]. *)
Definition quiet (wake : Z) (l : list Timer) : Prop :=
  forall tm, In tm l -> kind tm = MaxRuntimeTimer -> wake < due tm.

(** The status file is absent or parses. *)
Definition statusFileOk (f : option Status.StatusFile) : Prop :=
  f <> Some Status.Garbage.

(** The record [updateStatus] starts from. *)
Definition recordOf (pid now : Z) (f : option Status.StatusFile)
  : Status.DaemonStatus :=
  match f with
  | Some (Status.Json st) => st
  | _ => {| Status.pid := pid; Status.startTime := now;
            Status.status := "running";
            Status.lastRefresh := None; Status.nextRefresh := None;
            Status.refreshCount := 0 |}
  end.

(** [if (this.refreshTimer) { clearTimeout(this.refreshTimer) }] on the
    pending timers. *)
Definition clearTimer (rt : option nat) (l : list Timer) : list Timer :=
  match rt with Some id => remove_timer id l | None => l end.

(** [this.config.refreshIntervalMinutes * 60 * 1000] *)
Definition intervalMs (s : Daemon.t) : Z :=
  Daemon.refreshIntervalMinutes (Daemon.config s) * 60 * 1000.

(** The timer [scheduleNextRefresh] sets from the state [s]. *)
Definition nextRefreshTimer (s : Daemon.t) : Timer :=
  {| tid := Daemon.nextTimerId s; kind := RefreshTimer;
     delay := intervalMs s;
     due := Daemon.clock s + timer_delay (intervalMs s) |}.

Definition sample_config (minutes hours : Z) : Daemon.DaemonConfig :=
  {| Daemon.tmConfig := sample_tmConfig;
     Daemon.refreshIntervalMinutes := minutes;
     Daemon.maxRuntimeHours := hours |}.

(** A refresh in which everything succeeds, the handshake taking [ms]
    milliseconds and answering without an expiry. *)
Definition okTick (ms : Z) : Daemon.TickEnv :=
  {| Daemon.auth := TokenManager.AuthResolves sample_authResult;
     Daemon.authMs := ms;
     Daemon.gitConfig := 0; Daemon.gitConfigMs := 0;
     Daemon.ghLogin := 0; Daemon.ghLoginMs := 0;
     Daemon.ghSetupGit := 0; Daemon.ghSetupGitMs := 0 |}.

(** A refresh in which [gh auth login] exits with code 1. *)
Definition ghLoginFailsTick : Daemon.TickEnv :=
  {| Daemon.auth := TokenManager.AuthResolves sample_authResult;
     Daemon.authMs := 700;
     Daemon.gitConfig := 0; Daemon.gitConfigMs := 200;
     Daemon.ghLogin := 1; Daemon.ghLoginMs := 100;
     Daemon.ghSetupGit := 0; Daemon.ghSetupGitMs := 0 |}.

(** A daemon in the middle of its run: three refreshes done, the next
    one due at [1800000 * 4], the maximum-runtime timer pending. *)
Definition sample_running_daemon : Daemon.t :=
  {| Daemon.config := sample_config 30 6;
     Daemon.tokenManager := TokenManager.new sample_tmConfig;
     Daemon.refreshTimer := Some 3%nat;
     Daemon.maxRuntimeTimer := Some 1%nat;
     Daemon.refreshCount := 3;
     Daemon.process_pid := 4242;
     Daemon.clock := 5400000;
     Daemon.timers :=
       [{| tid := 1; kind := MaxRuntimeTimer; delay := 21600000;
           due := 21600000 |};
        {| tid := 3; kind := RefreshTimer; delay := 1800000;
           due := 7200000 |}];
     Daemon.nextTimerId := 4%nat;
     Daemon.keepAlive := true;
     Daemon.statusFile :=
       Some (Status.Json
               {| Status.pid := 4242; Status.startTime := 0;
                  Status.status := "running";
                  Status.lastRefresh := Some 5400000;
                  Status.nextRefresh := Some 7200000;
                  Status.refreshCount := 3 |});
     Daemon.logFile := [];
     Daemon.ticks := 3%nat |}.

(** C6 as stated: after every successful refresh the [nextRefresh]
    written to the status file is strictly less than the [expiresAt] of
    the credential just minted minus the safety margin. *)
Definition nextRefresh_precedes_expiry : Prop :=
  forall (te : Daemon.TickEnv) (s s' : Daemon.t)
         (ti : TokenManager.TokenInfo) (st' : Status.DaemonStatus),
    failsAfter te = None ->
    durationsOk te ->
    Daemon.refreshTokenAndAuth te s = Daemon.Ok tt s' ->
    TokenManager.currentToken (Daemon.tokenManager s') = Some ti ->
    Daemon.statusFile s' = Some (Status.Json st') ->
    exists next,
      Status.nextRefresh st' = Some next
      /\ next < TokenManager.expiresAt ti - TokenManager.marginMs.

(** The time the scheduled refreshes 1 to [k] take together. *)
Fixpoint elapsed (w : Daemon.World) (k : nat) : Z :=
  match k with
  | O => 0
  | S k' => elapsed w k' + tickMs (w k)
  end.

(** The maximum-runtime timer of a six-hour daemon whose [start] set it
    at [t0]. *)
Definition maxTimerAt (t0 : Z) : Timer :=
  {| tid := 1; kind := MaxRuntimeTimer; delay := 21600000;
     due := t0 + 21600000 |}.

(** A refresh timer of a daemon refreshing every 30 minutes. *)
Definition refreshTimerAt (id : nat) (at_ : Z) : Timer :=
  {| tid := id; kind := RefreshTimer; delay := 1800000; due := at_ |}.

(** The daemon between two callbacks, [k] refreshes done, on a run without
    failures with a 30-minute interval and a six-hour limit. *)
Record Inv (w : Daemon.World) (t0 pid : Z) (k : nat) (s : Daemon.t) : Prop := {
  inv_interval : Daemon.refreshIntervalMinutes (Daemon.config s) = 30;
  inv_hours : Daemon.maxRuntimeHours (Daemon.config s) = 6;
  inv_ticks : Daemon.ticks s = k;
  inv_count : Daemon.refreshCount s = Z.of_nat k;
  inv_clock : Daemon.clock s
              = t0 + (Z.of_nat k - 1) * 1800000 + elapsed w (k - 1);
  inv_pid : Daemon.process_pid s = pid;
  inv_max : Daemon.maxRuntimeTimer s = Some 1%nat;
  inv_next : Daemon.nextTimerId s = S k;
  inv_timers :
    exists rid,
      Daemon.refreshTimer s = Some rid
      /\ ((k = 1%nat /\ rid = 0%nat
           /\ Daemon.timers s
              = [refreshTimerAt rid (Daemon.clock s + 1800000); maxTimerAt t0])
          \/ ((2 <= k)%nat /\ rid = k
              /\ Daemon.timers s
                 = [maxTimerAt t0; refreshTimerAt rid (Daemon.clock s + 1800000)]));
  inv_file :
    exists st,
      Daemon.statusFile s = Some (Status.Json st)
      /\ Status.status st = "running"%string
      /\ Status.refreshCount st = Z.of_nat k
      /\ Status.pid st = pid
}.

(** C2 as stated: every run without failures of a daemon with a
    30-minute interval and a six-hour limit ends after exactly 12
    refreshes. *)
Definition twelve_ticks_in_every_run : Prop :=
  forall (w : Daemon.World) (c : Daemon.DaemonConfig) (pid now : Z)
         (fuel : nat) (code : Z) (s' : Daemon.t),
    Daemon.refreshIntervalMinutes c = 30 ->
    Daemon.maxRuntimeHours c = 6 ->
    (forall i, failsAfter (w i) = None /\ durationsOk (w i)) ->
    Daemon.main fuel w (Daemon.new c pid now None []) = Daemon.Exit code s' ->
    Daemon.ticks s' = 12%nat.

(** ** Notions for the set-up, the controller and the daemon's callbacks *)

(** A segment of a repository name: it holds no slash. *)
Fixpoint noSlash (s : string) : bool :=
  match s with
  | EmptyString => true
  | String c s' => negb (Ascii.eqb c "/") && noSlash s'
  end.

(** The process [stopDaemon] signals: the target pid when it is a number
    other than 0 and a live process. *)
Definition victim (w : Controller.t) : option Z :=
  match Controller.targetPid w with
  | Some p =>
      if truthy_number p && Controller.is_live p (Controller.live w)
      then Some p else None
  | None => None
  end.

(** The pid [stopDaemon] acts on is not negative: it names one process,
    not a process group. *)
Definition targetsOneProcess (w : Controller.t) : Prop :=
  forall p, Controller.targetPid w = Some p -> 0 <= p.

(** [Number.isSafeInteger(n)] *)
Definition safeInteger (n : Z) : Prop := - 2 ^ 53 < n < 2 ^ 53.

(** The clean-up that ends [stopDaemon]. *)
Definition cleaned (w : Controller.t) : Controller.t :=
  Controller.set_daemonProcess None
    (Controller.set_statusFile None (Controller.set_pidFile None w)).

(** A second controller, created with the configuration [c] in a process
    that finds the files and processes [w] left: it holds no child. *)
Definition laterController (c : Controller.DaemonConfig) (w : Controller.t)
  : Controller.t :=
  Controller.new c (Controller.clock w) (Controller.live w)
    (Controller.statusFile w) (Controller.pidFile w) (Controller.logFile w).

(** The code [m] ends the process only with code 0. *)
Definition exitsOnlyWith0 {A : Type} (m : Daemon.M A) : Prop :=
  forall s, match m s with Daemon.Exit c _ => c = 0 | _ => True end.

(** The code [m] lets no exception escape and ends the process only with
    code 0. *)
Definition neverFails {A : Type} (m : Daemon.M A) : Prop :=
  forall s, match m s with
            | Daemon.Ok _ _ => True
            | Daemon.Thrown _ _ => False
            | Daemon.Exit c _ => c = 0
            end.

(** Every pending timer is one of the two the daemon holds. *)
Definition holdsItsTimers (s : Daemon.t) : Prop :=
  forall tm, In tm (Daemon.timers s) ->
             Daemon.refreshTimer s = Some (tid tm)
             \/ Daemon.maxRuntimeTimer s = Some (tid tm).

(** Every pending refresh timer is the one in [this.refreshTimer]. *)
Definition holdsRefreshTimer (s : Daemon.t) : Prop :=
  forall tm, In tm (Daemon.timers s) -> kind tm = RefreshTimer ->
             Daemon.refreshTimer s = Some (tid tm).

(** The sample daemon after a refresh that failed: its record says
    ["error"]. *)
Definition sample_failed_daemon : Daemon.t :=
  Daemon.set_statusFile
    (Some (Status.Json (sample_status "error" 4242 (Some 5400000))))
    sample_running_daemon.

Definition sample_env : Token.Env :=
  {| Token.OVERRIDE_GITHUB_TOKEN := None;
     Token.APP_ID := Some "12345"%string;
     Token.APP_PRIVATE_KEY := Some "key"%string;
     Token.GITHUB_REPOSITORY := Some "octo/repo"%string |}.

(** A world in which the installation is found; the handshake answers
    [h] and the operating system gives the daemon the pid [spawned]. *)
Definition sample_appWorld (h : TokenManager.AuthOutcome) (spawned : option Z)
  : Token.AppWorld :=
  {| Token.appAuth := TokenManager.AppAuthResolves "jwt";
     Token.installation := TokenManager.Response true "OK" 42;
     Token.handshake := h;
     Token.spawned := spawned;
     Token.grace := Controller.Survives |}.

Definition two_line_log : JsString.t :=
  JsString.lit "one" ++ JsString.LF :: JsString.lit "two".

Definition blank_log : JsString.t :=
  JsString.lit "  " ++ [JsString.LF].

(** * Properties *)

(** ** Credential minting ([TokenManager.getToken]) *)

Section GetToken.

Import TokenManager.

Variables (now : Z) (tm : TokenManager.t).

Lemma getToken_rejected (msg : string) :
  getToken now (AuthRejects msg) tm = Throws (AuthFailed msg) tm.
Proof. reflexivity. Qed.

Lemma getToken_without_token (r : AuthResult) :
  lacks_token r = true ->
  getToken now (AuthResolves r) tm = Throws NoInstallationToken tm.
Proof. intros H. unfold getToken. now rewrite H. Qed.

Lemma getToken_throws_inv (auth : AuthOutcome) (e : Err) (tm' : TokenManager.t) :
  getToken now auth tm = Throws e tm' -> tm' = tm.
Proof.
  unfold getToken. destruct auth as [msg | r].
  - intros H. now inversion H.
  - destruct (lacks_token r); intros H; now inversion H.
Qed.

Lemma getToken_returns_inv (auth : AuthOutcome) (ti : TokenInfo)
      (tm' : TokenManager.t) :
  getToken now auth tm = Returns ti tm' ->
  tm' = set_currentToken ti tm.
Proof.
  unfold getToken. destruct auth as [msg | r]; [discriminate |].
  destruct (lacks_token r); [discriminate |].
  intros H. now inversion H.
Qed.

End GetToken.

(** C9.  When the handshake yields a usable token but no expiry,
    [getToken] returns (it does not throw) a credential with that token
    whose [expiresAt] is one hour after the current time, and whose
    [installationId] is 0 when the response carries none; the credential
    becomes the cached one. *)
Theorem getToken_default_expiry :
  forall (now : Z) (tm : TokenManager.t) (r : TokenManager.AuthResult) (tk : string),
    TokenManager.ar_token r = Some tk ->
    truthy_string tk = true ->
    TokenManager.ar_expiresAt r = None ->
    exists ti,
      TokenManager.getToken now (TokenManager.AuthResolves r) tm
        = Returns ti (TokenManager.set_currentToken ti tm)
      /\ TokenManager.token ti = tk
      /\ TokenManager.expiresAt ti = now + 60 * 60 * 1000
      /\ (TokenManager.ar_installationId r = None ->
          TokenManager.installationId ti = 0).
Proof.
  intros now tm r tk Htk Htruthy Hexp.
  unfold TokenManager.getToken, TokenManager.lacks_token.
  rewrite Htk, Htruthy, Hexp. cbn [negb].
  eexists. split; [reflexivity |]. cbn.
  repeat split.
  intros Hid. unfold TokenManager.installationId_or_0. now rewrite Hid.
Qed.

Lemma getToken_default_expiry_witness :
  exists ti,
    TokenManager.getToken 1000 (TokenManager.AuthResolves sample_authResult)
                          (TokenManager.new sample_tmConfig)
      = Returns ti (TokenManager.set_currentToken ti (TokenManager.new sample_tmConfig))
    /\ TokenManager.token ti = "ghs_token"%string
    /\ TokenManager.expiresAt ti = 1000 + 60 * 60 * 1000
    /\ (TokenManager.ar_installationId sample_authResult = None ->
        TokenManager.installationId ti = 0).
Proof.
  apply (getToken_default_expiry 1000 (TokenManager.new sample_tmConfig)
           sample_authResult "ghs_token"); reflexivity.
Defined.

(** C10.  A call of [getToken] that fails leaves the cached credential
    as it was: it fails exactly when the handshake is rejected or the
    response lacks a usable token, and then the manager is unchanged; the
    cache is replaced only by the credential of a successful call. *)
Theorem getToken_failure_keeps_cache :
  forall (now : Z) (auth : TokenManager.AuthOutcome) (tm : TokenManager.t),
    (forall e tm',
        TokenManager.getToken now auth tm = Throws e tm' ->
        TokenManager.currentToken tm' = TokenManager.currentToken tm)
    /\ (forall ti tm',
        TokenManager.getToken now auth tm = Returns ti tm' ->
        TokenManager.currentToken tm' = Some ti)
    /\ ((exists e, TokenManager.getToken now auth tm = Throws e tm)
        <-> match auth with
            | TokenManager.AuthRejects _ => True
            | TokenManager.AuthResolves r => TokenManager.lacks_token r = true
            end).
Proof.
  intros now auth tm. split; [| split].
  - intros e tm' H. now rewrite (getToken_throws_inv _ _ _ _ _ H).
  - intros ti tm' H. now rewrite (getToken_returns_inv _ _ _ _ _ H).
  - split.
    + intros [e H]. destruct auth as [msg | r]; [exact I |].
      unfold TokenManager.getToken in H.
      destruct (TokenManager.lacks_token r); [reflexivity | discriminate].
    + destruct auth as [msg | r]; intros H.
      * eexists. apply getToken_rejected.
      * eexists. now apply getToken_without_token.
Qed.

Lemma getToken_failure_keeps_cache_witness :
  TokenManager.currentToken
    (TokenManager.set_currentToken cached_token (TokenManager.new sample_tmConfig))
  = Some cached_token
  /\ forall e tm',
      TokenManager.getToken 1000 (TokenManager.AuthRejects "network")
        (TokenManager.set_currentToken cached_token (TokenManager.new sample_tmConfig))
      = Throws e tm' ->
      TokenManager.currentToken tm' = Some cached_token.
Proof.
  split; [reflexivity |].
  exact (proj1 (getToken_failure_keeps_cache 1000 (TokenManager.AuthRejects "network")
           (TokenManager.set_currentToken cached_token
              (TokenManager.new sample_tmConfig)))).
Defined.

(** ** The controller's queries *)

Lemma is_live_In (p : Z) (procs : list Z) :
  Controller.is_live p procs = true <-> In p procs.
Proof.
  unfold Controller.is_live. rewrite existsb_exists. split.
  - intros [x [Hin Heq]]. apply Z.eqb_eq in Heq. now subst.
  - intros Hin. exists p. split; [assumption | apply Z.eqb_refl].
Qed.

Lemma isProcessRunning_spec (p : Z) (w : Controller.t) :
  Controller.isProcessRunning p w
  = Returns (Controller.is_live p (Controller.live w)) w.
Proof.
  unfold Controller.isProcessRunning, Controller.try_catch, Controller.bind,
    Controller.process_kill, Controller.ret.
  now destruct (Controller.is_live p (Controller.live w)).
Qed.

Lemma getStatus_spec (w : Controller.t) :
  Controller.getStatus w
  = Returns (match Controller.statusFile w with
             | Some (Status.Json st) => Some st
             | _ => None
             end) w.
Proof.
  unfold Controller.getStatus, Controller.try_catch, Controller.ret.
  now destruct (Controller.statusFile w) as [[| st] |].
Qed.

Lemma isHealthy_eq (w : Controller.t) :
  Controller.isHealthy w
  = Returns (match Controller.statusFile w with
             | Some (Status.Json st) =>
                 String.eqb (Status.status st) "running"
                 && Controller.is_live (Status.pid st) (Controller.live w)
             | _ => false
             end) w.
Proof.
  unfold Controller.isHealthy, Controller.bind. rewrite getStatus_spec.
  destruct (Controller.statusFile w) as [[| st] |]; try reflexivity.
  destruct (String.eqb (Status.status st) "running"); cbn [negb andb].
  - apply isProcessRunning_spec.
  - reflexivity.
Qed.

(** C3.  [isHealthy()] returns, and its answer is [true] if and only if
    the status file exists and parses, its [status] is ["running"], and
    the recorded pid is a live process; so the answer is [false] for
    every recorded status when the recorded pid is not live. *)
Theorem isHealthy_iff_running_and_live :
  forall w : Controller.t,
  exists b : bool,
    Controller.isHealthy w = Returns b w
    /\ (b = true <->
        exists st,
          Controller.statusFile w = Some (Status.Json st)
          /\ Status.status st = "running"%string
          /\ In (Status.pid st) (Controller.live w))
    /\ (forall st,
          Controller.statusFile w = Some (Status.Json st) ->
          ~ In (Status.pid st) (Controller.live w) ->
          b = false).
Proof.
  intros w. eexists. split; [apply isHealthy_eq |]. split.
  - destruct (Controller.statusFile w) as [[| st] |].
    + split; [discriminate | intros [st [H _]]; discriminate].
    + rewrite andb_true_iff, String.eqb_eq, is_live_In. split.
      * intros [H1 H2]. now exists st.
      * intros [st' [Heq [H1 H2]]]. inversion Heq; subst. now split.
    + split; [discriminate | intros [st [H _]]; discriminate].
  - intros st Hfile Hdead. rewrite Hfile.
    apply andb_false_iff. right.
    destruct (Controller.is_live (Status.pid st) (Controller.live w)) eqn:E;
      [| reflexivity].
    apply is_live_In in E. contradiction.
Qed.

Lemma isHealthy_iff_running_and_live_witness :
  Controller.isHealthy
    (sample_controller [1; 77]
       (Some (Status.Json (sample_status "running" 4242 None))) None None)
  = Returns false
      (sample_controller [1; 77]
         (Some (Status.Json (sample_status "running" 4242 None))) None None).
Proof.
  destruct (isHealthy_iff_running_and_live
              (sample_controller [1; 77]
                 (Some (Status.Json (sample_status "running" 4242 None)))
                 None None))
    as [b [Hcall [_ Hdead]]].
  rewrite Hcall. f_equal.
  apply (Hdead (sample_status "running" 4242 None)); [reflexivity |].
  cbn. intros [H | [H | []]]; discriminate.
Defined.

(** ** The health query of the monitoring server *)

Lemma overdue_iff (elapsed : Z) :
  Server.overdue elapsed = true <-> 45 * 60 * 1000 < elapsed.
Proof.
  unfold Server.overdue, Server.refreshIntervalMs. rewrite Z.ltb_lt. lia.
Qed.

Lemma checkDaemonHealth_running (now : Z) (procs : list Z)
      (st : Status.DaemonStatus) :
  Status.status st = "running"%string ->
  In (Status.pid st) procs ->
  Server.checkDaemonHealth now procs (Some (Status.Json st))
  = let elapsed := now - match Status.lastRefresh st with
                         | Some t => t
                         | None => 0
                         end in
    if Server.overdue elapsed
    then Server.Warning (Server.roundMinutes elapsed)
    else Server.Healthy (Status.pid st) (Status.lastRefresh st)
                        (Status.refreshCount st).
Proof.
  intros Hst Hlive. unfold Server.checkDaemonHealth, Server.isProcessRunning.
  rewrite Hst. apply is_live_In in Hlive. rewrite Hlive. reflexivity.
Qed.

(** C5, as stated, fails: with a configured interval of 10 minutes, a
    running daemon whose last refresh is 20 minutes old (more than 1.5
    times the interval) is reported healthy. *)
Lemma health_ignores_configured_interval :
  ~ health_follows_interval 10.
Proof.
  intros H.
  specialize (H (20 * 60 * 1000) 0 [4242]
                (sample_status "running" 4242 (Some 0))
                eq_refl (or_introl eq_refl) eq_refl).
  destruct H as [_ H]. destruct H as [m Hm]; [lia |].
  vm_compute in Hm. discriminate.
Qed.

(** C5, amended.  For a status record whose [status] is ["running"] and
    whose pid is live, the health query reports a warning exactly when
    more than 45 minutes (1.5 times a fixed interval of 30 minutes) have
    passed since [lastRefresh], taken as the epoch when the record has
    none, and reports healthy otherwise. *)
Theorem health_warning_after_45_minutes :
  forall (now : Z) (procs : list Z) (st : Status.DaemonStatus),
    Status.status st = "running"%string ->
    In (Status.pid st) procs ->
    let elapsed := now - match Status.lastRefresh st with
                         | Some t => t
                         | None => 0
                         end in
    (45 * 60 * 1000 < elapsed ->
     Server.checkDaemonHealth now procs (Some (Status.Json st))
     = Server.Warning (Server.roundMinutes elapsed))
    /\ (elapsed <= 45 * 60 * 1000 ->
        Server.checkDaemonHealth now procs (Some (Status.Json st))
        = Server.Healthy (Status.pid st) (Status.lastRefresh st)
                         (Status.refreshCount st)).
Proof.
  intros now procs st Hst Hlive elapsed.
  rewrite (checkDaemonHealth_running now procs st Hst Hlive).
  fold elapsed. cbv zeta.
  destruct (Server.overdue elapsed) eqn:E.
  - apply overdue_iff in E. split; [reflexivity | lia].
  - split; [| reflexivity]. intros Hlt. apply overdue_iff in Hlt. congruence.
Qed.

Lemma health_warning_after_45_minutes_witness :
  Server.checkDaemonHealth (46 * 60 * 1000) [4242]
    (Some (Status.Json (sample_status "running" 4242 (Some 0))))
  = Server.Warning 46
  /\ Server.checkDaemonHealth (45 * 60 * 1000) [4242]
       (Some (Status.Json (sample_status "running" 4242 (Some 0))))
     = Server.Healthy 4242 (Some 0) 3.
Proof.
  split.
  - apply (proj1 (health_warning_after_45_minutes (46 * 60 * 1000) [4242]
                    (sample_status "running" 4242 (Some 0))
                    eq_refl (or_introl eq_refl))).
    vm_compute. reflexivity.
  - apply (proj2 (health_warning_after_45_minutes (45 * 60 * 1000) [4242]
                    (sample_status "running" 4242 (Some 0))
                    eq_refl (or_introl eq_refl))).
    vm_compute. discriminate.
Defined.

(** ** The tail of the log ([getLogs]) *)

Section LogTail.

Import JsString.

Lemma slice_from_last (A : Type) (n : Z) (l : list A) :
  1 <= n -> slice_from (- n) l = last_n (Z.to_nat n) l.
Proof.
  intros Hn. unfold slice_from, last_n.
  replace (- n <? 0) with true by (symmetry; apply Z.ltb_lt; lia).
  f_equal. lia.
Qed.






Lemma getLogs_eq (tailLines : Z) (w : Controller.t) :
  Controller.getLogs tailLines w
  = Returns (match Controller.logFile w with
             | None => lit "No logs available"
             | Some content =>
                 join_lines (Controller.tailNonBlank tailLines
                               (split_lines content))
             end) w.
Proof.
  unfold Controller.getLogs, Controller.try_catch, Controller.bind,
    Controller.get, Controller.ret.
  now destruct (Controller.logFile w).
Qed.

Lemma tailNonBlank_eq (tailLines : Z) (lines : list t) :
  1 <= tailLines ->
  Controller.tailNonBlank tailLines lines
  = filter nonBlank (last_n (Z.to_nat tailLines) lines).
Proof.
  intros Hn. unfold Controller.tailNonBlank.
  now rewrite slice_from_last.
Qed.





End LogTail.




(** ** Stopping the daemon ([stopDaemon]) *)

Section StopDaemon.

Import Controller.

Lemma updateStatus_eq (u : Status.StatusUpdate) (w : Controller.t) :
  Controller.updateStatus u w
  = Returns tt
      (set_statusFile
         (Some (Status.Json
                  (Status.merge
                     match statusFile w with
                     | Some (Status.Json st) => st
                     | _ => {| Status.pid := 0; Status.startTime := clock w;
                               Status.status := "stopped";
                               Status.lastRefresh := None;
                               Status.nextRefresh := None;
                               Status.refreshCount := 0 |}
                     end u))) w).
Proof.
  unfold Controller.updateStatus, try_catch, bind. rewrite getStatus_spec.
  now destruct (statusFile w) as [[| st] |].
Qed.

Lemma onChildExit_returns (child : Z) (w : Controller.t) :
  exists w', onChildExit child w = Returns tt w'.
Proof.
  unfold onChildExit, bind, modify. rewrite updateStatus_eq. now eexists.
Qed.

Lemma gracePeriod_returns (g : Grace) (p : Z) (w : Controller.t) :
  exists w', gracePeriod g p w = Returns tt w'.
Proof.
  unfold gracePeriod. destruct g as [| wrote notified].
  - cbn. now eexists.
  - unfold bind at 1.
    assert (H : exists w1,
               ((if wrote
                 then modify (fun w0 =>
                        set_statusFile
                          (Daemon.statusFile_after p (clock w0)
                             (Status.status_only "stopped") (statusFile w0)) w0)
                 else ret tt) ;;
                modify (fun w0 => set_live (kill_process p (live w0)) w0) ;;
                listeners <- get exitListeners ;;
                (if notified && is_live p listeners
                 then onChildExit p else ret tt)) w = Returns tt w1).
    { unfold bind, modify, get, ret.
      destruct wrote;
        match goal with
        | |- context [if ?c then _ else _] =>
            destruct c; [apply onChildExit_returns | now eexists]
        end. }
    destruct H as [w1 H]. rewrite H. cbn. now eexists.
Qed.

(** Whatever it did before, [stopDaemon] ends with the clean-up. *)
Lemma stopDaemon_cleans (g : Grace) (w : Controller.t) :
  exists w0,
    stopDaemon g w
    = Returns tt (set_daemonProcess None
                    (set_statusFile None (set_pidFile None w0)))
    /\ (targetPid w = None -> w0 = w).
Proof.
  unfold stopDaemon, try_catch. unfold bind at 1. unfold get at 1.
  destruct (targetPid w) as [p |]; [| now exists w].
  unfold bind at 1.
  destruct (truthy_number p); [| exists w; split; [reflexivity | discriminate]].
  unfold bind at 1. rewrite isProcessRunning_spec.
  destruct (is_live p (live w)) eqn:Hlive;
    [| exists w; split; [reflexivity | discriminate]].
  unfold bind at 1. unfold process_kill at 1. rewrite Hlive.
  unfold bind at 1.
  destruct (gracePeriod_returns g p w) as [w1 Hg]. rewrite Hg.
  unfold bind at 1. rewrite isProcessRunning_spec.
  destruct (is_live p (live w1)) eqn:Hstill.
  - unfold process_kill. rewrite Hstill.
    eexists. split; [reflexivity | discriminate].
  - exists w1. split; [reflexivity | discriminate].
Qed.

End StopDaemon.

(** C7.  [stopDaemon()] returns without throwing from every state of the
    controller, the processes and the files, whatever the signalled
    process does; when it returns neither the pid file nor the status
    file exists; called again it returns again and changes nothing; and
    when no daemon was started (no handle, no pid file, no status file)
    the first call changes nothing either. *)
Theorem stopDaemon_total_idempotent :
  forall (g1 g2 : Controller.Grace) (w : Controller.t),
  exists w1,
    Controller.stopDaemon g1 w = Returns tt w1
    /\ Controller.pidFile w1 = None
    /\ Controller.statusFile w1 = None
    /\ Controller.stopDaemon g2 w1 = Returns tt w1
    /\ (Controller.daemonProcess w = None ->
        Controller.pidFile w = None ->
        Controller.statusFile w = None ->
        w1 = w).
Proof.
  intros g1 g2 w.
  destruct (stopDaemon_cleans g1 w) as [w0 [H1 Hsame]].
  eexists. split; [exact H1 |]. split; [reflexivity |]. split; [reflexivity |].
  split.
  - destruct (stopDaemon_cleans g2
                (Controller.set_daemonProcess None
                   (Controller.set_statusFile None
                      (Controller.set_pidFile None w0)))) as [w2 [H2 Hsame2]].
    rewrite H2. rewrite (Hsame2 eq_refl). reflexivity.
  - intros Hd Hp Hs.
    assert (Ht : Controller.targetPid w = None).
    { unfold Controller.targetPid. now rewrite Hd, Hp. }
    rewrite (Hsame Ht). destruct w; cbn in *; subst; reflexivity.
Qed.

Lemma stopDaemon_total_idempotent_witness :
  exists w1,
    Controller.stopDaemon Controller.Survives
      (sample_controller [4242]
         (Some (Status.Json (sample_status "running" 4242 None)))
         (Some (JsString.lit "4242")) None)
    = Returns tt w1
    /\ Controller.pidFile w1 = None
    /\ Controller.statusFile w1 = None
    /\ Controller.stopDaemon Controller.Survives w1 = Returns tt w1.
Proof.
  destruct (stopDaemon_total_idempotent Controller.Survives Controller.Survives
              (sample_controller [4242]
                 (Some (Status.Json (sample_status "running" 4242 None)))
                 (Some (JsString.lit "4242")) None))
    as [w1 [H1 [H2 [H3 [H4 _]]]]].
  exists w1. repeat split; assumption.
Defined.

(** ** Who writes the status file *)

Section StatusWriters.

Import Controller.

Lemma onChildData_statusFile (tag : string) (data : JsString.t)
      (w : Controller.t) :
  statusFile (state_of (onChildData tag data w)) = statusFile w.
Proof. reflexivity. Qed.

Lemma queries_keep_state (w : Controller.t) (n : Z) :
  state_of (getStatus w) = w
  /\ state_of (isHealthy w) = w
  /\ state_of (getLogs n w) = w.
Proof.
  rewrite getStatus_spec, isHealthy_eq, getLogs_eq. now repeat split.
Qed.

End StatusWriters.

(** C4 holds of every state in which no ["exit"] listener of an
    earlier child is left: while the daemon the controller holds is
    running, a step of the controller that changes the status file is a
    [startDaemon] or a [stopDaemon]. *)
Lemma single_writer_without_stale_listener :
  forall (op : Controller.Op) (w w' : Controller.t),
    Controller.daemonRunning w = true ->
    noStaleListener w ->
    Controller.step op w = Some w' ->
    Controller.statusFile w' <> Controller.statusFile w ->
    startsOrStops op.
Proof.
  intros op w w' Hrun Hclean Hstep Hchanged.
  unfold Controller.step in Hstep.
  destruct (Controller.enabled op w) eqn:Hen; [| discriminate].
  inversion Hstep as [Hw']. subst w'.
  destruct (queries_keep_state w 0) as [Hget [Hhealthy _]].
  destruct op as [sp g | g | | | n | child | tag data];
    cbn [Controller.exec startsOrStops] in *.
  - exact I.
  - exact I.
  - rewrite Hget in Hchanged. now apply Hchanged.
  - rewrite Hhealthy in Hchanged. now apply Hchanged.
  - destruct (queries_keep_state w n) as [_ [_ Hlogs]].
    rewrite Hlogs in Hchanged. now apply Hchanged.
  - cbn in Hen. apply andb_true_iff in Hen. destruct Hen as [Hl Hd].
    apply is_live_In in Hl. apply Hclean in Hl.
    unfold Controller.daemonRunning in Hrun. rewrite Hl in Hrun.
    rewrite Hrun in Hd. discriminate.
  - now apply Hchanged.
Qed.

(** After a first [startDaemon] on a new controller no listener of an
    earlier child is registered and the daemon runs. *)
Lemma first_start_leaves_no_stale_listener :
  exists w,
    Controller.run [Controller.StartDaemon (Some 100) Controller.Survives]
      (sample_controller [] None None None) = Some w
    /\ Controller.daemonRunning w = true
    /\ noStaleListener w.
Proof.
  eexists. split; [vm_compute; reflexivity |]. split; [reflexivity |].
  intros q [<- | []]. reflexivity.
Qed.

(** C4 fails on the code at a restart.  A controller starts a daemon
    (pid 100), then starts another (pid 200); the first does not end
    within the grace period and is killed.  [stopDaemon] leaves the
    ["exit"] listener of the first child registered, so afterwards, with
    the second daemon running and its initial record in the status file,
    that listener runs and the controller overwrites the record of the
    running daemon with the status ["stopped"]. *)
Theorem stale_exit_listener_overwrites_running_record :
  exists w w',
    Controller.run restart_ops (sample_controller [] None None None) = Some w
    /\ Controller.daemonProcess w = Some (Some 200)
    /\ Controller.daemonRunning w = true
    /\ Controller.exitListeners w = [100; 200]
    /\ Controller.statusFile w
       = Some (Status.Json
                 {| Status.pid := 200; Status.startTime := 2000;
                    Status.status := "running";
                    Status.lastRefresh := None; Status.nextRefresh := None;
                    Status.refreshCount := 0 |})
    /\ Controller.step (Controller.ChildExit 100) w = Some w'
    /\ Controller.daemonRunning w' = true
    /\ Controller.statusFile w'
       = Some (Status.Json
                 {| Status.pid := 200; Status.startTime := 2000;
                    Status.status := "stopped";
                    Status.lastRefresh := None; Status.nextRefresh := None;
                    Status.refreshCount := 0 |})
    /\ ~ controller_writes_only_at_start_and_stop.
Proof.
  do 2 eexists.
  split; [vm_compute; reflexivity |].
  split; [reflexivity |]. split; [reflexivity |]. split; [reflexivity |].
  split; [reflexivity |].
  split; [vm_compute; reflexivity |].
  split; [reflexivity |]. split; [reflexivity |].
  intros H.
  specialize (H restart_ops (Controller.ChildExit 100)).
  vm_compute in H.
  refine (H _ _ eq_refl eq_refl eq_refl _).
  discriminate.
Qed.

(** ** The refresh loop *)

Section DaemonLemmas.

Import Daemon.

Lemma quiet_earliest (wake : Z) (l : list Timer) :
  quiet wake l ->
  earliest (filter (fun tm => due tm <=? wake) (timers_of MaxRuntimeTimer l)) = None.
Proof.
  intros Hq.
  replace (filter (fun tm => due tm <=? wake) (timers_of MaxRuntimeTimer l))
    with (@nil Timer); [reflexivity |].
  symmetry. unfold timers_of.
  induction l as [| tm l IH]; [reflexivity |].
  assert (Hq' : quiet wake l) by (intros x Hx; apply Hq; now right).
  cbn [filter]. destruct (TimerKind_eqb (kind tm) MaxRuntimeTimer) eqn:Hk.
  - cbn [filter].
    assert (Hd : wake < due tm).
    { apply Hq; [now left |]. destruct (kind tm); [discriminate | reflexivity]. }
    replace (due tm <=? wake) with false by (symmetry; apply Z.leb_gt; lia).
    now apply IH.
  - now apply IH.
Qed.

Lemma quiet_le (wake wake' : Z) (l : list Timer) :
  wake' <= wake -> quiet wake l -> quiet wake' l.
Proof. intros Hle Hq tm Hin Hk. specialize (Hq tm Hin Hk). lia. Qed.

Lemma await_quiet (ms : Z) (s : Daemon.t) :
  quiet (clock s + ms) (timers s) ->
  await ms s = Ok tt (set_clock (clock s + ms) s).
Proof. intros Hq. unfold await. now rewrite quiet_earliest. Qed.

Local Arguments await : simpl never.

Ltac awaits Hq Hd :=
  rewrite await_quiet by
    (cbn; eapply quiet_le; [| exact Hq]; unfold durationsOk in Hd; cbn; lia).

Ltac go Hq Hd :=
  repeat first
    [ progress cbn
    | awaits Hq Hd
    | match goal with
      | H : ?x = _ |- context [?x] => rewrite H
      end ].

Ltac finish :=
  cbn; do 2 eexists; (split; [reflexivity |]); cbn; repeat split;
  try lia; try (rewrite ?Z.add_assoc; reflexivity).

Lemma refreshTokenAndAuth_fails (te : TickEnv) (s : Daemon.t) (d : Z) :
  failsAfter te = Some d ->
  durationsOk te ->
  quiet (clock s + d) (timers s) ->
  statusFileOk (statusFile s) ->
  exists e s',
    refreshTokenAndAuth te s = Thrown e s'
    /\ config s' = config s
    /\ refreshCount s' = refreshCount s
    /\ refreshTimer s' = refreshTimer s
    /\ maxRuntimeTimer s' = maxRuntimeTimer s
    /\ process_pid s' = process_pid s
    /\ clock s' = clock s + d
    /\ timers s' = timers s
    /\ nextTimerId s' = nextTimerId s
    /\ ticks s' = S (ticks s)
    /\ statusFile s'
       = Some (Status.Json
                 (Status.merge
                    (recordOf (process_pid s) (clock s + d) (statusFile s))
                    (Status.status_only "error"))).
Proof.
  intros Hf Hd Hq Hok. unfold failsAfter in Hf.
  destruct s as [cfg tm rt mt rc pid c tms nid ka sf lf tk].
  cbn [clock timers statusFile process_pid] in *.
  assert (Hsf : sf = None \/ exists st, sf = Some (Status.Json st)).
  { destruct sf as [[| st] |]; [now elim Hok | right; now exists st | now left]. }
  unfold refreshTokenAndAuth, tokenManager_getToken, updateGitAuth,
    updateGhAuth, runCommand, updateStatus, currentStatus, log, modify, get,
    throw, ret.
  unfold try_catch, bind.
  destruct (auth te) as [msg | r] eqn:Ha; cbn in Hf.
  - inversion Hf; subst d. go Hq Hd.
    destruct Hsf as [-> | [st ->]]; finish.
  - destruct (TokenManager.lacks_token r) eqn:Hl; cbn in Hf.
    { inversion Hf; subst d. unfold TokenManager.getToken. go Hq Hd.

      destruct Hsf as [-> | [st ->]]; finish. }
    destruct (gitConfig te =? 0) eqn:Hg; cbn in Hf.
    2:{ inversion Hf; subst d. unfold TokenManager.getToken. go Hq Hd.
        destruct Hsf as [-> | [st ->]]; finish. }
    destruct (ghLogin te =? 0) eqn:Hlogin; cbn in Hf.
    2:{ inversion Hf; subst d. unfold TokenManager.getToken. go Hq Hd.
        destruct Hsf as [-> | [st ->]]; finish. }
    destruct (ghSetupGit te =? 0) eqn:Hsetup; cbn in Hf; [discriminate |].
    inversion Hf; subst d. unfold TokenManager.getToken. go Hq Hd.
    destruct Hsf as [-> | [st ->]]; finish.
Qed.

Lemma refreshTokenAndAuth_succeeds (te : TickEnv) (s : Daemon.t) :
  failsAfter te = None ->
  durationsOk te ->
  quiet (clock s + tickMs te) (timers s) ->
  statusFileOk (statusFile s) ->
  exists ti s',
    refreshTokenAndAuth te s = Ok tt s'
    /\ TokenManager.getToken (clock s + authMs te) (auth te) (tokenManager s)
       = Returns ti (tokenManager s')
    /\ config s' = config s
    /\ refreshCount s' = refreshCount s + 1
    /\ refreshTimer s' = refreshTimer s
    /\ maxRuntimeTimer s' = maxRuntimeTimer s
    /\ process_pid s' = process_pid s
    /\ clock s' = clock s + tickMs te
    /\ timers s' = timers s
    /\ nextTimerId s' = nextTimerId s
    /\ ticks s' = S (ticks s)
    /\ statusFile s'
       = Some (Status.Json
                 (Status.merge
                    (recordOf (process_pid s) (clock s + tickMs te) (statusFile s))
                    {| Status.u_pid := None; Status.u_startTime := None;
                       Status.u_status := None;
                       Status.u_lastRefresh := Some (clock s + tickMs te);
                       Status.u_nextRefresh :=
                         Some (clock s + tickMs te + intervalMs s);
                       Status.u_refreshCount := Some (refreshCount s + 1) |})).
Proof.
  intros Hf Hd Hq Hok. unfold failsAfter in Hf. unfold tickMs in *.
  unfold intervalMs.
  destruct s as [cfg tm rt mt rc pid c tms nid ka sf lf tk].
  cbn [clock timers statusFile process_pid config refreshCount tokenManager] in *.
  assert (Hsf : sf = None \/ exists st, sf = Some (Status.Json st)).
  { destruct sf as [[| st] |]; [now elim Hok | right; now exists st | now left]. }
  unfold refreshTokenAndAuth, tokenManager_getToken, updateGitAuth,
    updateGhAuth, runCommand, updateStatus, currentStatus, log, modify, get,
    throw, ret.
  unfold try_catch, bind.
  destruct (auth te) as [msg | r] eqn:Ha; cbn in Hf; [discriminate |].
  destruct (TokenManager.lacks_token r) eqn:Hl; cbn in Hf; [discriminate |].
  destruct (gitConfig te =? 0) eqn:Hg; cbn in Hf; [| discriminate].
  destruct (ghLogin te =? 0) eqn:Hlogin; cbn in Hf; [| discriminate].
  destruct (ghSetupGit te =? 0) eqn:Hsetup; cbn in Hf; [| discriminate].
  unfold TokenManager.getToken. go Hq Hd.
  destruct Hsf as [-> | [st ->]]; cbn; do 2 eexists;
    (split; [reflexivity |]); cbn; (split; [reflexivity |]);
    repeat split; try lia; try (rewrite ?Z.add_assoc; reflexivity).
Qed.

Lemma scheduleNextRefresh_eq (s : Daemon.t) :
  scheduleNextRefresh s
  = Ok tt (set_refreshTimer (Some (nextTimerId s))
             (set_timers
                (clearTimer (refreshTimer s) (timers s) ++ [nextRefreshTimer s])
                (S (nextTimerId s)) s)).
Proof.
  destruct s as [cfg tm rt mt rc pid c tms nid ka sf lf tk].
  destruct rt; reflexivity.
Qed.

Lemma refreshCallback_fails (te : TickEnv) (s : Daemon.t) (d : Z) :
  failsAfter te = Some d ->
  durationsOk te ->
  quiet (clock s + d) (timers s) ->
  statusFileOk (statusFile s) ->
  exists s',
    refreshCallback te s = Ok tt s'
    /\ config s' = config s
    /\ refreshCount s' = refreshCount s
    /\ maxRuntimeTimer s' = maxRuntimeTimer s
    /\ process_pid s' = process_pid s
    /\ clock s' = clock s + d
    /\ ticks s' = S (ticks s)
    /\ refreshTimer s' = Some (nextTimerId s)
    /\ nextTimerId s' = S (nextTimerId s)
    /\ timers s'
       = clearTimer (refreshTimer s) (timers s)
         ++ [{| tid := nextTimerId s; kind := RefreshTimer;
                delay := intervalMs s;
                due := clock s + d + timer_delay (intervalMs s) |}]
    /\ statusFile s'
       = Some (Status.Json
                 (Status.merge
                    (recordOf (process_pid s) (clock s + d) (statusFile s))
                    (Status.status_only "error"))).
Proof.
  intros Hf Hd Hq Hok.
  destruct (refreshTokenAndAuth_fails te s d Hf Hd Hq Hok)
    as [e [s1 [Hrun [Hc [Hrc [Hrt [Hmt [Hpid [Hclk [Htms [Hnid [Htk Hsf]]]]]]]]]]]].
  unfold refreshCallback, try_catch. unfold bind at 1. rewrite Hrun.
  unfold bind, log, modify. rewrite scheduleNextRefresh_eq.
  eexists. split; [reflexivity |].
  destruct s1. cbn in *. subst. unfold intervalMs. cbn. repeat split.
Qed.

Lemma refreshCallback_succeeds (te : TickEnv) (s : Daemon.t) :
  failsAfter te = None ->
  durationsOk te ->
  quiet (clock s + tickMs te) (timers s) ->
  statusFileOk (statusFile s) ->
  exists ti s',
    refreshCallback te s = Ok tt s'
    /\ TokenManager.getToken (clock s + authMs te) (auth te) (tokenManager s)
       = Returns ti (tokenManager s')
    /\ config s' = config s
    /\ refreshCount s' = refreshCount s + 1
    /\ maxRuntimeTimer s' = maxRuntimeTimer s
    /\ process_pid s' = process_pid s
    /\ clock s' = clock s + tickMs te
    /\ ticks s' = S (ticks s)
    /\ refreshTimer s' = Some (nextTimerId s)
    /\ nextTimerId s' = S (nextTimerId s)
    /\ timers s'
       = clearTimer (refreshTimer s) (timers s)
         ++ [{| tid := nextTimerId s; kind := RefreshTimer;
                delay := intervalMs s;
                due := clock s + tickMs te + timer_delay (intervalMs s) |}]
    /\ statusFile s'
       = Some (Status.Json
                 (Status.merge
                    (recordOf (process_pid s) (clock s + tickMs te) (statusFile s))
                    {| Status.u_pid := None; Status.u_startTime := None;
                       Status.u_status := None;
                       Status.u_lastRefresh := Some (clock s + tickMs te);
                       Status.u_nextRefresh :=
                         Some (clock s + tickMs te + intervalMs s);
                       Status.u_refreshCount := Some (refreshCount s + 1) |})).
Proof.
  intros Hf Hd Hq Hok.
  destruct (refreshTokenAndAuth_succeeds te s Hf Hd Hq Hok)
    as [ti [s1 [Hrun [Htok [Hc [Hrc [Hrt [Hmt [Hpid [Hclk [Htms [Hnid [Htk Hsf]]]]]]]]]]]]].
  unfold refreshCallback, try_catch. unfold bind at 1. rewrite Hrun.
  rewrite scheduleNextRefresh_eq.
  exists ti. eexists. split; [reflexivity |].
  destruct s1. cbn in *. subst. unfold intervalMs. cbn. repeat split.
  assumption.
Qed.


Lemma timers_of_remove (k : TimerKind) (id : nat) (l : list Timer) :
  timers_of k (remove_timer id l) = remove_timer id (timers_of k l).
Proof.
  unfold timers_of, remove_timer.
  induction l as [| tm l IH]; [reflexivity |]. cbn.
  destruct (negb (tid tm =? id)%nat) eqn:E1;
    destruct (TimerKind_eqb (kind tm) k) eqn:E2;
    cbn; rewrite ?E1, ?E2, ?IH; reflexivity.
Qed.

Lemma earliest_some (l : list Timer) :
  l <> [] -> exists tm, earliest l = Some tm.
Proof.
  destruct l as [| t l]; [congruence |]. intros _. cbn.
  destruct (earliest l) as [t' |]; [| now exists t].
  destruct (fires_before t' t); eexists; reflexivity.
Qed.

Lemma timers_of_app (k : TimerKind) (l1 l2 : list Timer) :
  timers_of k (l1 ++ l2) = timers_of k l1 ++ timers_of k l2.
Proof. apply filter_app. Qed.

Lemma timers_of_clear_nil (k : TimerKind) (rt : option nat) (l : list Timer) :
  timers_of k l = [] -> timers_of k (clearTimer rt l) = [].
Proof.
  intros H. destruct rt as [id |]; unfold clearTimer; [| assumption].
  now rewrite timers_of_remove, H.
Qed.

Lemma timers_of_fired (tm : Timer) (l : list Timer) :
  timers_of (kind tm) l = [tm] ->
  timers_of (kind tm) (remove_timer (tid tm) l) = [].
Proof.
  intros H. rewrite timers_of_remove, H. unfold remove_timer. cbn.
  now rewrite Nat.eqb_refl.
Qed.

Lemma quiet_remove (wake : Z) (id : nat) (l : list Timer) :
  quiet wake l -> quiet wake (remove_timer id l).
Proof.
  intros Hq tm Hin. apply Hq. unfold remove_timer in Hin.
  now apply filter_In in Hin.
Qed.


Lemma bind_Ok (A B : Type) (m : M A) (k : A -> M B) (s s' : Daemon.t) (a : A) :
  m s = Ok a s' -> bind m k s = k a s'.
Proof. intros H. unfold bind. now rewrite H. Qed.

Lemma try_catch_Ok (A : Type) (m : M A) (h : Err -> M A) (s s' : Daemon.t) (a : A) :
  m s = Ok a s' -> try_catch m h s = Ok a s'.
Proof. intros H. unfold try_catch. now rewrite H. Qed.

Lemma updateStatus_ok (u : Status.StatusUpdate) (s : Daemon.t) :
  statusFileOk (statusFile s) ->
  updateStatus u s
  = Ok tt (set_statusFile
             (Some (Status.Json
                      (Status.merge
                         (recordOf (process_pid s) (clock s) (statusFile s)) u)))
             s).
Proof.
  intros Hok. unfold updateStatus, try_catch, bind, currentStatus, modify.
  destruct (statusFile s) as [[| st] |]; [now elim Hok | reflexivity | reflexivity].
Qed.

(** The daemon's [updateStatus] always returns, and the file it leaves
    is the one [statusFile_after] describes. *)
Lemma updateStatus_statusFile (u : Status.StatusUpdate) (s : Daemon.t) :
  exists s',
    updateStatus u s = Ok tt s'
    /\ statusFile s'
       = statusFile_after (process_pid s) (clock s) u (statusFile s).
Proof.
  unfold updateStatus, try_catch, bind, currentStatus, modify, log,
    statusFile_after.
  destruct s as [cfg tm rt mt rc pid c tms nid ka sf lf tk]. cbn.
  destruct sf as [[| st] |]; cbn; eexists; split; reflexivity.
Qed.

Lemma updateStatus_keeps_statusFileOk (u : Status.StatusUpdate) (s s' : Daemon.t) :
  statusFileOk (statusFile s) ->
  updateStatus u s = Ok tt s' ->
  statusFileOk (statusFile s').
Proof.
  intros Hok Hrun. rewrite updateStatus_ok in Hrun by assumption.
  inversion Hrun. destruct s. cbn. discriminate.
Qed.

Lemma quiet_nil (wake : Z) : quiet wake [].
Proof. intros tm []. Qed.

Lemma start_establishes (w : World) (c : DaemonConfig) (pid now : Z)
      (sf : option Status.StatusFile) (lf : list (Timestamp * LogMsg)) :
  refreshIntervalMinutes c = 30 ->
  maxRuntimeHours c = 6 ->
  failsAfter (w O) = None ->
  durationsOk (w O) ->
  statusFileOk sf ->
  exists s1,
    start (w O) (new c pid now sf lf) = Ok tt s1
    /\ Inv w (now + tickMs (w O)) pid 1 s1.
Proof.
  intros Hi Hh Hf Hd Hok.
  assert (Hsf : sf = None \/ exists st, sf = Some (Status.Json st)).
  { destruct sf as [[| st] |]; [now elim Hok | right; now exists st | now left]. }
  unfold start, new, try_catch.
  unfold bind at 1. unfold log at 1. unfold modify at 1.
  unfold bind at 1. unfold get at 1.
  unfold bind at 1. unfold get at 1.
  unfold bind at 1. rewrite updateStatus_ok by (cbn; assumption).
  unfold bind at 1.
  match goal with
  | |- context [refreshTokenAndAuth ?te ?sA] =>
      destruct (refreshTokenAndAuth_succeeds te sA Hf Hd)
        as [ti [s1 [Hrun [Htok [Hc [Hrc [Hrt [Hmt [Hpid [Hclk [Htms [Hnid [Htk Hfile]]]]]]]]]]]]];
      [apply quiet_nil | cbn; discriminate |]
  end.
  rewrite Hrun.
  unfold bind at 1. rewrite scheduleNextRefresh_eq.
  destruct s1 as [cfg1 tm1 rt1 mt1 rc1 pid1 c1 tms1 nid1 ka1 sf1 lf1 tk1].
  cbn in Hc, Hrc, Hrt, Hmt, Hpid, Hclk, Htms, Hnid, Htk, Hfile. subst.
  cbn. rewrite Hi, Hh. cbn.
  eexists. split; [reflexivity |].
  constructor; cbn; try reflexivity; try lia.
  - exists 0%nat. split; [reflexivity |]. left.
    unfold nextRefreshTimer, intervalMs, refreshTimerAt, maxTimerAt. cbn.
    rewrite Hi. cbn. repeat split.
  - destruct Hsf as [-> | [st ->]]; cbn; eexists; repeat split.
Qed.

Lemma fire_refresh_succeeds (w : World) (tm : Timer) (s : Daemon.t) :
  kind tm = RefreshTimer ->
  failsAfter (w (ticks s)) = None ->
  durationsOk (w (ticks s)) ->
  quiet (Z.max (clock s) (due tm) + tickMs (w (ticks s))) (timers s) ->
  statusFileOk (statusFile s) ->
  exists s',
    fire tm w s = Ok tt s'
    /\ config s' = config s
    /\ refreshCount s' = refreshCount s + 1
    /\ maxRuntimeTimer s' = maxRuntimeTimer s
    /\ process_pid s' = process_pid s
    /\ clock s' = Z.max (clock s) (due tm) + tickMs (w (ticks s))
    /\ ticks s' = S (ticks s)
    /\ refreshTimer s' = Some (nextTimerId s)
    /\ nextTimerId s' = S (nextTimerId s)
    /\ timers s'
       = clearTimer (refreshTimer s) (remove_timer (tid tm) (timers s))
         ++ [{| tid := nextTimerId s; kind := RefreshTimer;
                delay := intervalMs s;
                due := clock s' + timer_delay (intervalMs s) |}]
    /\ statusFile s'
       = Some (Status.Json
                 (Status.merge
                    (recordOf (process_pid s) (clock s') (statusFile s))
                    {| Status.u_pid := None; Status.u_startTime := None;
                       Status.u_status := None;
                       Status.u_lastRefresh := Some (clock s');
                       Status.u_nextRefresh := Some (clock s' + intervalMs s);
                       Status.u_refreshCount := Some (refreshCount s + 1) |})).
Proof.
  intros Hkind Hf Hd Hq Hok.
  pose (s0 := fired tm s).
  assert (H0 : ticks s0 = ticks s
               /\ clock s0 = Z.max (clock s) (due tm)
               /\ timers s0 = remove_timer (tid tm) (timers s)
               /\ statusFile s0 = statusFile s
               /\ config s0 = config s
               /\ refreshCount s0 = refreshCount s
               /\ process_pid s0 = process_pid s
               /\ refreshTimer s0 = refreshTimer s
               /\ maxRuntimeTimer s0 = maxRuntimeTimer s
               /\ nextTimerId s0 = nextTimerId s).
  { subst s0. destruct s. cbn. repeat split. }
  destruct H0 as [Htk [Hclk [Htms [Hsf [Hcfg [Hrc [Hpid [Hrt [Hmt Hnid]]]]]]]]].
  destruct (refreshCallback_succeeds (w (ticks s)) s0 Hf Hd) as
    [ti [s' [Hrun [_ [Hc' [Hrc' [Hmt' [Hpid' [Hclk' [Htk' [Hrt' [Hnid' [Htms' Hsf']]]]]]]]]]]]].
  { rewrite Hclk, Htms. now apply quiet_remove. }
  { now rewrite Hsf. }
  exists s'. split.
  { unfold fire, try_catch. unfold bind at 1.
    unfold modify at 1. fold s0. rewrite Hkind.
    unfold bind, get. rewrite Htk, Hrun. reflexivity. }
  unfold intervalMs in *.
  rewrite Hc', Hrc', Hmt', Hpid', Hclk', Htk', Hrt', Hnid', Htms', Hsf'.
  rewrite Hcfg, Hrc, Hmt, Hpid, Hclk, Htk, Hrt, Hnid, Htms, Hsf.
  repeat split.
Qed.

Lemma elapsed_mono (w : World) (n : nat) :
  (forall i, (i <= n)%nat -> durationsOk (w i)) ->
  forall j, (j <= n)%nat -> 0 <= elapsed w j <= elapsed w n.
Proof.
  intros Hd.
  assert (Hstep : forall i, (i <= n)%nat -> 0 <= tickMs (w i)).
  { intros i Hi. specialize (Hd i Hi). unfold durationsOk, tickMs in *. lia. }
  assert (Hpos : forall j, (j <= n)%nat -> 0 <= elapsed w j).
  { induction j as [| j IH]; intros Hj; cbn; [lia |].
    specialize (Hstep (S j) Hj). specialize (IH ltac:(lia)). lia. }
  assert (Hle : forall m j, (j + m <= n)%nat -> elapsed w j <= elapsed w (j + m)).
  { induction m as [| m IH]; intros j Hj.
    - rewrite Nat.add_0_r. lia.
    - replace (j + S m)%nat with (S (j + m)) by lia. cbn.
      specialize (IH j ltac:(lia)). specialize (Hstep (S (j + m)) ltac:(lia)). lia. }
  intros j Hj. split; [now apply Hpos |].
  specialize (Hle (n - j)%nat j ltac:(lia)).
  now replace (j + (n - j))%nat with n in Hle by lia.
Qed.


Lemma quiet_max (wake t0 : Z) (l : list Timer) :
  (forall tm, In tm l -> tm = maxTimerAt t0 \/ kind tm = RefreshTimer) ->
  wake < t0 + 21600000 ->
  quiet wake l.
Proof.
  intros Hl Hw tm Hin Hk. destruct (Hl tm Hin) as [-> | Hr].
  - exact Hw.
  - rewrite Hr in Hk. discriminate.
Qed.

Lemma remove_timer_cons (id : nat) (tm : Timer) (l : list Timer) :
  remove_timer id (tm :: l)
  = if (tid tm =? id)%nat then remove_timer id l
    else tm :: remove_timer id l.
Proof. unfold remove_timer. cbn. now destruct (tid tm =? id)%nat. Qed.

Lemma loop_step (w : World) (t0 pid : Z) (k : nat) (s : Daemon.t) (fuel : nat) :
  Inv w t0 pid k s ->
  (1 <= k <= 11)%nat ->
  (forall i, (i <= 11)%nat -> failsAfter (w i) = None /\ durationsOk (w i)) ->
  elapsed w 11 < 1800000 ->
  exists s',
    eventLoop (S fuel) w s = eventLoop fuel w s'
    /\ Inv w t0 pid (S k) s'.
Proof.
  intros [Hi Hh Htk Hrc Hclk Hpid Hmt Hnid [rid [Hrt Htms]] [st [Hsf [Hst [Hcount Hspid]]]]]
         Hk Hw He.
  assert (Hdur : forall i, (i <= 11)%nat -> durationsOk (w i))
    by (intros i Hi'; apply Hw; assumption).
  pose proof (elapsed_mono w 11 Hdur (k - 1) ltac:(lia)) as Hprev.
  pose proof (elapsed_mono w 11 Hdur k ltac:(lia)) as Hcur.
  assert (Hsucc : elapsed w k = elapsed w (k - 1) + tickMs (w k)).
  { destruct k as [| k']; [lia |]. cbn. now rewrite Nat.sub_0_r. }
  set (r := refreshTimerAt rid (clock s + 1800000)).
  assert (Hearliest : earliest (timers s) = Some r).
  { unfold r.
    destruct Htms as [[_ [Hrid Hl]] | [Hk2 [Hrid Hl]]]; rewrite Hl, Hrid;
      cbn; unfold fires_before; cbn.
    - replace (t0 + 21600000 <? clock s + 1800000) with false
        by (symmetry; apply Z.ltb_ge; nia).
      now rewrite andb_false_r.
    - replace (clock s + 1800000 <? t0 + 21600000) with true
        by (symmetry; apply Z.ltb_lt; nia).
      reflexivity. }
  assert (Hin : forall tm, In tm (timers s) ->
                      tm = maxTimerAt t0 \/ kind tm = RefreshTimer).
  { intros tm Hin.
    destruct Htms as [[_ [_ Hl]] | [_ [_ Hl]]]; rewrite Hl in Hin;
      destruct Hin as [<- | [<- | []]]; auto. }
  destruct (fire_refresh_succeeds w r s eq_refl) as
    [s' [Hrun [Hc' [Hrc' [Hmt' [Hpid' [Hclk' [Htk' [Hrt' [Hnid' [Htms' Hsf']]]]]]]]]]].
  { rewrite Htk. now apply Hw. }
  { rewrite Htk. now apply Hw. }
  { rewrite Htk. apply (quiet_max _ t0); [assumption |]. cbn [due r refreshTimerAt]. nia. }
  { rewrite Hsf. discriminate. }
  assert (Hclock : clock s' = t0 + (Z.of_nat (S k) - 1) * 1800000 + elapsed w k).
  { rewrite Hclk', Htk. cbn [due r refreshTimerAt]. nia. }
  exists s'. split.
  { cbn [eventLoop]. rewrite Hearliest. unfold bind. now rewrite Hrun. }
  unfold intervalMs in *. rewrite Hi in *.
  change (timer_delay (30 * 60 * 1000)) with 1800000 in Htms'.
  constructor.
  - now rewrite Hc'.
  - now rewrite Hc'.
  - now rewrite Htk', Htk.
  - rewrite Hrc', Hrc. lia.
  - now replace (S k - 1)%nat with k by lia.
  - now rewrite Hpid'.
  - now rewrite Hmt'.
  - now rewrite Hnid', Hnid.
  - exists (S k). split; [now rewrite Hrt', Hnid |]. right.
    split; [lia |]. split; [reflexivity |].
    rewrite Htms', Hrt, Hnid. cbn [tid r refreshTimerAt].
    destruct Htms as [[Hk1 [Hrid ->]] | [Hk2 [Hrid ->]]]; subst rid.
    + reflexivity.
    + assert (Hne : (1 =? k)%nat = false) by (apply Nat.eqb_neq; lia).
      unfold clearTimer.
      rewrite !remove_timer_cons. cbn [tid maxTimerAt refreshTimerAt].
      rewrite Nat.eqb_refl, Hne.
      rewrite !remove_timer_cons. cbn [tid maxTimerAt refreshTimerAt].
      rewrite Hne. reflexivity.
  - eexists. split; [rewrite Hsf', Hsf; reflexivity |]. cbn.
    split; [assumption |]. split; [rewrite Hrc; lia | assumption].
Qed.


Lemma loop_steps (w : World) (t0 pid : Z) (n : nat) :
  (forall i, (i <= 11)%nat -> failsAfter (w i) = None /\ durationsOk (w i)) ->
  elapsed w 11 < 1800000 ->
  forall (k : nat) (s : Daemon.t) (fuel : nat),
    Inv w t0 pid k s ->
    (1 <= k)%nat -> (k + n <= 12)%nat ->
    exists s',
      eventLoop (n + fuel) w s = eventLoop fuel w s'
      /\ Inv w t0 pid (k + n) s'.
Proof.
  intros Hw He. induction n as [| n IH]; intros k s fuel Hinv Hk Hkn.
  - exists s. rewrite Nat.add_0_r. now split.
  - destruct (loop_step w t0 pid k s (n + fuel) Hinv ltac:(lia) Hw He)
      as [s1 [Hrun1 Hinv1]].
    destruct (IH (S k) s1 fuel Hinv1 ltac:(lia) ltac:(lia)) as [s' [Hrun' Hinv']].
    exists s'. split.
    + cbn [Nat.add]. rewrite Hrun1. exact Hrun'.
    + now replace (k + S n)%nat with (S k + n)%nat by lia.
Qed.

Lemma max_runtime_shutdown (w : World) (t0 pid : Z) (s : Daemon.t) (fuel : nat) :
  Inv w t0 pid 12 s ->
  0 <= elapsed w 11 < 1800000 ->
  exists s' st',
    eventLoop (S fuel) w s = Exit 0 s'
    /\ ticks s' = 12%nat
    /\ refreshCount s' = 12
    /\ clock s' = t0 + 21600000
    /\ timers s' = []
    /\ statusFile s' = Some (Status.Json st')
    /\ Status.status st' = "stopped"%string
    /\ Status.refreshCount st' = 12
    /\ Status.pid st' = pid.
Proof.
  intros [Hi Hh Htk Hrc Hclk Hpid Hmt Hnid [rid [Hrt Htms]] [st [Hsf [Hst [Hcount Hspid]]]]]
         He.
  destruct Htms as [[Hk1 _] | [_ [Hrid Htms]]]; [discriminate |]. subst rid.
  cbn [Nat.sub] in Hclk.
  remember (elapsed w 11) as E eqn:HE. clear HE.
  assert (Hearliest : earliest (timers s) = Some (maxTimerAt t0)).
  { rewrite Htms. cbn. unfold fires_before. cbn.
    replace (clock s + 1800000 <? t0 + 21600000) with false
      by (symmetry; apply Z.ltb_ge; lia).
    now rewrite andb_false_r. }
  cbn [eventLoop]. rewrite Hearliest.
  destruct s as [cfg tm rt mt rc pid0 c tms nid ka sf lf tk].
  cbn in Hi, Hh, Htk, Hrc, Hclk, Hpid, Hmt, Hnid, Hrt, Htms, Hsf. subst.
  cbn.
  do 2 eexists. split; [reflexivity |]. cbn.
  repeat split; try assumption. lia.
Qed.

End DaemonLemmas.

(** C1.  Take a state of the daemon in which one refresh timer is
    pending, and let the event loop run its callback.  If the refresh
    fails (the handshake, [git config], [gh auth login] or
    [gh auth setup-git]) before the maximum-runtime timer comes due, and
    the status file is absent or parses, then the callback returns (the
    process does not exit and no exception escapes), the status file
    holds the previous record with [status] set to ["error"], the
    counter [refreshCount] is unchanged in memory and in the file, and
    exactly one refresh timer is pending afterwards, set with the delay
    [refreshIntervalMinutes * 60 * 1000] from the end of the failed
    refresh; the maximum-runtime timer stays as it was, and the event
    loop has a timer to run next. *)
Theorem failed_tick_keeps_count_and_reschedules :
  forall (w : Daemon.World) (s : Daemon.t) (tm : Timer) (d : Z),
    kind tm = RefreshTimer ->
    timers_of RefreshTimer (Daemon.timers s) = [tm] ->
    failsAfter (w (Daemon.ticks s)) = Some d ->
    durationsOk (w (Daemon.ticks s)) ->
    quiet (Z.max (Daemon.clock s) (due tm) + d) (Daemon.timers s) ->
    statusFileOk (Daemon.statusFile s) ->
    exists s',
      Daemon.fire tm w s = Daemon.Ok tt s'
      /\ Daemon.clock s' = Z.max (Daemon.clock s) (due tm) + d
      /\ Daemon.statusFile s'
         = Some (Status.Json
                   (Status.merge
                      (recordOf (Daemon.process_pid s) (Daemon.clock s')
                         (Daemon.statusFile s))
                      (Status.status_only "error")))
      /\ (forall st,
            Daemon.statusFile s = Some (Status.Json st) ->
            exists st',
              Daemon.statusFile s' = Some (Status.Json st')
              /\ Status.status st' = "error"%string
              /\ Status.refreshCount st' = Status.refreshCount st)
      /\ Daemon.refreshCount s' = Daemon.refreshCount s
      /\ timers_of RefreshTimer (Daemon.timers s')
         = [{| tid := Daemon.nextTimerId s; kind := RefreshTimer;
               delay := intervalMs s;
               due := Daemon.clock s' + timer_delay (intervalMs s) |}]
      /\ timers_of MaxRuntimeTimer (Daemon.timers s')
         = clearTimer (Daemon.refreshTimer s)
             (remove_timer (tid tm)
                (timers_of MaxRuntimeTimer (Daemon.timers s)))
      /\ (exists next, earliest (Daemon.timers s') = Some next).
Proof.
  intros w s tm d Hkind Hpending Hf Hd Hq Hok.
  pose (s0 := Daemon.fired tm s).
  assert (H0 : Daemon.ticks s0 = Daemon.ticks s
               /\ Daemon.clock s0 = Z.max (Daemon.clock s) (due tm)
               /\ Daemon.timers s0 = remove_timer (tid tm) (Daemon.timers s)
               /\ Daemon.statusFile s0 = Daemon.statusFile s
               /\ Daemon.config s0 = Daemon.config s
               /\ Daemon.refreshCount s0 = Daemon.refreshCount s
               /\ Daemon.process_pid s0 = Daemon.process_pid s
               /\ Daemon.refreshTimer s0 = Daemon.refreshTimer s
               /\ Daemon.nextTimerId s0 = Daemon.nextTimerId s).
  { subst s0. destruct s. cbn. repeat split. }
  destruct H0 as [Htk [Hclk [Htms [Hsf [Hcfg [Hrc [Hpid [Hrt Hnid]]]]]]]].
  destruct (refreshCallback_fails (w (Daemon.ticks s)) s0 d Hf Hd) as
    [s' [Hrun [Hc' [Hrc' [Hmt' [Hpid' [Hclk' [Htk' [Hrt' [Hnid' [Htms' Hsf']]]]]]]]]]].
  { rewrite Hclk, Htms. now apply quiet_remove. }
  { now rewrite Hsf. }
  exists s'. split.
  { unfold Daemon.fire, Daemon.try_catch. unfold Daemon.bind at 1.
    unfold Daemon.modify at 1. fold s0. rewrite Hkind.
    unfold Daemon.bind, Daemon.get. rewrite Htk, Hrun. reflexivity. }
  assert (Hclock : Daemon.clock s' = Z.max (Daemon.clock s) (due tm) + d)
    by (rewrite Hclk', Hclk; reflexivity).
  assert (Hfile : Daemon.statusFile s'
                  = Some (Status.Json
                            (Status.merge
                               (recordOf (Daemon.process_pid s) (Daemon.clock s')
                                  (Daemon.statusFile s))
                               (Status.status_only "error")))).
  { rewrite Hsf', Hpid, Hsf, Hclock, Hclk. reflexivity. }
  split; [exact Hclock |]. split; [exact Hfile |]. split.
  { intros st Hst. eexists. split; [exact Hfile |].
    rewrite Hst. cbn. split; reflexivity. }
  split; [now rewrite Hrc', Hrc |]. split; [| split].
  3:{ apply earliest_some. rewrite Htms'.
      intros Hnil. apply app_eq_nil in Hnil. destruct Hnil as [_ Hnil].
      discriminate. }
  - rewrite Htms', Hrt, Htms, Hnid. rewrite timers_of_app.
    rewrite timers_of_clear_nil.
    + cbn. unfold intervalMs. rewrite Hcfg, Hclock.
      now rewrite <- Hclk.
    + rewrite <- Hkind. apply timers_of_fired. now rewrite Hkind.
  - rewrite Htms', Hrt, Htms. rewrite timers_of_app.
    change (timers_of MaxRuntimeTimer [_]) with (@nil Timer).
    rewrite app_nil_r.
    destruct (Daemon.refreshTimer s) as [id |]; unfold clearTimer;
      now rewrite ?timers_of_remove.
Qed.

Lemma failed_tick_keeps_count_and_reschedules_witness :
  exists s',
    Daemon.fire {| tid := 3; kind := RefreshTimer; delay := 1800000;
                   due := 7200000 |}
                (fun _ => ghLoginFailsTick) sample_running_daemon
    = Daemon.Ok tt s'
    /\ Daemon.clock s' = 7201000
    /\ Daemon.refreshCount s' = 3
    /\ timers_of RefreshTimer (Daemon.timers s')
       = [{| tid := 4; kind := RefreshTimer; delay := 1800000;
             due := 9001000 |}].
Proof.
  destruct (failed_tick_keeps_count_and_reschedules
              (fun _ => ghLoginFailsTick) sample_running_daemon
              {| tid := 3; kind := RefreshTimer; delay := 1800000;
                 due := 7200000 |} 1000)
    as [s' [Hrun [Hclk [_ [_ [Hrc [Htm _]]]]]]].
  - reflexivity.
  - reflexivity.
  - reflexivity.
  - unfold durationsOk. cbn. lia.
  - intros tm [Htm | [Htm | []]] Hk; subst tm; cbn in *; [lia | discriminate].
  - discriminate.
  - exists s'. split; [exact Hrun |]. split; [exact Hclk |].
    split; [exact Hrc |]. rewrite Htm, Hclk. reflexivity.
Defined.

(** C6, as stated, fails: with a refresh interval of 60 minutes and a
    credential that lives one hour (the default when the response has no
    expiry), the refresh at instant 0 writes [nextRefresh = 3600000],
    which is the credential's [expiresAt] itself. *)
Lemma nextRefresh_can_reach_expiry :
  ~ nextRefresh_precedes_expiry.
Proof.
  intros H.
  edestruct (H (okTick 0) (Daemon.new (sample_config 60 6) 4242 0 None []))
    as [next [Hnext Hlt]].
  - reflexivity.
  - unfold durationsOk. cbn. lia.
  - vm_compute. reflexivity.
  - cbn. reflexivity.
  - cbn. reflexivity.
  - cbn in Hnext. inversion Hnext; subst next.
    vm_compute in Hlt. discriminate.
Qed.

(** C6, amended.  A refresh that succeeds caches the minted credential
    and writes [nextRefresh = now + refreshIntervalMinutes * 60 * 1000],
    [now] being the instant the refresh completes, whatever the
    credential's expiry; this is strictly less than [expiresAt] minus the
    five-minute margin exactly when the interval plus the margin is less
    than the lifetime the credential has left at that instant.  When the
    response carries no expiry, [expiresAt] is one hour after the
    handshake completed. *)
Theorem nextRefresh_is_now_plus_interval :
  forall (te : Daemon.TickEnv) (s : Daemon.t),
    failsAfter te = None ->
    durationsOk te ->
    quiet (Daemon.clock s + tickMs te) (Daemon.timers s) ->
    statusFileOk (Daemon.statusFile s) ->
    exists ti s' st',
      Daemon.refreshTokenAndAuth te s = Daemon.Ok tt s'
      /\ Daemon.clock s' = Daemon.clock s + tickMs te
      /\ TokenManager.currentToken (Daemon.tokenManager s') = Some ti
      /\ Daemon.statusFile s' = Some (Status.Json st')
      /\ Status.nextRefresh st' = Some (Daemon.clock s' + intervalMs s)
      /\ (Daemon.clock s' + intervalMs s
            < TokenManager.expiresAt ti - TokenManager.marginMs
          <-> intervalMs s + TokenManager.marginMs
              < TokenManager.expiresAt ti - Daemon.clock s')
      /\ (forall r,
            Daemon.auth te = TokenManager.AuthResolves r ->
            TokenManager.ar_expiresAt r = None ->
            TokenManager.expiresAt ti
            = Daemon.clock s + Daemon.authMs te + 60 * 60 * 1000).
Proof.
  intros te s Hf Hd Hq Hok.
  destruct (refreshTokenAndAuth_succeeds te s Hf Hd Hq Hok)
    as [ti [s' [Hrun [Htok [_ [_ [_ [_ [_ [Hclk [_ [_ [_ Hsf]]]]]]]]]]]]].
  exists ti, s'. eexists. split; [exact Hrun |]. split; [exact Hclk |].
  split.
  { rewrite (getToken_returns_inv _ _ _ _ _ Htok). reflexivity. }
  split; [exact Hsf |]. split; [now rewrite Hclk |]. split; [lia |].
  intros r Hr Hexp. rewrite Hr in Htok.
  unfold TokenManager.getToken in Htok.
  destruct (TokenManager.lacks_token r); [discriminate |].
  inversion Htok as [[Hti Htm]]. cbn. now rewrite Hexp.
Qed.

Lemma nextRefresh_is_now_plus_interval_witness :
  exists ti s' st',
    Daemon.refreshTokenAndAuth (okTick 2000) sample_running_daemon
    = Daemon.Ok tt s'
    /\ TokenManager.currentToken (Daemon.tokenManager s') = Some ti
    /\ Daemon.statusFile s' = Some (Status.Json st')
    /\ Status.nextRefresh st' = Some (5402000 + 1800000)
    /\ TokenManager.expiresAt ti = 5402000 + 3600000.
Proof.
  destruct (nextRefresh_is_now_plus_interval (okTick 2000) sample_running_daemon)
    as [ti [s' [st' [Hrun [Hclk [Htok [Hsf [Hnext [_ Hexp]]]]]]]]].
  - reflexivity.
  - unfold durationsOk. cbn. lia.
  - intros tm [Htm | [Htm | []]] Hk; subst tm; cbn in *; [lia | discriminate].
  - discriminate.
  - exists ti, s', st'. split; [exact Hrun |]. split; [exact Htok |].
    split; [exact Hsf |]. split.
    + rewrite Hnext, Hclk. reflexivity.
    + rewrite (Hexp sample_authResult eq_refl eq_refl). reflexivity.
Defined.

(** C2, as stated, fails: when every refresh of a failure-free run takes
    four minutes, the daemon with a 30-minute interval and a six-hour limit
    is shut down after 11 refreshes. *)
Lemma slow_ticks_give_eleven :
  ~ twelve_ticks_in_every_run.
Proof.
  intros H.
  assert (Hrun : exists s',
             Daemon.main 20 (fun _ => okTick 240000)
               (Daemon.new (sample_config 30 6) 4242 0 None [])
             = Daemon.Exit 0 s'
             /\ Daemon.ticks s' = 11%nat).
  { eexists. split; vm_compute; reflexivity. }
  destruct Hrun as [s' [Hrun Htk]].
  specialize (H (fun _ => okTick 240000) (sample_config 30 6) 4242 0 20%nat
                0 s' eq_refl eq_refl).
  rewrite Htk in H. discriminate H; [| exact Hrun].
  intros i. split; [reflexivity | unfold durationsOk; cbn; lia].
Qed.

(** C2, amended.  A daemon started with a 30-minute interval and a
    six-hour limit, whose initial refresh and first eleven scheduled
    refreshes succeed and whose scheduled refreshes take less than 30
    minutes together, performs exactly 12 refreshes (the initial one, then
    one 30 minutes after the end of the previous one) before the
    maximum-runtime timer fires, six hours after the initial refresh
    ended.  The callback of that timer leaves no timer pending, writes the
    status ["stopped"] (the record keeps [refreshCount = 12]) and ends
    the process with code 0. *)
Theorem twelve_ticks_then_shutdown :
  forall (w : Daemon.World) (c : Daemon.DaemonConfig) (pid now : Z)
         (sf : option Status.StatusFile)
         (lf : list (Timestamp * Daemon.LogMsg)) (fuel : nat),
    Daemon.refreshIntervalMinutes c = 30 ->
    Daemon.maxRuntimeHours c = 6 ->
    (forall i, (i <= 11)%nat -> failsAfter (w i) = None /\ durationsOk (w i)) ->
    elapsed w 11 < 30 * 60 * 1000 ->
    statusFileOk sf ->
    (12 <= fuel)%nat ->
    exists s' st',
      Daemon.main fuel w (Daemon.new c pid now sf lf) = Daemon.Exit 0 s'
      /\ Daemon.ticks s' = 12%nat
      /\ Daemon.refreshCount s' = 12
      /\ Daemon.clock s' = now + tickMs (w O) + 6 * 60 * 60 * 1000
      /\ Daemon.timers s' = []
      /\ Daemon.statusFile s' = Some (Status.Json st')
      /\ Status.status st' = "stopped"%string
      /\ Status.refreshCount st' = 12
      /\ Status.pid st' = pid.
Proof.
  intros w c pid now sf lf fuel Hi Hh Hw He Hok Hfuel.
  change (30 * 60 * 1000) with 1800000 in He.
  destruct (Hw O ltac:(lia)) as [Hf0 Hd0].
  destruct (start_establishes w c pid now sf lf Hi Hh Hf0 Hd0 Hok)
    as [s1 [Hstart Hinv1]].
  destruct (loop_steps w _ pid 11 Hw He 1%nat s1 (S (fuel - 12)) Hinv1
              ltac:(lia) ltac:(lia))
    as [s12 [Hloop Hinv12]].
  assert (Hdur : forall i, (i <= 11)%nat -> durationsOk (w i))
    by (intros i Hi'; apply Hw; assumption).
  pose proof (elapsed_mono w 11 Hdur 11 ltac:(lia)) as Hpos.
  destruct (max_runtime_shutdown w _ pid s12 (fuel - 12) Hinv12 ltac:(lia))
    as [s' [st' [Hend Hprops]]].
  exists s', st'. split; [| exact Hprops].
  unfold Daemon.main, Daemon.bind. rewrite Hstart.
  replace fuel with (11 + S (fuel - 12))%nat by lia.
  rewrite Hloop. exact Hend.
Qed.

Lemma twelve_ticks_then_shutdown_witness :
  exists s' st',
    Daemon.main 12 (fun _ => okTick 2000)
      (Daemon.new (sample_config 30 6) 4242 0 None [])
    = Daemon.Exit 0 s'
    /\ Daemon.ticks s' = 12%nat
    /\ Daemon.refreshCount s' = 12
    /\ Daemon.timers s' = []
    /\ Daemon.statusFile s' = Some (Status.Json st')
    /\ Status.status st' = "stopped"%string
    /\ Status.refreshCount st' = 12.
Proof.
  destruct (twelve_ticks_then_shutdown (fun _ => okTick 2000)
              (sample_config 30 6) 4242 0 None [] 12)
    as [s' [st' [Hrun [Htk [Hrc [_ [Htms [Hsf [Hst [Hcount _]]]]]]]]]].
  - reflexivity.
  - reflexivity.
  - intros i _. split; [reflexivity | unfold durationsOk; cbn; lia].
  - vm_compute. reflexivity.
  - discriminate.
  - lia.
  - exists s', st'. repeat split; assumption.
Defined.

(** ** The token manager between refreshes *)

(** X1.  Once [getToken] has minted a credential, [getCurrentToken]
    hands out that same credential, without a handshake and without
    changing the manager, at every instant that is more than five minutes
    before its expiry; from five minutes before the expiry on it is
    [getToken] again, so its outcome is that of the handshake. *)
Theorem minted_token_served_until_margin :
  forall (t0 : Z) (auth0 : TokenManager.AuthOutcome) (tm0 tm : TokenManager.t)
         (ti : TokenManager.TokenInfo),
    TokenManager.getToken t0 auth0 tm0 = Returns ti tm ->
    forall (now : Z) (auth : TokenManager.AuthOutcome),
      (now + 5 * 60 * 1000 < TokenManager.expiresAt ti ->
       TokenManager.getCurrentToken now auth tm = Returns ti tm)
      /\ (TokenManager.expiresAt ti <= now + 5 * 60 * 1000 ->
          TokenManager.getCurrentToken now auth tm
          = TokenManager.getToken now auth tm).
Proof.
  intros t0 auth0 tm0 tm ti Hmint now auth.
  apply getToken_returns_inv in Hmint. subst tm.
  unfold TokenManager.getCurrentToken, TokenManager.needsRefresh,
    TokenManager.marginMs.
  cbn [TokenManager.currentToken TokenManager.set_currentToken].
  split; intros H.
  - replace (TokenManager.expiresAt ti <=? now + 5 * 60 * 1000) with false
      by (symmetry; apply Z.leb_gt; lia).
    reflexivity.
  - replace (TokenManager.expiresAt ti <=? now + 5 * 60 * 1000) with true
      by (symmetry; apply Z.leb_le; lia).
    reflexivity.
Qed.

Lemma minted_token_served_until_margin_witness :
  exists ti tm,
    TokenManager.getToken 0 (TokenManager.AuthResolves sample_authResult)
      (TokenManager.new sample_tmConfig) = Returns ti tm
    /\ TokenManager.expiresAt ti = 3600000
    /\ TokenManager.getCurrentToken 3299999
         (TokenManager.AuthRejects "offline") tm = Returns ti tm
    /\ TokenManager.getCurrentToken 3300000
         (TokenManager.AuthRejects "offline") tm
       = Throws (AuthFailed "offline") tm.
Proof.
  do 2 eexists. split; [reflexivity |]. split; [reflexivity |]. split.
  - apply (minted_token_served_until_margin 0
             (TokenManager.AuthResolves sample_authResult)
             (TokenManager.new sample_tmConfig) _ _ eq_refl 3299999
             (TokenManager.AuthRejects "offline")).
    cbn. lia.
  - rewrite (proj2 (minted_token_served_until_margin 0
                      (TokenManager.AuthResolves sample_authResult)
                      (TokenManager.new sample_tmConfig) _ _ eq_refl 3300000
                      (TokenManager.AuthRejects "offline")));
      [reflexivity | cbn; lia].
Defined.

(** X2.  [getInstallationId] asks the network at most once: when it
    returns an installation id other than 0, every later call on the
    manager it leaves returns that id without a handshake or a request,
    whatever the network would answer.  A lookup that throws leaves the
    manager as it was, and a lookup never touches the cached
    credential. *)
Theorem getInstallationId_caches :
  forall (a : TokenManager.AppAuthOutcome) (r : TokenManager.FetchOutcome)
         (tm : TokenManager.t),
    (forall id tm',
        TokenManager.getInstallationId a r tm = TokenManager.Found id tm' ->
        id <> 0 ->
        forall a' r',
          TokenManager.getInstallationId a' r' tm' = TokenManager.Found id tm')
    /\ (forall e tm',
          TokenManager.getInstallationId a r tm = TokenManager.LookupThrows e tm' ->
          tm' = tm)
    /\ (forall id tm',
          TokenManager.getInstallationId a r tm = TokenManager.Found id tm' ->
          TokenManager.currentToken tm' = TokenManager.currentToken tm).
Proof.
  intros a r tm.
  assert (Hcached : forall id t, id <> 0 ->
            TokenManager.cfg_installationId (TokenManager.config t) = Some id ->
            forall a' r', TokenManager.getInstallationId a' r' t
                          = TokenManager.Found id t).
  { intros id t Hid Hcfg a' r'. unfold TokenManager.getInstallationId.
    rewrite Hcfg. unfold truthy_number.
    replace (id =? 0) with false by (symmetry; apply Z.eqb_neq; assumption).
    reflexivity. }
  unfold TokenManager.getInstallationId.
  repeat split.
  - intros id tm' H Hid.
    destruct (TokenManager.cfg_installationId (TokenManager.config tm))
      as [c |] eqn:Hc.
    + destruct (truthy_number c) eqn:Ht.
      * inversion H; subst. now apply Hcached.
      * destruct a; [discriminate |].
        destruct r as [| ok st i]; [discriminate |].
        destruct ok; cbn in H; [| discriminate]. inversion H; subst.
        now apply Hcached.
    + destruct a; [discriminate |].
      destruct r as [| ok st i]; [discriminate |].
      destruct ok; cbn in H; [| discriminate]. inversion H; subst.
      now apply Hcached.
  - intros e tm' H.
    destruct (TokenManager.cfg_installationId (TokenManager.config tm)) as [c |];
      [destruct (truthy_number c); [discriminate |] |];
      (destruct a; [now inversion H |];
       destruct r as [| ok st i]; [now inversion H |];
       destruct ok; cbn in H; [discriminate | now inversion H]).
  - intros id tm' H.
    destruct (TokenManager.cfg_installationId (TokenManager.config tm)) as [c |];
      [destruct (truthy_number c); [now inversion H |] |];
      (destruct a; [discriminate |];
       destruct r as [| ok st i]; [discriminate |];
       destruct ok; cbn in H; [now inversion H | discriminate]).
Qed.

Lemma getInstallationId_caches_witness :
  exists tm',
    TokenManager.getInstallationId (TokenManager.AppAuthResolves "jwt")
      (TokenManager.Response true "OK" 42) (TokenManager.new sample_tmConfig)
    = TokenManager.Found 42 tm'
    /\ TokenManager.getInstallationId (TokenManager.AppAuthRejects "offline")
         (TokenManager.FetchRejects "offline") tm'
       = TokenManager.Found 42 tm'.
Proof.
  eexists. split; [reflexivity |].
  apply (proj1 (getInstallationId_caches (TokenManager.AppAuthResolves "jwt")
                  (TokenManager.Response true "OK" 42)
                  (TokenManager.new sample_tmConfig)) 42 _ eq_refl).
  lia.
Defined.

(** ** Setting up the authentication ([github/token.ts]) *)

Section Repository.

Import Token.
Open Scope string_scope.

Lemma string_app_nil_r (s : string) : s ++ "" = s.
Proof. induction s as [| c s IH]; cbn; [reflexivity | now rewrite IH]. Qed.

Lemma string_app_assoc (a b c : string) : (a ++ b) ++ c = a ++ (b ++ c).
Proof. induction a as [| x a IH]; cbn; [reflexivity | now rewrite IH]. Qed.

Lemma split_slash_from_segment (seg cur : string) :
  noSlash seg = true -> split_slash_from cur seg = [cur ++ seg].
Proof.
  revert cur. induction seg as [| c seg IH]; intros cur H; cbn in *.
  - now rewrite string_app_nil_r.
  - apply andb_true_iff in H. destruct H as [Hc Hs].
    apply negb_true_iff in Hc. rewrite Hc, IH by assumption.
    now rewrite string_app_assoc.
Qed.

Lemma split_slash_from_slash (seg rest cur : string) :
  noSlash seg = true ->
  split_slash_from cur (seg ++ "/" ++ rest)
  = (cur ++ seg) :: split_slash_from "" rest.
Proof.
  revert cur. induction seg as [| c seg IH]; intros cur H; cbn in *.
  - now rewrite string_app_nil_r.
  - apply andb_true_iff in H. destruct H as [Hc Hs].
    apply negb_true_iff in Hc. rewrite Hc, IH by assumption.
    now rewrite string_app_assoc.
Qed.

Lemma truthy_string_true (s : string) : s <> "" -> truthy_string s = true.
Proof.
  intros H. unfold truthy_string. apply negb_true_iff.
  now apply String.eqb_neq.
Qed.

End Repository.

(** X3.  How [setupGitHubAppAuth] reads [GITHUB_REPOSITORY]: for an owner
    and a name that are not empty and hold no slash, ["owner/name"] gives
    that owner and that name, and so does ["owner/name/"] followed by
    anything (what follows the second slash is dropped without an
    error); ["owner"], ["owner/"] and ["/name"] are refused as an
    invalid repository format. *)
Theorem ownerAndName_reads_first_two_segments :
  forall owner name : string,
    noSlash owner = true -> noSlash name = true ->
    owner <> EmptyString -> name <> EmptyString ->
    Token.ownerAndName (owner ++ "/" ++ name) = Some (owner, name)
    /\ (forall rest,
           Token.ownerAndName (owner ++ "/" ++ name ++ "/" ++ rest)
           = Some (owner, name))
    /\ Token.ownerAndName owner = None
    /\ Token.ownerAndName (owner ++ "/") = None
    /\ Token.ownerAndName ("/" ++ name) = None.
Proof.
  intros owner name Ho Hn Hoe Hne.
  pose proof (truthy_string_true owner Hoe) as To.
  pose proof (truthy_string_true name Hne) as Tn.
  unfold Token.ownerAndName, Token.split_slash. repeat split.
  - rewrite split_slash_from_slash, split_slash_from_segment by assumption.
    cbn. now rewrite To, Tn.
  - intros rest. rewrite !split_slash_from_slash by assumption.
    cbn. now rewrite To, Tn.
  - now rewrite split_slash_from_segment.
  - change (owner ++ "/")%string with (owner ++ "/" ++ "")%string.
    rewrite split_slash_from_slash by assumption. cbn. now rewrite To.
  - cbn. rewrite split_slash_from_segment by assumption. reflexivity.
Qed.

Lemma ownerAndName_reads_first_two_segments_witness :
  Token.ownerAndName "octo/repo" = Some ("octo"%string, "repo"%string)
  /\ Token.ownerAndName "octo/repo/pulls" = Some ("octo"%string, "repo"%string)
  /\ Token.ownerAndName "octo/" = None.
Proof.
  destruct (ownerAndName_reads_first_two_segments "octo" "repo"
              eq_refl eq_refl ltac:(discriminate) ltac:(discriminate))
    as [H1 [H2 [_ [H4 _]]]].
  split; [exact H1 |]. split; [exact (H2 "pulls"%string) | exact H4].
Defined.

(** ** The controller: starting and stopping *)

Section ControllerEffects.

Import Controller.

Lemma is_live_kill (p : Z) (procs : list Z) :
  is_live p (kill_process p procs) = false.
Proof.
  unfold is_live, kill_process.
  induction procs as [| q procs IH]; [reflexivity |]. cbn.
  destruct (q =? p) eqn:E; cbn; [assumption |].
  rewrite Z.eqb_sym, E. assumption.
Qed.

Lemma In_kill (p q : Z) (procs : list Z) :
  In q (kill_process p procs) <-> In q procs /\ q <> p.
Proof.
  unfold kill_process. rewrite filter_In, negb_true_iff, Z.eqb_neq. tauto.
Qed.

Lemma onChildExit_effect (child : Z) (w : Controller.t) :
  exists st,
    onChildExit child w
    = Returns tt
        (set_statusFile (Some (Status.Json st))
           (set_exitListeners
              (filter (fun p => negb (p =? child)) (exitListeners w)) w))
    /\ Status.status st = "stopped"%string
    /\ (statusFile w = None \/ statusFile w = Some Status.Garbage ->
        st = {| Status.pid := 0; Status.startTime := clock w;
                Status.status := "stopped";
                Status.lastRefresh := None; Status.nextRefresh := None;
                Status.refreshCount := 0 |}).
Proof.
  unfold onChildExit, bind, modify. rewrite updateStatus_eq.
  destruct w as [c dp ls ck lv sf pf lf]. cbn.
  eexists. split; [reflexivity |]. split; [reflexivity |].
  intros [-> | ->]; reflexivity.
Qed.

(** What the wait does to the processes and to the rest of the state. *)
Lemma gracePeriod_effect (g : Grace) (p : Z) (w : Controller.t) :
  exists w',
    gracePeriod g p w = Returns tt w'
    /\ live w' = match g with
                 | Survives => live w
                 | Exits _ _ => kill_process p (live w)
                 end
    /\ pidFile w' = pidFile w
    /\ logFile w' = logFile w
    /\ daemonProcess w' = daemonProcess w
    /\ config w' = config w
    /\ clock w' = clock w + 2000
    /\ (g = Survives -> exitListeners w' = exitListeners w
                        /\ statusFile w' = statusFile w).
Proof.
  destruct g as [| wrote notified].
  - destruct w. eexists. split; [reflexivity |]. cbn. repeat split.
  - unfold gracePeriod. unfold bind at 1. unfold bind at 1.
    assert (H1 : exists w1,
               (if wrote
                then modify (fun w0 =>
                       set_statusFile
                         (Daemon.statusFile_after p (clock w0)
                            (Status.status_only "stopped") (statusFile w0)) w0)
                else ret tt) w = Returns tt w1
               /\ live w1 = live w /\ pidFile w1 = pidFile w
               /\ logFile w1 = logFile w /\ daemonProcess w1 = daemonProcess w
               /\ config w1 = config w /\ clock w1 = clock w).
    { destruct w; destruct wrote; eexists; (split; [reflexivity |]); cbn;
        repeat split. }
    destruct H1 as [w1 [-> [Hlv [Hpf [Hlf [Hdp [Hc Hck]]]]]]].
    unfold bind at 1. unfold modify at 1. unfold bind at 1. unfold get at 1.
    match goal with
    | |- context [if ?c then _ else _] => destruct c
    end.
    + match goal with
      | |- context [onChildExit p ?w2] =>
          destruct (onChildExit_effect p w2) as [st [-> _]]
      end.
      destruct w1. cbn in *. subst.
      eexists. split; [reflexivity |]. cbn. repeat split; discriminate.
    + destruct w1. cbn in *. subst.
      eexists. split; [reflexivity |]. cbn. repeat split; discriminate.
Qed.

(** [stopDaemon] step by step: the state [w0] before the clean-up
    differs from [w] only by what the signals and the wait did. *)
Lemma stopDaemon_effect (g : Grace) (w : Controller.t) :
  exists w0,
    stopDaemon g w = Returns tt (cleaned w0)
    /\ live w0 = match victim w with
                 | Some p => kill_process p (live w)
                 | None => live w
                 end
    /\ logFile w0 = logFile w
    /\ config w0 = config w
    /\ (victim w = None -> w0 = w)
    /\ (g = Survives -> exitListeners w0 = exitListeners w).
Proof.
  unfold stopDaemon, try_catch, victim, cleaned.
  unfold bind at 1. unfold get at 1.
  destruct (targetPid w) as [p |];
    [| exists w; repeat split; reflexivity].
  unfold bind at 1.
  destruct (truthy_number p); cbn [andb];
    [| exists w; repeat split; reflexivity].
  unfold bind at 1. rewrite isProcessRunning_spec.
  destruct (is_live p (live w)) eqn:Hlive;
    [| exists w; repeat split; reflexivity].
  unfold bind at 1. unfold process_kill at 1. rewrite Hlive.
  unfold bind at 1.
  destruct (gracePeriod_effect g p w)
    as [w1 [Hg [Hlv [Hpf [Hlf [Hdp [Hc [Hck Hsurv]]]]]]]].
  rewrite Hg. unfold bind at 1. rewrite isProcessRunning_spec.
  destruct g as [| wrote notified].
  - rewrite Hlv, Hlive. unfold process_kill. rewrite Hlv, Hlive.
    eexists. split; [reflexivity |].
    destruct (Hsurv eq_refl) as [Hls Hsf].
    destruct w1; cbn in *; subst. repeat split; try discriminate.
  - rewrite Hlv, is_live_kill.
    exists w1. split; [reflexivity |].
    repeat split; try assumption; discriminate.
Qed.

Lemma cleaned_fields (w : Controller.t) :
  live (cleaned w) = live w
  /\ logFile (cleaned w) = logFile w
  /\ exitListeners (cleaned w) = exitListeners w
  /\ clock (cleaned w) = clock w
  /\ config (cleaned w) = config w
  /\ statusFile (cleaned w) = None
  /\ pidFile (cleaned w) = None
  /\ daemonProcess (cleaned w) = None.
Proof. destruct w. cbn. repeat split. Qed.

(** [startDaemon] when the operating system creates the child. *)
Lemma startDaemon_spawned (p : Z) (g : Grace) (w w0 : Controller.t) :
  p <> 0 ->
  stopDaemon g w = Returns tt (cleaned w0) ->
  startDaemon (Some p) g w
  = Returns
      {| Status.pid := p; Status.startTime := clock w0;
         Status.status := "running";
         Status.lastRefresh := None; Status.nextRefresh := None;
         Status.refreshCount := 0 |}
      {| config := config w0;
         daemonProcess := Some (Some p);
         exitListeners := exitListeners w0 ++ [p];
         clock := clock w0;
         live := p :: live w0;
         statusFile :=
           Some (Status.Json
                   {| Status.pid := p; Status.startTime := clock w0;
                      Status.status := "running";
                      Status.lastRefresh := None; Status.nextRefresh := None;
                      Status.refreshCount := 0 |});
         pidFile := Some (JsString.toString p);
         logFile := logFile w0 |}.
Proof.
  intros Hp Hstop. unfold startDaemon, try_catch.
  unfold bind at 1. rewrite Hstop.
  unfold bind at 1. unfold modify at 1.
  unfold truthy_number.
  replace (p =? 0) with false by (symmetry; apply Z.eqb_neq; assumption).
  cbn [negb].
  unfold bind at 1. unfold modify at 1.
  unfold bind at 1. unfold modify at 1.
  unfold bind at 1. unfold get at 1.
  unfold bind at 1. rewrite updateStatus_eq.
  destruct w0 as [c dp ls ck lv sf pf lf]. reflexivity.
Qed.

(** [startDaemon] returns only when the child was created. *)
Lemma startDaemon_returns_inv (sp : option Z) (g : Grace) (w w1 : Controller.t)
      (init : Status.DaemonStatus) :
  startDaemon sp g w = Returns init w1 ->
  exists p,
    sp = Some p /\ p <> 0
    /\ statusFile w1 = Some (Status.Json init)
    /\ Status.pid init = p
    /\ Status.status init = "running"%string
    /\ pidFile w1 = Some (JsString.toString p)
    /\ daemonProcess w1 = Some (Some p)
    /\ In p (live w1)
    /\ config w1 = config w.
Proof.
  intros H.
  destruct (stopDaemon_effect g w) as [w0 [Hstop [_ [_ [Hc _]]]]].
  destruct sp as [p |].
  - destruct (Z.eq_dec p 0) as [-> | Hp].
    + unfold startDaemon, try_catch in H. unfold bind at 1 in H.
      rewrite Hstop in H. cbn in H. discriminate.
    + rewrite (startDaemon_spawned p g w w0 Hp Hstop) in H.
      inversion H; subst. exists p. cbn. repeat split; try assumption.
      now left.
  - unfold startDaemon, try_catch in H. unfold bind at 1 in H.
    rewrite Hstop in H. cbn in H. discriminate.
Qed.

(** [startDaemon] throws only because no child was created, after the
    clean-up of [stopDaemon]. *)
Lemma startDaemon_throws_inv (sp : option Z) (g : Grace) (w w1 : Controller.t)
      (e : Err) :
  startDaemon sp g w = Throws e w1 ->
  e = SpawnFailed /\ statusFile w1 = None /\ pidFile w1 = None.
Proof.
  intros H.
  destruct (stopDaemon_effect g w) as [w0 [Hstop _]].
  destruct sp as [p |].
  - destruct (Z.eq_dec p 0) as [-> | Hp].
    + unfold startDaemon, try_catch in H. unfold bind at 1 in H.
      rewrite Hstop in H. destruct w0. cbn in H. inversion H. repeat split.
    + rewrite (startDaemon_spawned p g w w0 Hp Hstop) in H. discriminate.
  - unfold startDaemon, try_catch in H. unfold bind at 1 in H.
    rewrite Hstop in H. destruct w0. cbn in H. inversion H. repeat split.
Qed.

End ControllerEffects.

(** X4.  When the pid [stopDaemon] acts on is not negative (the pid of
    the child the controller holds, else the number read from the pid
    file), [stopDaemon] returns and the only process it ends is that
    target, provided the pid is not 0 and the process is there.  Every
    other process is still running afterwards and none appears; the log
    file is kept and the controller holds no child any more.  (A
    negative number in the pid file would name a process group.) *)
Theorem stopDaemon_kills_only_the_target :
  forall (g : Controller.Grace) (w : Controller.t),
    targetsOneProcess w ->
  exists w',
    Controller.stopDaemon g w = Returns tt w'
    /\ (forall q, In q (Controller.live w')
                  <-> In q (Controller.live w) /\ victim w <> Some q)
    /\ Controller.logFile w' = Controller.logFile w
    /\ Controller.daemonProcess w' = None.
Proof.
  intros g w _.
  destruct (stopDaemon_effect g w) as [w0 [Hrun [Hlv [Hlf _]]]].
  destruct (cleaned_fields w0) as [Hl [Hlog [_ [_ [_ [_ [_ Hdp]]]]]]].
  exists (cleaned w0). split; [exact Hrun |].
  rewrite Hl, Hlog.
  split; [| split; [assumption | exact Hdp]].
  intros q. rewrite Hlv. destruct (victim w) as [p |].
  - rewrite In_kill. split; intros [H1 H2]; split; try assumption; congruence.
  - split; [intros H; split; [assumption | discriminate] | tauto].
Qed.

Lemma stopDaemon_kills_only_the_target_witness :
  exists w',
    Controller.stopDaemon Controller.Survives
      (sample_controller [17; 18]
         (Some (Status.Json (sample_status "running" 17 None)))
         (Some (JsString.lit "17")) None)
    = Returns tt w'
    /\ ~ In 17 (Controller.live w')
    /\ In 18 (Controller.live w').
Proof.
  destruct (stopDaemon_kills_only_the_target Controller.Survives
              (sample_controller [17; 18]
                 (Some (Status.Json (sample_status "running" 17 None)))
                 (Some (JsString.lit "17")) None))
    as [w' [Hrun [Hlive _]]].
  - intros p Hp. vm_compute in Hp. inversion Hp. lia.
  - exists w'. split; [exact Hrun |]. split.
    + intros H. apply Hlive in H. destruct H as [_ H]. now apply H.
    + apply Hlive. split; [right; now left |].
      intros E. vm_compute in E. discriminate.
Defined.

(** X5.  When the operating system gives the child a pid [p] other than
    0, [startDaemon] returns the record
    [{pid: p, startTime: now, status: "running", refreshCount: 0}], and
    that record is the whole content of the status file, whatever the
    file held before; the pid file holds [p] in decimal, the controller's
    next target is [p], the ["exit"] listener of [p] is registered,
    [isHealthy] answers [true], the daemon that was the target before is
    no longer running, and the log file is kept. *)
Theorem startDaemon_records_the_new_daemon :
  forall (p : Z) (g : Controller.Grace) (w : Controller.t),
    p <> 0 ->
    exists init w1,
      Controller.startDaemon (Some p) g w = Returns init w1
      /\ Controller.statusFile w1 = Some (Status.Json init)
      /\ init = {| Status.pid := p; Status.startTime := Controller.clock w1;
                   Status.status := "running";
                   Status.lastRefresh := None; Status.nextRefresh := None;
                   Status.refreshCount := 0 |}
      /\ Controller.pidFile w1 = Some (JsString.toString p)
      /\ Controller.targetPid w1 = Some p
      /\ In p (Controller.exitListeners w1)
      /\ Controller.isHealthy w1 = Returns true w1
      /\ (forall q, victim w = Some q -> q <> p ->
                    ~ In q (Controller.live w1))
      /\ Controller.logFile w1 = Controller.logFile w.
Proof.
  intros p g w Hp.
  destruct (stopDaemon_effect g w) as [w0 [Hstop [Hlv [Hlf _]]]].
  do 2 eexists. split; [apply (startDaemon_spawned p g w w0 Hp Hstop) |].
  cbn [Controller.statusFile Controller.pidFile Controller.clock
       Controller.exitListeners Controller.live Controller.logFile].
  split; [reflexivity |]. split; [reflexivity |].
  split; [reflexivity |]. split.
  { unfold Controller.targetPid. cbn. unfold truthy_number.
    replace (p =? 0) with false by (symmetry; apply Z.eqb_neq; assumption).
    reflexivity. }
  split; [apply in_or_app; right; now left |]. split.
  { rewrite isHealthy_eq. cbn. now rewrite Z.eqb_refl. }
  split; [| assumption].
  intros q Hq Hne [Hin | Hin]; [congruence |].
  rewrite Hlv, Hq in Hin. apply In_kill in Hin. tauto.
Qed.

Lemma startDaemon_records_the_new_daemon_witness :
  exists init w1,
    Controller.startDaemon (Some 4242) Controller.Survives
      (sample_controller [17]
         (Some (Status.Json (sample_status "running" 17 None)))
         (Some (JsString.lit "17")) None)
    = Returns init w1
    /\ Status.pid init = 4242
    /\ Controller.isHealthy w1 = Returns true w1
    /\ ~ In 17 (Controller.live w1).
Proof.
  destruct (startDaemon_records_the_new_daemon 4242 Controller.Survives
              (sample_controller [17]
                 (Some (Status.Json (sample_status "running" 17 None)))
                 (Some (JsString.lit "17")) None))
    as [init [w1 [Hrun [_ [Hinit [_ [_ [_ [Hh [Hold _]]]]]]]]]].
  - lia.
  - exists init, w1. split; [exact Hrun |]. split.
    + rewrite Hinit. reflexivity.
    + split; [exact Hh |]. apply Hold; [reflexivity | lia].
Defined.

(** X6.  When the operating system creates no child, [startDaemon] throws
    ["Failed to start daemon process"], and it does so after the clean-up
    of [stopDaemon].  At the throw no status file and no pid file are
    left and the controller has no target; when the previous target was
    not negative, the previous daemon has been ended although no new one
    runs, and every other process is still running.  (The ["error"] event
    that the failed child emits after the throw, for which no listener
    is registered, is a later event.) *)
Theorem startDaemon_refused_spawn_leaves_nothing :
  forall (g : Controller.Grace) (w : Controller.t),
    targetsOneProcess w ->
  exists w1,
    Controller.startDaemon None g w = Throws SpawnFailed w1
    /\ Controller.statusFile w1 = None
    /\ Controller.pidFile w1 = None
    /\ Controller.targetPid w1 = None
    /\ (forall q, In q (Controller.live w1)
                  <-> In q (Controller.live w) /\ victim w <> Some q).
Proof.
  intros g w _.
  destruct (stopDaemon_effect g w) as [w0 [Hstop [Hlv _]]].
  unfold Controller.startDaemon, Controller.try_catch.
  unfold Controller.bind at 1. rewrite Hstop.
  destruct w0 as [c dp ls ck lv sf pf lf]. cbn in *.
  eexists. split; [reflexivity |]. cbn. repeat split; try (subst lv).
  - destruct (victim w) as [p |]; [| tauto]. apply In_kill in H. tauto.
  - destruct (victim w) as [p |]; [| discriminate]. apply In_kill in H.
    destruct H as [_ H]. congruence.
  - intros [H1 H2]. destruct (victim w) as [p |]; [| assumption].
    apply In_kill. split; [assumption | congruence].
Qed.

Lemma startDaemon_refused_spawn_leaves_nothing_witness :
  exists w1,
    Controller.startDaemon None Controller.Survives
      (sample_controller [17; 18]
         (Some (Status.Json (sample_status "running" 17 None)))
         (Some (JsString.lit "17")) None)
    = Throws SpawnFailed w1
    /\ Controller.statusFile w1 = None
    /\ Controller.pidFile w1 = None
    /\ ~ In 17 (Controller.live w1)
    /\ In 18 (Controller.live w1).
Proof.
  destruct (startDaemon_refused_spawn_leaves_nothing Controller.Survives
              (sample_controller [17; 18]
                 (Some (Status.Json (sample_status "running" 17 None)))
                 (Some (JsString.lit "17")) None))
    as [w1 [Hrun [Hsf [Hpf [_ Hlive]]]]].
  - intros p Hp. vm_compute in Hp. inversion Hp. lia.
  - exists w1. split; [exact Hrun |]. split; [exact Hsf |].
    split; [exact Hpf |]. split.
    + intros H. apply Hlive in H. destruct H as [_ H]. now apply H.
    + apply Hlive. split; [right; now left |].
      intros E. vm_compute in E. discriminate.
Defined.

(** X7.  [stopDaemon] does not remove the ["exit"] listener that
    [startDaemon] registered.  When the daemon does not end during the
    two seconds of grace and is killed, the listener runs after
    [stopDaemon] has deleted the files, and its [updateStatus] creates
    the status file again, from the default record:
    [{pid: 0, startTime: now, status: "stopped", refreshCount: 0}];
    the pid file stays deleted. *)
Theorem late_exit_listener_recreates_status_file :
  forall (p : Z) (g : Controller.Grace) (w : Controller.t),
    p <> 0 ->
    exists init w1 w2 w3,
      Controller.startDaemon (Some p) g w = Returns init w1
      /\ Controller.stopDaemon Controller.Survives w1 = Returns tt w2
      /\ Controller.statusFile w2 = None
      /\ Controller.step (Controller.ChildExit p) w2 = Some w3
      /\ Controller.statusFile w3
         = Some (Status.Json
                   {| Status.pid := 0; Status.startTime := Controller.clock w2;
                      Status.status := "stopped";
                      Status.lastRefresh := None; Status.nextRefresh := None;
                      Status.refreshCount := 0 |})
      /\ Controller.pidFile w3 = None.
Proof.
  intros p g w Hp.
  destruct (stopDaemon_effect g w) as [w0 [Hstop _]].
  pose proof (startDaemon_spawned p g w w0 Hp Hstop) as Hstart.
  match type of Hstart with
  | _ = Returns ?i ?x => set (init := i) in *; set (w1 := x) in *
  end.
  assert (Hvictim : victim w1 = Some p).
  { assert (Hz : (p =? 0) = false) by (apply Z.eqb_neq; assumption).
    assert (Hl : Controller.is_live p (p :: Controller.live w0) = true)
      by (apply is_live_In; now left).
    unfold victim, Controller.targetPid, w1, truthy_number.
    cbn [Controller.daemonProcess Controller.live Controller.pidFile].
    rewrite Hz. cbn [negb]. now rewrite Hz, Hl. }
  destruct (stopDaemon_effect Controller.Survives w1)
    as [w1' [Hstop1 [Hlv [_ [_ [_ Hls]]]]]].
  specialize (Hls eq_refl). rewrite Hvictim in Hlv.
  set (w2 := cleaned w1') in *.
  assert (Hen : Controller.enabled (Controller.ChildExit p) w2 = true).
  { assert (Hl2 : Controller.live w2 = Controller.live w1'
                   /\ Controller.exitListeners w2 = Controller.exitListeners w1')
      by (unfold w2; destruct w1'; split; reflexivity).
    destruct Hl2 as [Hl2 He2].
    unfold Controller.enabled. rewrite Hl2, He2, Hlv, Hls, is_live_kill.
    cbn [negb]. rewrite andb_true_r.
    apply is_live_In. unfold w1. cbn [Controller.exitListeners].
    apply in_or_app. right. now left. }
  destruct (onChildExit_effect p w2) as [st [Hexit [_ Hst]]].
  exists init, w1, w2. eexists.
  split; [exact Hstart |]. split; [exact Hstop1 |].
  split; [unfold w2; destruct w1'; reflexivity |].
  split; [unfold Controller.step; rewrite Hen; reflexivity |].
  cbn [Controller.exec]. rewrite Hexit. cbn [Controller.state_of].
  rewrite Hst by (left; unfold w2; destruct w1'; reflexivity).
  unfold w2. destruct w1'. split; reflexivity.
Qed.

Lemma late_exit_listener_recreates_status_file_witness :
  exists init w1 w2 w3 st,
    Controller.startDaemon (Some 4242) Controller.Survives
      (sample_controller [] None None None) = Returns init w1
    /\ Controller.stopDaemon Controller.Survives w1 = Returns tt w2
    /\ Controller.statusFile w2 = None
    /\ Controller.step (Controller.ChildExit 4242) w2 = Some w3
    /\ Controller.statusFile w3 = Some (Status.Json st)
    /\ Status.status st = "stopped"%string.
Proof.
  destruct (late_exit_listener_recreates_status_file 4242 Controller.Survives
              (sample_controller [] None None None))
    as [init [w1 [w2 [w3 [Hstart [Hstop [Hnone [Hstep [Hfile _]]]]]]]]].
  - lia.
  - exists init, w1, w2, w3. eexists.
    split; [exact Hstart |]. split; [exact Hstop |]. split; [exact Hnone |].
    split; [exact Hstep |]. split; [exact Hfile | reflexivity].
Defined.

(** ** The pid file *)

Section PidFile.

Import JsString.

Lemma digits_from_acc (d : Decimal.uint) (acc : positive) :
  digits_from (Some (Zpos acc)) (of_uint d)
  = Some (Zpos (Pos.of_uint_acc d acc)).
Proof.
  revert acc. induction d; intros acc; cbn [of_uint Pos.of_uint_acc];
    [reflexivity | ..];
    cbn [digits_from is_digit]; cbn -[Z.mul Z.add Pos.mul Pos.add digits_from];
    rewrite <- IHd; do 2 f_equal; lia.
Qed.

Lemma digits_from_zero (d : Decimal.uint) :
  digits_from (Some 0) (of_uint d) = Some (Z.of_N (Pos.of_uint d)).
Proof.
  induction d; cbn [of_uint Pos.of_uint]; [reflexivity | ..];
    cbn [digits_from is_digit]; cbn -[Z.mul Z.add Pos.mul Pos.add digits_from];
    [exact IHd | ..];
    match goal with
    | |- digits_from (Some ?z) _ = _ =>
        let z' := eval vm_compute in z in change z with z'
    end;
    rewrite digits_from_acc; reflexivity.
Qed.

Lemma digits_from_none (d : Decimal.uint) :
  d <> Decimal.Nil ->
  digits_from None (of_uint d) = Some (Z.of_N (Pos.of_uint d)).
Proof.
  intros Hd. rewrite <- digits_from_zero.
  destruct d; [congruence | ..]; reflexivity.
Qed.

Lemma of_uint_not_whitespace (d : Decimal.uint) :
  Forall (fun c => is_whitespace c = false) (of_uint d).
Proof. induction d; cbn [of_uint]; constructor; trivial. Qed.

Lemma trimStart_id (s : t) :
  Forall (fun c => is_whitespace c = false) s -> trimStart s = s.
Proof.
  intros H. destruct s as [| c s]; [reflexivity |].
  inversion H as [| ? ? Hc _]; subst. cbn. now rewrite Hc.
Qed.

Lemma trim_id (s : t) :
  Forall (fun c => is_whitespace c = false) s -> trim s = s.
Proof.
  intros H. unfold trim, trimEnd. rewrite (trimStart_id s H).
  rewrite trimStart_id by (apply Forall_rev; assumption).
  apply rev_involutive.
Qed.

Lemma parseInt_digits (d : Decimal.uint) :
  d <> Decimal.Nil ->
  parseInt (of_uint d) = Some (Z.of_N (Pos.of_uint d))
  /\ parseInt (45%N :: of_uint d) = Some (- Z.of_N (Pos.of_uint d)).
Proof.
  intros Hd. pose proof (digits_from_none d Hd) as Hv.
  pose proof (of_uint_not_whitespace d) as Hws.
  split.
  - unfold parseInt. rewrite trimStart_id by assumption.
    rewrite <- Hv. destruct d; [congruence | ..]; reflexivity.
  - unfold parseInt.
    rewrite trimStart_id by (constructor; [reflexivity | assumption]).
    now rewrite Hv.
Qed.

(** [parseInt(String(p).trim(), 10)] is [p]. *)
Lemma parseInt_trim_toString (p : Z) :
  parseInt (trim (toString p)) = Some p.
Proof.
  unfold toString.
  destruct p as [| q | q]; cbn [Z.to_int].
  - reflexivity.
  - rewrite trim_id by apply of_uint_not_whitespace.
    rewrite (proj1 (parseInt_digits _ (DecimalPos.Unsigned.to_uint_nonnil q))).
    now rewrite DecimalPos.Unsigned.of_to.
  - rewrite trim_id
      by (constructor; [reflexivity | apply of_uint_not_whitespace]).
    rewrite (proj2 (parseInt_digits _ (DecimalPos.Unsigned.to_uint_nonnil q))).
    now rewrite DecimalPos.Unsigned.of_to.
Qed.

End PidFile.

(** X8.  The pid file reads back: what [startDaemon] writes for a pid
    ([pid.toString()]) is read by [stopDaemon]
    ([parseInt(text.trim(), 10)]) as that pid, for every safe integer
    (a pid is a small positive one), so a controller that holds no child
    takes the pid in the file as its target. *)
Theorem pid_file_round_trip :
  forall p : Z,
    safeInteger p ->
    JsString.parseInt (JsString.trim (JsString.toString p)) = Some p
    /\ (forall w : Controller.t,
           Controller.daemonProcess w = None ->
           Controller.pidFile w = Some (JsString.toString p) ->
           Controller.targetPid w = Some p).
Proof.
  intros p _. split; [apply parseInt_trim_toString |].
  intros w Hdp Hpf. unfold Controller.targetPid.
  rewrite Hdp, Hpf. apply parseInt_trim_toString.
Qed.

Lemma pid_file_round_trip_witness :
  JsString.toString 4242 = JsString.lit "4242"
  /\ JsString.parseInt (JsString.trim (JsString.lit "4242")) = Some 4242
  /\ Controller.targetPid
       (sample_controller [4242] None (Some (JsString.lit "4242")) None)
     = Some 4242.
Proof.
  assert (Hsafe : safeInteger 4242) by (unfold safeInteger; lia).
  destruct (pid_file_round_trip 4242 Hsafe) as [Hread Htarget].
  split; [reflexivity |]. split; [exact Hread |].
  apply Htarget; reflexivity.
Defined.

(** X9.  The files [startDaemon] leaves are enough for another
    controller to stop the daemon: a controller created later, which
    holds no child, finds the pid in the pid file, ends that process and
    no other, and deletes the pid file and the status file. *)
Theorem later_controller_stops_recorded_daemon :
  forall (p : Z) (g g' : Controller.Grace) (w w1 : Controller.t)
         (init : Status.DaemonStatus) (c : Controller.DaemonConfig),
    Controller.startDaemon (Some p) g w = Returns init w1 ->
    exists w3,
      Controller.stopDaemon g' (laterController c w1) = Returns tt w3
      /\ ~ In p (Controller.live w3)
      /\ (forall q, q <> p ->
                    (In q (Controller.live w3) <-> In q (Controller.live w1)))
      /\ Controller.pidFile w3 = None
      /\ Controller.statusFile w3 = None.
Proof.
  intros p g g' w w1 init c Hstart.
  apply startDaemon_returns_inv in Hstart.
  destruct Hstart as [p' [Hsp [Hp [_ [_ [_ [Hpf [_ [Hin _]]]]]]]]].
  inversion Hsp; subst p'.
  assert (Hvictim : victim (laterController c w1) = Some p).
  { unfold victim, Controller.targetPid, laterController.
    cbn [Controller.new Controller.daemonProcess Controller.pidFile
         Controller.live].
    rewrite Hpf, parseInt_trim_toString. unfold truthy_number.
    replace (p =? 0) with false by (symmetry; apply Z.eqb_neq; assumption).
    apply is_live_In in Hin. now rewrite Hin. }
  destruct (stopDaemon_effect g' (laterController c w1))
    as [w0 [Hstop [Hlv _]]].
  rewrite Hvictim in Hlv.
  destruct (cleaned_fields w0) as [Hl [_ [_ [_ [_ [Hsf [Hpid _]]]]]]].
  exists (cleaned w0). split; [exact Hstop |].
  rewrite Hl, Hlv.
  change (Controller.live (laterController c w1)) with (Controller.live w1).
  split; [| split; [| split; assumption]].
  - intros H. apply In_kill in H. tauto.
  - intros q Hq. rewrite In_kill. tauto.
Qed.

Lemma later_controller_stops_recorded_daemon_witness :
  exists init w1 w3,
    Controller.startDaemon (Some 4242) Controller.Survives
      (sample_controller [17] None None None) = Returns init w1
    /\ Controller.stopDaemon (Controller.Exits true false)
         (laterController (Controller.config w1) w1) = Returns tt w3
    /\ ~ In 4242 (Controller.live w3)
    /\ In 17 (Controller.live w3).
Proof.
  assert (Hstart : exists init w1,
             Controller.startDaemon (Some 4242) Controller.Survives
               (sample_controller [17] None None None) = Returns init w1
             /\ In 17 (Controller.live w1)).
  { do 2 eexists. split; [reflexivity |]. cbn. right. now left. }
  destruct Hstart as [init [w1 [Hstart H17]]].
  destruct (later_controller_stops_recorded_daemon 4242 Controller.Survives
              (Controller.Exits true false) _ w1 init (Controller.config w1)
              Hstart)
    as [w3 [Hstop [Hgone [Hrest _]]]].
  exists init, w1, w3. split; [exact Hstart |]. split; [exact Hstop |].
  split; [exact Hgone |]. apply Hrest; [lia | exact H17].
Defined.

(** ** Setting up the GitHub App authentication *)

(** The ways [setupGitHubAppAuth] ends. *)
Lemma setupGitHubAppAuth_outcomes (env : Token.Env) (o : Token.AppWorld)
      (w : Controller.t) :
  match Token.setupGitHubAppAuth env o w with
  | Token.Ready token tm w' =>
      (exists ti, TokenManager.currentToken tm = Some ti
                  /\ TokenManager.token ti = token
                  /\ truthy_string token = true)
      /\ Controller.isHealthy w' = Returns true w'
      /\ Controller.refreshIntervalMinutes (Controller.config w') = Some 30
      /\ Controller.maxRuntimeHours (Controller.config w') = Some 6
      /\ (exists p, Token.spawned o = Some p /\ p <> 0
                    /\ Controller.pidFile w' = Some (JsString.toString p))
  | Token.SetupThrows (Token.DaemonError e) w' =>
      e = SpawnFailed
      /\ Controller.statusFile w' = None /\ Controller.pidFile w' = None
  | Token.SetupThrows _ w' => w' = w
  end.
Proof.
  unfold Token.setupGitHubAppAuth.
  destruct (Token.given (Token.APP_ID env)) as [appId |]; [| reflexivity].
  destruct (Token.given (Token.APP_PRIVATE_KEY env)) as [key |]; [| reflexivity].
  destruct (Token.given (Token.GITHUB_REPOSITORY env)) as [repo |];
    [| reflexivity].
  destruct (Token.ownerAndName repo) as [[owner name] |]; [| reflexivity].
  destruct (TokenManager.getInstallationId _ _ _) as [id tm1 | e tm1];
    [| reflexivity].
  destruct (TokenManager.getToken _ _ tm1) as [ti tm2 | e tm2] eqn:Hmint;
    [| reflexivity].
  destruct (Controller.startDaemon _ _ _) as [init w' | e w'] eqn:Hstart.
  - apply startDaemon_returns_inv in Hstart.
    destruct Hstart as [p [Hsp [Hp [Hsf [Hpid [Hst [Hpf [_ [Hin Hcfg]]]]]]]]].
    split; [| split; [| split; [| split]]].
    + exists ti. split; [| split; [reflexivity |]].
      * now rewrite (getToken_returns_inv _ _ _ _ _ Hmint).
      * unfold TokenManager.getToken in Hmint.
        destruct (Token.handshake o) as [msg | r]; [discriminate |].
        unfold TokenManager.lacks_token in Hmint.
        destruct (TokenManager.ar_token r) as [tk |]; [| discriminate].
        destruct (truthy_string tk) eqn:Ht; [| discriminate].
        cbn in Hmint. inversion Hmint; subst. exact Ht.
    + rewrite isHealthy_eq, Hsf, Hst, Hpid. cbn.
      apply is_live_In in Hin. now rewrite Hin.
    + now rewrite Hcfg.
    + now rewrite Hcfg.
    + exists p. repeat split; assumption.
  - now apply startDaemon_throws_inv in Hstart.
Qed.

(** X10.  When [setupGitHubAppAuth] returns, the token it returns is the
    credential its token manager has just minted and cached, and it is
    not empty; the daemon was started only after that, with a refresh
    interval of 30 minutes and a limit of 6 hours, the operating system
    gave it a pid other than 0, which the pid file holds, and the
    controller returned reports it healthy. *)
Theorem app_auth_returns_minted_token_and_live_daemon :
  forall (env : Token.Env) (o : Token.AppWorld) (w w' : Controller.t)
         (token : string) (tm : TokenManager.t),
    Token.setupGitHubAppAuth env o w = Token.Ready token tm w' ->
    (exists ti, TokenManager.currentToken tm = Some ti
                /\ TokenManager.token ti = token
                /\ truthy_string token = true)
    /\ Controller.isHealthy w' = Returns true w'
    /\ Controller.refreshIntervalMinutes (Controller.config w') = Some 30
    /\ Controller.maxRuntimeHours (Controller.config w') = Some 6
    /\ (exists p, Token.spawned o = Some p /\ p <> 0
                  /\ Controller.pidFile w' = Some (JsString.toString p)).
Proof.
  intros env o w w' token tm H.
  pose proof (setupGitHubAppAuth_outcomes env o w) as Hcases.
  rewrite H in Hcases. exact Hcases.
Qed.

Lemma app_auth_returns_minted_token_and_live_daemon_witness :
  exists tm w',
    Token.setupGitHubAppAuth sample_env
      (sample_appWorld (TokenManager.AuthResolves sample_authResult)
         (Some 4242))
      (sample_controller [] None None None)
    = Token.Ready "ghs_token" tm w'
    /\ Controller.isHealthy w' = Returns true w'.
Proof.
  do 2 eexists. split; [reflexivity |].
  apply (app_auth_returns_minted_token_and_live_daemon sample_env
           (sample_appWorld (TokenManager.AuthResolves sample_authResult)
              (Some 4242))
           (sample_controller [] None None None) _ _ _ eq_refl).
Defined.

(** X11.  When [setupGitHubAppAuth] throws for any reason other than the
    start of the daemon (credentials or repository missing from the
    environment, a malformed repository, no installation found, no token
    minted), it has touched no process and no file: nothing is stopped
    and nothing is started.  When the start of the daemon is what throws,
    no child was created and the clean-up has removed the status file and
    the pid file. *)
Theorem app_auth_failure_before_daemon_changes_nothing :
  forall (env : Token.Env) (o : Token.AppWorld) (w w' : Controller.t)
         (e : Token.SetupError),
    Token.setupGitHubAppAuth env o w = Token.SetupThrows e w' ->
    match e with
    | Token.DaemonError e' =>
        e' = SpawnFailed
        /\ Controller.statusFile w' = None /\ Controller.pidFile w' = None
    | _ => w' = w
    end.
Proof.
  intros env o w w' e H.
  pose proof (setupGitHubAppAuth_outcomes env o w) as Hcases.
  rewrite H in Hcases. exact Hcases.
Qed.

Lemma app_auth_failure_before_daemon_changes_nothing_witness :
  Token.setupGitHubAppAuth sample_env
    (sample_appWorld (TokenManager.AuthRejects "bad key") (Some 4242))
    (sample_controller [17]
       (Some (Status.Json (sample_status "running" 17 None)))
       (Some (JsString.lit "17")) None)
  = Token.SetupThrows (Token.TokenError (AuthFailed "bad key"))
      (sample_controller [17]
         (Some (Status.Json (sample_status "running" 17 None)))
         (Some (JsString.lit "17")) None).
Proof.
  assert (H : exists w',
             Token.setupGitHubAppAuth sample_env
               (sample_appWorld (TokenManager.AuthRejects "bad key") (Some 4242))
               (sample_controller [17]
                  (Some (Status.Json (sample_status "running" 17 None)))
                  (Some (JsString.lit "17")) None)
             = Token.SetupThrows (Token.TokenError (AuthFailed "bad key")) w').
  { eexists. reflexivity. }
  destruct H as [w' H].
  rewrite H. f_equal.
  exact (app_auth_failure_before_daemon_changes_nothing _ _ _ _ _ H).
Defined.

(** X12.  The order of the authentication methods in [setupGitHubToken].
    A token given in [OVERRIDE_GITHUB_TOKEN] is returned as it is, and no
    daemon is started, whatever else the environment holds.  A daemon
    comes with the result only when no such token was given and both
    [APP_ID] and [APP_PRIVATE_KEY] are set, and then it is healthy.  The
    process ends with code 1 on any failure, and with code 0 only on the
    OIDC path, when the token exchange asks to skip the action. *)
Theorem setupGitHubToken_priority :
  forall (env : Token.Env) (o : Token.AppWorld) (oidc : Token.OidcOutcome)
         (w : Controller.t),
    (forall t, Token.given (Token.OVERRIDE_GITHUB_TOKEN env) = Some t ->
               Token.setupGitHubToken env o oidc w = Token.TokenReady t None)
    /\ (forall token w',
          Token.setupGitHubToken env o oidc w
          = Token.TokenReady token (Some w') ->
          Token.given (Token.OVERRIDE_GITHUB_TOKEN env) = None
          /\ Token.given (Token.APP_ID env) <> None
          /\ Token.given (Token.APP_PRIVATE_KEY env) <> None
          /\ Controller.isHealthy w' = Returns true w')
    /\ (forall code w',
          Token.setupGitHubToken env o oidc w = Token.ProcessExit code w' ->
          code = 1
          \/ (code = 0 /\ oidc = Token.OidcSkips
              /\ Token.authMethod env = Token.Oidc)).
Proof.
  intros env o oidc w. unfold Token.setupGitHubToken, Token.authMethod.
  split; [| split].
  - intros t Ht. now rewrite Ht.
  - intros token w' H.
    destruct (Token.given (Token.OVERRIDE_GITHUB_TOKEN env)); [discriminate |].
    destruct (Token.given (Token.APP_ID env)) as [a |] eqn:Ha;
      [| destruct oidc; discriminate].
    destruct (Token.given (Token.APP_PRIVATE_KEY env)) as [k |] eqn:Hk;
      [| destruct oidc; discriminate].
    pose proof (setupGitHubAppAuth_outcomes env o w) as Happ.
    destruct (Token.setupGitHubAppAuth env o w) as [tok tm w1 | e w1];
      [| discriminate].
    inversion H; subst. destruct Happ as [_ [Hh _]].
    repeat split; try discriminate. exact Hh.
  - intros code w' H.
    destruct (Token.given (Token.OVERRIDE_GITHUB_TOKEN env)); [discriminate |].
    destruct (Token.given (Token.APP_ID env)) as [a |];
      [destruct (Token.given (Token.APP_PRIVATE_KEY env)) as [k |] |].
    + destruct (Token.setupGitHubAppAuth env o w); [discriminate |].
      inversion H. now left.
    + destruct oidc; inversion H; [now left | right; repeat split].
    + destruct oidc; inversion H; [now left | right; repeat split].
Qed.

(** ** The daemon: what ends it and what does not *)

Section DaemonEnds.

Import Daemon.

Lemma neverFails_exits0 (A : Type) (m : M A) : neverFails m -> exitsOnlyWith0 m.
Proof. intros H s. specialize (H s). now destruct (m s). Qed.

Lemma bind_exits0 (A B : Type) (m : M A) (k : A -> M B) :
  exitsOnlyWith0 m -> (forall a, exitsOnlyWith0 (k a)) ->
  exitsOnlyWith0 (bind m k).
Proof.
  intros Hm Hk s. unfold bind. specialize (Hm s).
  destruct (m s) as [a s' | e s' | c s']; [apply Hk | exact I | exact Hm].
Qed.

Lemma bind_neverFails (A B : Type) (m : M A) (k : A -> M B) :
  neverFails m -> (forall a, neverFails (k a)) -> neverFails (bind m k).
Proof.
  intros Hm Hk s. unfold bind. specialize (Hm s).
  destruct (m s) as [a s' | e s' | c s']; [apply Hk | exact Hm | exact Hm].
Qed.

Lemma try_catch_exits0 (A : Type) (m : M A) (h : Err -> M A) :
  exitsOnlyWith0 m -> (forall e, exitsOnlyWith0 (h e)) ->
  exitsOnlyWith0 (try_catch m h).
Proof.
  intros Hm Hh s. unfold try_catch. specialize (Hm s).
  destruct (m s) as [a s' | e s' | c s']; [exact I | apply Hh | exact Hm].
Qed.

Lemma try_catch_neverFails (A : Type) (m : M A) (h : Err -> M A) :
  exitsOnlyWith0 m -> (forall e, neverFails (h e)) ->
  neverFails (try_catch m h).
Proof.
  intros Hm Hh s. unfold try_catch. specialize (Hm s).
  destruct (m s) as [a s' | e s' | c s']; [exact I | apply Hh | exact Hm].
Qed.

Lemma log_neverFails (msg : LogMsg) : neverFails (log msg).
Proof. intros s. exact I. Qed.

Lemma modify_neverFails (f : Daemon.t -> Daemon.t) : neverFails (modify f).
Proof. intros s. exact I. Qed.

Lemma get_neverFails (A : Type) (f : Daemon.t -> A) : neverFails (get f).
Proof. intros s. exact I. Qed.

Lemma ret_neverFails (A : Type) (a : A) : neverFails (ret a).
Proof. intros s. exact I. Qed.

Lemma throw_exits0 (A : Type) (e : Err) : exitsOnlyWith0 (@throw A e).
Proof. intros s. exact I. Qed.

Lemma updateStatus_neverFails (u : Status.StatusUpdate) :
  neverFails (updateStatus u).
Proof.
  intros s. destruct (updateStatus_statusFile u s) as [s' [H _]].
  now rewrite H.
Qed.

Lemma clear_if_set_neverFails (tm : option nat) : neverFails (clear_if_set tm).
Proof. intros s. destruct tm; exact I. Qed.

Lemma process_exit_0_neverFails (A : Type) : neverFails (@process_exit A 0).
Proof. intros s. reflexivity. Qed.

Ltac never_fails :=
  repeat first
    [ apply bind_neverFails; [| intros ?]
    | apply log_neverFails | apply modify_neverFails
    | apply get_neverFails | apply ret_neverFails
    | apply clear_if_set_neverFails | apply updateStatus_neverFails
    | apply process_exit_0_neverFails ].

Lemma shutdown_neverFails (reason : string) : neverFails (shutdown reason).
Proof. unfold shutdown. never_fails. Qed.

Lemma maxRuntimeCallback_neverFails : neverFails maxRuntimeCallback.
Proof. unfold maxRuntimeCallback, shutdown. never_fails. Qed.

Lemma await_neverFails (ms : Z) : neverFails (await ms).
Proof.
  intros s. unfold await.
  destruct (earliest _) as [tm |]; [| exact I].
  apply maxRuntimeCallback_neverFails.
Qed.

Ltac exits0 :=
  repeat first
    [ apply throw_exits0
    | apply neverFails_exits0;
      first [ apply log_neverFails | apply modify_neverFails
            | apply get_neverFails | apply ret_neverFails
            | apply await_neverFails | apply updateStatus_neverFails ]
    | apply bind_exits0; [| intros ?]
    | apply try_catch_exits0; [| intros ?] ].

Lemma refreshTokenAndAuth_exits0 (te : TickEnv) :
  exitsOnlyWith0 (refreshTokenAndAuth te).
Proof.
  unfold refreshTokenAndAuth, updateGitAuth, updateGhAuth.
  exits0.
  all: try (match goal with
            | |- exitsOnlyWith0 (if ?c then _ else _) => destruct c; exits0
            end).
  all: intros s; now destruct (TokenManager.getToken _ _ _).
Qed.

Lemma scheduleNextRefresh_neverFails : neverFails scheduleNextRefresh.
Proof. intros s. now rewrite scheduleNextRefresh_eq. Qed.

Lemma refreshCallback_neverFails (te : TickEnv) :
  neverFails (refreshCallback te).
Proof.
  unfold refreshCallback. apply try_catch_neverFails.
  - apply bind_exits0; [apply refreshTokenAndAuth_exits0 | intros _].
    apply neverFails_exits0, scheduleNextRefresh_neverFails.
  - intros e. apply bind_neverFails; [apply log_neverFails | intros _].
    apply scheduleNextRefresh_neverFails.
Qed.

Lemma fire_neverFails (tm : Timer) (w : World) : neverFails (fire tm w).
Proof.
  unfold fire.
  assert (Hbody : neverFails
            (modify (fired tm) ;;
             match kind tm with
             | RefreshTimer => n <- get ticks ;; refreshCallback (w n)
             | MaxRuntimeTimer => maxRuntimeCallback
             end)%daemon).
  { apply bind_neverFails; [apply modify_neverFails | intros _].
    destruct (kind tm).
    - apply bind_neverFails; [apply get_neverFails | intros n].
      apply refreshCallback_neverFails.
    - apply maxRuntimeCallback_neverFails. }
  intros s. unfold try_catch. specialize (Hbody s).
  match type of Hbody with
  | match ?r with _ => _ end => destruct r
  end; [exact I | contradiction | exact Hbody].
Qed.

End DaemonEnds.

(** X13.  Once [start] has returned, a refresh that fails does not end
    the daemon.  Take refreshes in each of which the handshake resolves
    or rejects, every subprocess is created and closes with some exit
    code, zero or not, and the token is written to [gh auth login]: from
    whatever state, the timer callbacks let no exception of such a
    refresh escape, so none of them reaches the ["uncaughtException"]
    handler (which ends the process with code 1), and the process ends
    only with code 0, that of [shutdown].  A command that cannot be
    spawned is not such a refresh: its ["error"] event has no listener
    in the source. *)
Theorem failed_refreshes_never_end_the_daemon :
  forall (fuel : nat) (w : Daemon.World) (s : Daemon.t),
    match Daemon.eventLoop fuel w s with
    | Daemon.Ok _ _ => True
    | Daemon.Thrown _ _ => False
    | Daemon.Exit code _ => code = 0
    end.
Proof.
  induction fuel as [| fuel IH]; intros w s; cbn [Daemon.eventLoop];
    [exact I |].
  destruct (earliest (Daemon.timers s)) as [tm |]; [| exact I].
  unfold Daemon.bind. pose proof (fire_neverFails tm w s) as Hfire.
  destruct (Daemon.fire tm w s) as [[] s1 | e s1 | c s1];
    [apply IH | contradiction | exact Hfire].
Qed.

(** X14.  Unlike a scheduled refresh, a failing initial refresh is fatal:
    when the refresh inside [start] fails, [start] ends the process with
    code 1 at the instant of the failure; no timer was set (neither the
    refresh timer nor the maximum-runtime timer), the counter is 0, and
    the status file holds the record of this process with the status
    ["error"]. *)
Theorem failed_initial_refresh_exits_1 :
  forall (te : Daemon.TickEnv) (c : Daemon.DaemonConfig) (pid now d : Z)
         (sf : option Status.StatusFile)
         (lf : list (Timestamp * Daemon.LogMsg)),
    failsAfter te = Some d ->
    durationsOk te ->
    statusFileOk sf ->
    exists s' st',
      Daemon.start te (Daemon.new c pid now sf lf) = Daemon.Exit 1 s'
      /\ Daemon.timers s' = []
      /\ Daemon.refreshTimer s' = None
      /\ Daemon.maxRuntimeTimer s' = None
      /\ Daemon.refreshCount s' = 0
      /\ Daemon.clock s' = now + d
      /\ Daemon.statusFile s' = Some (Status.Json st')
      /\ Status.status st' = "error"%string
      /\ Status.pid st' = pid
      /\ Status.refreshCount st' = 0.
Proof.
  intros te c pid now d sf lf Hf Hd Hok.
  assert (Hsf : sf = None \/ exists st, sf = Some (Status.Json st)).
  { destruct sf as [[| st] |]; [now elim Hok | right; now exists st | now left]. }
  unfold Daemon.start, Daemon.new, Daemon.try_catch.
  unfold Daemon.bind at 1. unfold Daemon.log at 1. unfold Daemon.modify at 1.
  unfold Daemon.bind at 1. unfold Daemon.get at 1.
  unfold Daemon.bind at 1. unfold Daemon.get at 1.
  unfold Daemon.bind at 1. rewrite updateStatus_ok by (cbn; assumption).
  unfold Daemon.bind at 1.
  match goal with
  | |- context [Daemon.refreshTokenAndAuth ?te ?sA] =>
      destruct (refreshTokenAndAuth_fails te sA d Hf Hd)
        as [e [s1 [Hrun [Hc [Hrc [Hrt [Hmt [Hpid [Hclk [Htms [Hnid [Htk Hfile]]]]]]]]]]]];
        [apply quiet_nil | cbn; discriminate |]
  end.
  rewrite Hrun.
  unfold Daemon.bind at 1. unfold Daemon.log at 1. unfold Daemon.modify at 1.
  destruct s1 as [cfg1 tm1 rt1 mt1 rc1 pid1 c1 tms1 nid1 ka1 sf1 lf1 tk1].
  cbn in Hc, Hrc, Hrt, Hmt, Hpid, Hclk, Htms, Hnid, Htk, Hfile. subst.
  unfold Daemon.bind at 1. rewrite updateStatus_ok by (cbn; discriminate).
  destruct Hsf as [-> | [st ->]]; cbn; do 2 eexists;
    (split; [reflexivity |]); cbn; repeat split.
Qed.

Lemma failed_initial_refresh_exits_1_witness :
  exists s' st',
    Daemon.start ghLoginFailsTick
      (Daemon.new (sample_config 30 6) 4242 0 None []) = Daemon.Exit 1 s'
    /\ Daemon.timers s' = []
    /\ Daemon.clock s' = 1000
    /\ Daemon.statusFile s' = Some (Status.Json st')
    /\ Status.status st' = "error"%string.
Proof.
  destruct (failed_initial_refresh_exits_1 ghLoginFailsTick
              (sample_config 30 6) 4242 0 1000 None [])
    as [s' [st' [Hrun [Htms [_ [_ [_ [Hclk [Hsf [Hst _]]]]]]]]]].
  - reflexivity.
  - unfold durationsOk. cbn. lia.
  - discriminate.
  - exists s', st'. repeat split; assumption.
Defined.

(** X15.  On [SIGTERM] or [SIGINT] the daemon ends with code 0 after
    clearing the two timers it holds, so a daemon all of whose pending
    timers are the ones it holds leaves none.  The counter is kept.  A
    status file that parses keeps every field but [status], which
    becomes ["stopped"]; a status file that does not parse is left as it
    is, and the daemon still ends with code 0. *)
Theorem signal_shutdown_stops_cleanly :
  forall (sig : string) (s : Daemon.t),
  exists s',
    Daemon.onSignal sig s = Daemon.Exit 0 s'
    /\ Daemon.timers s'
       = clearTimer (Daemon.maxRuntimeTimer s)
           (clearTimer (Daemon.refreshTimer s) (Daemon.timers s))
    /\ (holdsItsTimers s -> Daemon.timers s' = [])
    /\ Daemon.refreshCount s' = Daemon.refreshCount s
    /\ (forall st, Daemon.statusFile s = Some (Status.Json st) ->
                   Daemon.statusFile s'
                   = Some (Status.Json
                             {| Status.pid := Status.pid st;
                                Status.startTime := Status.startTime st;
                                Status.status := "stopped";
                                Status.lastRefresh := Status.lastRefresh st;
                                Status.nextRefresh := Status.nextRefresh st;
                                Status.refreshCount := Status.refreshCount st |}))
    /\ (Daemon.statusFile s = Some Status.Garbage ->
        Daemon.statusFile s' = Some Status.Garbage).
Proof.
  intros sig s.
  assert (Hrun : exists s',
             Daemon.onSignal sig s = Daemon.Exit 0 s'
             /\ Daemon.timers s'
                = clearTimer (Daemon.maxRuntimeTimer s)
                    (clearTimer (Daemon.refreshTimer s) (Daemon.timers s))
             /\ Daemon.refreshCount s' = Daemon.refreshCount s
             /\ Daemon.statusFile s'
                = Daemon.statusFile_after (Daemon.process_pid s) (Daemon.clock s)
                    (Status.status_only "stopped") (Daemon.statusFile s)).
  { destruct s as [cfg tm rt mt rc pid c tms nid ka sf lf tk].
    destruct sf as [[| st] |], rt as [r |], mt as [m |];
      eexists; (split; [reflexivity |]); cbn; repeat split. }
  destruct Hrun as [s' [Hrun [Htms [Hrc Hsf]]]].
  exists s'. split; [exact Hrun |]. split; [exact Htms |].
  split; [| split; [exact Hrc |]].
  - intros Hheld. rewrite Htms.
    assert (Hnone : forall tm,
               ~ In tm (clearTimer (Daemon.maxRuntimeTimer s)
                          (clearTimer (Daemon.refreshTimer s) (Daemon.timers s)))).
    { intros tm Hin.
      destruct (Daemon.refreshTimer s) as [r |] eqn:Hr,
               (Daemon.maxRuntimeTimer s) as [m |] eqn:Hm;
        unfold clearTimer, remove_timer in Hin;
        repeat (apply filter_In in Hin; destruct Hin as [Hin ?]);
        destruct (Hheld tm Hin) as [H' | H']; try discriminate;
        inversion H'; subst;
        repeat match goal with
               | H : negb (_ =? _)%nat = true |- _ =>
                   apply negb_true_iff, Nat.eqb_neq in H
               end; congruence. }
    destruct (clearTimer _ _) as [| tm l]; [reflexivity |].
    exfalso. apply (Hnone tm). now left.
  - rewrite Hsf. split.
    + intros st ->. reflexivity.
    + intros ->. reflexivity.
Qed.

Lemma signal_shutdown_stops_cleanly_witness :
  exists s',
    Daemon.onSignal "SIGTERM" sample_running_daemon = Daemon.Exit 0 s'
    /\ Daemon.timers s' = []
    /\ Daemon.refreshCount s' = 3.
Proof.
  destruct (signal_shutdown_stops_cleanly "SIGTERM" sample_running_daemon)
    as [s' [Hrun [_ [Hnone [Hrc _]]]]].
  exists s'. split; [exact Hrun |]. split; [| exact Hrc].
  apply Hnone. intros tm [<- | [<- | []]]; [right | left]; reflexivity.
Defined.

(** X16.  A refresh that succeeds never repairs the recorded status: it
    writes [lastRefresh], [nextRefresh] and the new [refreshCount] over
    the record in the status file and keeps its [status].  So after a
    failed refresh has written ["error"], the status file says ["error"]
    for the rest of the run although every later refresh succeeds, and
    the health query of the server reports an error, whether or not the
    process is running. *)
Theorem successful_refresh_keeps_status :
  forall (te : Daemon.TickEnv) (s : Daemon.t) (st : Status.DaemonStatus),
    failsAfter te = None ->
    durationsOk te ->
    quiet (Daemon.clock s + tickMs te) (Daemon.timers s) ->
    Daemon.statusFile s = Some (Status.Json st) ->
    exists s',
      Daemon.refreshCallback te s = Daemon.Ok tt s'
      /\ Daemon.refreshCount s' = Daemon.refreshCount s + 1
      /\ Daemon.statusFile s'
         = Some (Status.Json
                   {| Status.pid := Status.pid st;
                      Status.startTime := Status.startTime st;
                      Status.status := Status.status st;
                      Status.lastRefresh := Some (Daemon.clock s');
                      Status.nextRefresh := Some (Daemon.clock s' + intervalMs s);
                      Status.refreshCount := Daemon.refreshCount s + 1 |})
      /\ (Status.status st = "error"%string ->
          forall (now : Z) (procs : list Z),
            Server.checkDaemonHealth now procs (Daemon.statusFile s')
            = Server.ErrorStatus).
Proof.
  intros te s st Hf Hd Hq Hst.
  destruct (refreshCallback_succeeds te s Hf Hd Hq)
    as [ti [s' [Hrun [_ [_ [Hrc [_ [_ [Hclk [_ [_ [_ [_ Hsf]]]]]]]]]]]]].
  { rewrite Hst. discriminate. }
  assert (Hfile : Daemon.statusFile s'
                  = Some (Status.Json
                            {| Status.pid := Status.pid st;
                               Status.startTime := Status.startTime st;
                               Status.status := Status.status st;
                               Status.lastRefresh := Some (Daemon.clock s');
                               Status.nextRefresh :=
                                 Some (Daemon.clock s' + intervalMs s);
                               Status.refreshCount :=
                                 Daemon.refreshCount s + 1 |})).
  { rewrite Hsf, Hst, Hclk. reflexivity. }
  exists s'. split; [exact Hrun |]. split; [exact Hrc |].
  split; [exact Hfile |].
  intros He now procs. rewrite Hfile. unfold Server.checkDaemonHealth.
  cbn [Status.status Status.pid Status.lastRefresh]. rewrite He. reflexivity.
Qed.

Lemma successful_refresh_keeps_status_witness :
  exists s' st',
    Daemon.refreshCallback (okTick 2000) sample_failed_daemon = Daemon.Ok tt s'
    /\ Daemon.refreshCount s' = 4
    /\ Daemon.statusFile s' = Some (Status.Json st')
    /\ Status.status st' = "error"%string
    /\ Server.checkDaemonHealth 5402000 [4242] (Daemon.statusFile s')
       = Server.ErrorStatus.
Proof.
  destruct (successful_refresh_keeps_status (okTick 2000) sample_failed_daemon
              (sample_status "error" 4242 (Some 5400000)))
    as [s' [Hrun [Hrc [Hfile Hhealth]]]].
  - reflexivity.
  - unfold durationsOk. cbn. lia.
  - intros tm [Htm | [Htm | []]] Hk; subst tm; cbn in *; [lia | discriminate].
  - reflexivity.
  - exists s'. eexists. split; [exact Hrun |]. split; [exact Hrc |].
    split; [exact Hfile |]. split; [reflexivity |].
    apply Hhealth. reflexivity.
Defined.

(** X17.  [scheduleNextRefresh] never leaves two refresh timers: when
    every pending refresh timer is the one the daemon holds in
    [refreshTimer], it returns with exactly one refresh timer pending,
    the new one, set with the delay [refreshIntervalMinutes * 60 * 1000]
    from now and held in [refreshTimer]; the maximum-runtime timer is not
    touched unless it is the timer held in [refreshTimer]; and the same
    holds again afterwards. *)
Theorem scheduleNextRefresh_keeps_one_timer :
  forall s : Daemon.t,
    holdsRefreshTimer s ->
    exists s',
      Daemon.scheduleNextRefresh s = Daemon.Ok tt s'
      /\ timers_of RefreshTimer (Daemon.timers s') = [nextRefreshTimer s]
      /\ Daemon.refreshTimer s' = Some (Daemon.nextTimerId s)
      /\ timers_of MaxRuntimeTimer (Daemon.timers s')
         = clearTimer (Daemon.refreshTimer s)
             (timers_of MaxRuntimeTimer (Daemon.timers s))
      /\ holdsRefreshTimer s'.
Proof.
  intros s Hheld.
  assert (Hnone : timers_of RefreshTimer
                    (clearTimer (Daemon.refreshTimer s) (Daemon.timers s)) = []).
  { destruct (timers_of RefreshTimer
                (clearTimer (Daemon.refreshTimer s) (Daemon.timers s)))
      as [| tm l] eqn:E; [reflexivity |].
    exfalso.
    assert (Hin : In tm (timers_of RefreshTimer
                           (clearTimer (Daemon.refreshTimer s) (Daemon.timers s))))
      by (rewrite E; now left).
    unfold timers_of in Hin. apply filter_In in Hin. destruct Hin as [Hin Hk].
    assert (Hkind : kind tm = RefreshTimer)
      by (destruct (kind tm); [reflexivity | discriminate]).
    destruct (Daemon.refreshTimer s) as [r |] eqn:Hr; unfold clearTimer in Hin.
    - unfold remove_timer in Hin. apply filter_In in Hin.
      destruct Hin as [Hin Hne].
      apply negb_true_iff, Nat.eqb_neq in Hne.
      specialize (Hheld tm Hin Hkind). congruence.
    - specialize (Hheld tm Hin Hkind). congruence. }
  eexists. split; [apply scheduleNextRefresh_eq |].
  assert (Htms : Daemon.timers
                   (Daemon.set_refreshTimer (Some (Daemon.nextTimerId s))
                      (Daemon.set_timers
                         (clearTimer (Daemon.refreshTimer s) (Daemon.timers s)
                          ++ [nextRefreshTimer s])
                         (S (Daemon.nextTimerId s)) s))
                 = clearTimer (Daemon.refreshTimer s) (Daemon.timers s)
                   ++ [nextRefreshTimer s]) by reflexivity.
  rewrite Htms, !timers_of_app, Hnone.
  split; [reflexivity |]. split; [reflexivity |]. split.
  - change (timers_of MaxRuntimeTimer [nextRefreshTimer s]) with (@nil Timer).
    rewrite app_nil_r.
    destruct (Daemon.refreshTimer s); unfold clearTimer;
      now rewrite ?timers_of_remove.
  - intros tm Hin Hk. rewrite Htms in Hin.
    apply in_app_or in Hin. destruct Hin as [Hin | [<- | []]]; [| reflexivity].
    exfalso.
    assert (Hin' : In tm (timers_of RefreshTimer
                            (clearTimer (Daemon.refreshTimer s) (Daemon.timers s)))).
    { unfold timers_of. apply filter_In. split; [assumption |].
      now rewrite Hk. }
    rewrite Hnone in Hin'. exact Hin'.
Qed.

Lemma scheduleNextRefresh_keeps_one_timer_witness :
  exists s',
    Daemon.scheduleNextRefresh sample_running_daemon = Daemon.Ok tt s'
    /\ timers_of RefreshTimer (Daemon.timers s')
       = [{| tid := 4; kind := RefreshTimer; delay := 1800000;
             due := 7200000 |}]
    /\ Daemon.refreshTimer s' = Some 4%nat.
Proof.
  destruct (scheduleNextRefresh_keeps_one_timer sample_running_daemon)
    as [s' [Hrun [Htm [Hrt _]]]].
  - intros tm [<- | [<- | []]] Hk; [discriminate | reflexivity].
  - exists s'. split; [exact Hrun |]. split; [| exact Hrt].
    rewrite Htm. reflexivity.
Defined.

(** X18.  The daemon's [updateStatus] never fails the daemon: it always
    returns and touches neither the timers nor the counter.  On a status
    file that does not parse it writes nothing (the file is left as it
    is, so the update is lost) and logs ["Failed to update status"]; on
    a file that parses it writes the record with the given fields laid
    over it and logs nothing; without a file it lays the fields over the
    record [{pid, startTime: now, status: "running", refreshCount: 0}]
    of this process. *)
Theorem daemon_updateStatus_never_throws :
  forall (u : Status.StatusUpdate) (s : Daemon.t),
  exists s',
    Daemon.updateStatus u s = Daemon.Ok tt s'
    /\ Daemon.timers s' = Daemon.timers s
    /\ Daemon.refreshCount s' = Daemon.refreshCount s
    /\ (Daemon.statusFile s = Some Status.Garbage ->
        Daemon.statusFile s' = Some Status.Garbage
        /\ Daemon.logFile s'
           = Daemon.logFile s
             ++ [(Daemon.clock s, Daemon.LFailedToUpdateStatus JsonSyntaxError)])
    /\ (forall st, Daemon.statusFile s = Some (Status.Json st) ->
                   Daemon.statusFile s' = Some (Status.Json (Status.merge st u))
                   /\ Daemon.logFile s' = Daemon.logFile s)
    /\ (Daemon.statusFile s = None ->
        Daemon.statusFile s'
        = Some (Status.Json
                  (Status.merge
                     {| Status.pid := Daemon.process_pid s;
                        Status.startTime := Daemon.clock s;
                        Status.status := "running";
                        Status.lastRefresh := None; Status.nextRefresh := None;
                        Status.refreshCount := 0 |} u))).
Proof.
  intros u s. destruct s as [cfg tm rt mt rc pid c tms nid ka sf lf tk].
  destruct sf as [[| st] |]; eexists; (split; [reflexivity |]); cbn;
    repeat split; try discriminate; intros; try congruence.
Qed.

(** ** The two health queries *)

(** X19.  The controller and the server agree on health: on the same
    status file and the same processes, [isHealthy] of the controller
    answers [true] exactly when [checkDaemonHealth] of the server reports
    "Healthy" or "Warning" (the process runs but the last refresh is
    overdue); on every other report of the server, and when the status
    file is missing or does not parse, [isHealthy] answers [false]. *)
Theorem health_agrees_with_isHealthy :
  forall (now : Z) (w : Controller.t),
    Controller.isHealthy w = Returns true w
    <-> (exists m,
            Server.checkDaemonHealth now (Controller.live w)
              (Controller.statusFile w) = Server.Warning m)
        \/ (exists p last n,
               Server.checkDaemonHealth now (Controller.live w)
                 (Controller.statusFile w) = Server.Healthy p last n).
Proof.
  intros now w. rewrite isHealthy_eq.
  unfold Server.checkDaemonHealth, Server.isProcessRunning.
  destruct (Controller.statusFile w) as [[| st] |].
  - split; [discriminate | intros [[m H] | [p [l [n H]]]]; discriminate].
  - destruct (String.eqb (Status.status st) "running"
              && Controller.is_live (Status.pid st) (Controller.live w)) eqn:E.
    + split; [| reflexivity]. intros _.
      destruct (Server.overdue _); [left | right]; repeat eexists.
    + split; [discriminate |].
      intros [[m H] | [p [l [n H]]]];
        destruct (String.eqb (Status.status st) "error");
        try discriminate;
        destruct (String.eqb (Status.status st) "stopped");
        try discriminate;
        destruct (negb _); discriminate.
  - split; [discriminate | intros [[m H] | [p [l [n H]]]]; discriminate].
Qed.

(** X20.  [checkDaemonHealth] reports "Dead Process" exactly when the
    process of the recorded pid is not running and the recorded status is
    neither ["error"] nor ["stopped"]: a daemon that crashed after
    recording an error is reported as "Error", not as a dead process,
    and a status the server does not know is reported as "Unknown" only
    while the process runs. *)
Theorem dead_process_reported_iff :
  forall (now : Z) (procs : list Z) (st : Status.DaemonStatus),
    Server.checkDaemonHealth now procs (Some (Status.Json st))
    = Server.DeadProcess (Status.pid st)
    <-> ~ In (Status.pid st) procs
        /\ Status.status st <> "error"%string
        /\ Status.status st <> "stopped"%string.
Proof.
  intros now procs st.
  unfold Server.checkDaemonHealth, Server.isProcessRunning.
  destruct (Controller.is_live (Status.pid st) procs) eqn:Hl.
  - assert (Hin : In (Status.pid st) procs) by (now apply is_live_In).
    split; [| tauto].
    rewrite andb_true_r. cbn [negb].
    destruct (String.eqb (Status.status st) "running");
      [destruct (Server.overdue _); discriminate |].
    destruct (String.eqb (Status.status st) "error"); [discriminate |].
    destruct (String.eqb (Status.status st) "stopped"); discriminate.
  - assert (Hnot : ~ In (Status.pid st) procs).
    { intros Hin. apply is_live_In in Hin. congruence. }
    rewrite andb_false_r. cbn [negb].
    destruct (String.eqb_spec (Status.status st) "error") as [He | He].
    { split; [discriminate | tauto]. }
    destruct (String.eqb_spec (Status.status st) "stopped") as [Hs | Hs].
    { split; [discriminate | tauto]. }
    split; [intros _; now repeat split | reflexivity].
Qed.

(** ** Reading the log *)

Section Logs.

Import JsString.

Lemma split_from_not_nil (cur s : t) : split_from cur s <> [].
Proof.
  revert cur. induction s as [| c s IH]; intros cur; cbn; [discriminate |].
  destruct (c =? LF)%N; [discriminate | apply IH].
Qed.

(** Joining the lines of a text gives the text back. *)
Lemma join_split_from (cur s : t) :
  join_lines (split_from cur s) = rev cur ++ s.
Proof.
  revert cur. induction s as [| c s IH]; intros cur; cbn [split_from].
  - cbn. now rewrite app_nil_r.
  - destruct (N.eqb_spec c LF) as [-> | Hc].
    + pose proof (split_from_not_nil [] s) as Hne.
      specialize (IH []). destruct (split_from [] s) as [| y l]; [congruence |].
      cbn [join_lines]. cbn [join_lines] in IH. rewrite IH. reflexivity.
    + rewrite IH. cbn. now rewrite <- app_assoc.
Qed.

Lemma filter_all (A : Type) (f : A -> bool) (l : list A) :
  Forall (fun x => f x = true) l -> filter f l = l.
Proof.
  induction 1 as [| x l Hx _ IH]; cbn; [reflexivity |]. now rewrite Hx, IH.
Qed.

Lemma filter_none (A : Type) (f : A -> bool) (l : list A) :
  Forall (fun x => f x = false) l -> filter f l = [].
Proof.
  induction 1 as [| x l Hx _ IH]; cbn; [reflexivity |]. now rewrite Hx, IH.
Qed.

End Logs.

(** X21.  [getLogs] loses nothing when asked for enough: for a log file
    none of whose lines is blank and a [tailLines] that is at least the
    number of its lines, it returns the content of the file, code unit
    for code unit. *)
Theorem getLogs_returns_whole_log :
  forall (w : Controller.t) (content : JsString.t) (tailLines : Z),
    Controller.logFile w = Some content ->
    Forall (fun line => nonBlank line = true) (JsString.split_lines content) ->
    Z.of_nat (List.length (JsString.split_lines content)) <= tailLines ->
    Controller.getLogs tailLines w = Returns content w.
Proof.
  intros w content n Hfile Hall Hn.
  assert (Hpos : 1 <= n).
  { pose proof (split_from_not_nil [] content) as Hne.
    unfold JsString.split_lines in Hn.
    destruct (JsString.split_from [] content); [congruence | cbn in Hn; lia]. }
  rewrite getLogs_eq, Hfile, tailNonBlank_eq by assumption.
  unfold last_n.
  replace (List.length (JsString.split_lines content) - Z.to_nat n)%nat
    with O by lia.
  cbn [skipn]. rewrite filter_all by assumption.
  unfold JsString.split_lines. now rewrite join_split_from.
Qed.

Lemma getLogs_returns_whole_log_witness :
  Controller.getLogs 50 (sample_controller [] None None (Some two_line_log))
  = Returns two_line_log
      (sample_controller [] None None (Some two_line_log)).
Proof.
  apply (getLogs_returns_whole_log
           (sample_controller [] None None (Some two_line_log))
           two_line_log 50 eq_refl).
  - repeat (constructor; [reflexivity |]). constructor.
  - cbn. lia.
Defined.

(** X22.  A [tailLines] that is not positive does not give an empty
    answer: [getLogs(0)] returns every line of the file that is not
    blank, and [getLogs(-k)] returns the lines that are not blank after
    dropping the first [k] lines, since [slice(-tailLines)] then counts
    from the start of the file. *)
Theorem getLogs_nonpositive_tail_drops_head :
  forall (w : Controller.t) (content : JsString.t) (tailLines : Z),
    Controller.logFile w = Some content ->
    tailLines <= 0 ->
    Controller.getLogs tailLines w
    = Returns (JsString.join_lines
                 (filter nonBlank
                    (skipn (Z.to_nat (- tailLines))
                       (JsString.split_lines content)))) w.
Proof.
  intros w content n Hfile Hn.
  rewrite getLogs_eq, Hfile. unfold Controller.tailNonBlank, JsString.slice_from.
  replace (- n <? 0) with false by (symmetry; apply Z.ltb_ge; lia).
  do 3 f_equal.
  set (lines := JsString.split_lines content).
  destruct (Z.min_spec (- n) (Z.of_nat (List.length lines)))
    as [[_ ->] | [Hle ->]];
    [reflexivity |].
  rewrite Nat2Z.id, skipn_all. symmetry. apply skipn_all2. lia.
Qed.

Lemma getLogs_nonpositive_tail_drops_head_witness :
  Controller.getLogs 0 (sample_controller [] None None (Some three_line_log))
  = Returns (JsString.lit "one" ++ JsString.LF :: JsString.lit "two"
               ++ JsString.LF :: JsString.lit "three")
      (sample_controller [] None None (Some three_line_log))
  /\ Controller.getLogs (-1)
       (sample_controller [] None None (Some three_line_log))
     = Returns (JsString.lit "two" ++ JsString.LF :: JsString.lit "three")
         (sample_controller [] None None (Some three_line_log)).
Proof.
  split.
  - rewrite (getLogs_nonpositive_tail_drops_head
               (sample_controller [] None None (Some three_line_log))
               three_line_log 0 eq_refl); [reflexivity | lia].
  - rewrite (getLogs_nonpositive_tail_drops_head
               (sample_controller [] None None (Some three_line_log))
               three_line_log (-1) eq_refl); [reflexivity | lia].
Defined.

(** X23.  On a log file all of whose lines are blank the two readers
    differ: [getLogs] of the controller returns the empty string, while
    [getTokenRefreshLogs] of the server puts ["No recent logs available"]
    in the place of the lines, whatever [tailLines] is. *)
Theorem blank_tail_reported_differently :
  forall (w : Controller.t) (content : JsString.t) (tailLines : Z),
    Controller.logFile w = Some content ->
    Forall (fun line => nonBlank line = false) (JsString.split_lines content) ->
    Controller.getLogs tailLines w = Returns [] w
    /\ Server.getTokenRefreshLogs tailLines (Some content)
       = JsString.lit "**Token Refresh Daemon Logs (last "
           ++ JsString.toString tailLines
           ++ JsString.lit " lines)**" ++ [JsString.LF; JsString.LF]
           ++ JsString.lit "```" ++ [JsString.LF]
           ++ JsString.lit "No recent logs available"
           ++ [JsString.LF] ++ JsString.lit "```".
Proof.
  intros w content n Hfile Hblank.
  assert (Hnone : Controller.tailNonBlank n (JsString.split_lines content) = []).
  { unfold Controller.tailNonBlank. apply filter_none.
    unfold JsString.slice_from.
    apply Forall_forall. intros line Hin.
    rewrite Forall_forall in Hblank. apply Hblank.
    match type of Hin with
    | In _ (skipn ?k ?l) =>
        rewrite <- (firstn_skipn k l); apply in_or_app; now right
    end. }
  split.
  - rewrite getLogs_eq, Hfile, Hnone. reflexivity.
  - unfold Server.getTokenRefreshLogs. rewrite Hnone. reflexivity.
Qed.

Lemma blank_tail_reported_differently_witness :
  Controller.getLogs 50 (sample_controller [] None None (Some blank_log))
  = Returns [] (sample_controller [] None None (Some blank_log)).
Proof.
  apply (blank_tail_reported_differently
           (sample_controller [] None None (Some blank_log)) blank_log 50
           eq_refl).
  repeat (constructor; [reflexivity |]). constructor.
Defined.

(** ** A start that succeeds *)

(** X24.  When the initial refresh succeeds and the status file is absent
    or parses, [start] returns with exactly two timers pending, both
    counted from the end of the initial refresh: the refresh timer, with
    the delay [refreshIntervalMinutes * 60 * 1000], and the
    maximum-runtime timer, with the delay
    [maxRuntimeHours * 60 * 60 * 1000]; the daemon holds both.  The
    counter is 1, and the status file holds the record of this process
    alone, [{pid, startTime, status: "running", lastRefresh, nextRefresh,
    refreshCount: 1}]: nothing of a record found at the start is left in
    it. *)
Theorem successful_start_sets_both_timers :
  forall (te : Daemon.TickEnv) (c : Daemon.DaemonConfig) (pid now : Z)
         (sf : option Status.StatusFile)
         (lf : list (Timestamp * Daemon.LogMsg)),
    failsAfter te = None ->
    durationsOk te ->
    statusFileOk sf ->
    exists s1,
      Daemon.start te (Daemon.new c pid now sf lf) = Daemon.Ok tt s1
      /\ Daemon.clock s1 = now + tickMs te
      /\ Daemon.refreshCount s1 = 1
      /\ Daemon.timers s1
         = [{| tid := 0; kind := RefreshTimer;
               delay := Daemon.refreshIntervalMinutes c * 60 * 1000;
               due := now + tickMs te
                      + timer_delay
                          (Daemon.refreshIntervalMinutes c * 60 * 1000) |};
            {| tid := 1; kind := MaxRuntimeTimer;
               delay := Daemon.maxRuntimeHours c * 60 * 60 * 1000;
               due := now + tickMs te
                      + timer_delay
                          (Daemon.maxRuntimeHours c * 60 * 60 * 1000) |}]
      /\ Daemon.refreshTimer s1 = Some 0%nat
      /\ Daemon.maxRuntimeTimer s1 = Some 1%nat
      /\ Daemon.keepAlive s1 = true
      /\ Daemon.statusFile s1
         = Some (Status.Json
                   {| Status.pid := pid; Status.startTime := now;
                      Status.status := "running";
                      Status.lastRefresh := Some (now + tickMs te);
                      Status.nextRefresh :=
                        Some (now + tickMs te
                              + Daemon.refreshIntervalMinutes c * 60 * 1000);
                      Status.refreshCount := 1 |}).
Proof.
  intros te c pid now sf lf Hf Hd Hok.
  assert (Hsf : sf = None \/ exists st, sf = Some (Status.Json st)).
  { destruct sf as [[| st] |]; [now elim Hok | right; now exists st | now left]. }
  unfold Daemon.start, Daemon.new, Daemon.try_catch.
  unfold Daemon.bind at 1. unfold Daemon.log at 1. unfold Daemon.modify at 1.
  unfold Daemon.bind at 1. unfold Daemon.get at 1.
  unfold Daemon.bind at 1. unfold Daemon.get at 1.
  unfold Daemon.bind at 1. rewrite updateStatus_ok by (cbn; assumption).
  unfold Daemon.bind at 1.
  match goal with
  | |- context [Daemon.refreshTokenAndAuth ?te ?sA] =>
      destruct (refreshTokenAndAuth_succeeds te sA Hf Hd)
        as [ti [s1 [Hrun [Htok [Hc [Hrc [Hrt [Hmt [Hpid [Hclk [Htms [Hnid [Htk Hfile]]]]]]]]]]]]];
      [apply quiet_nil | cbn; discriminate |]
  end.
  rewrite Hrun.
  unfold Daemon.bind at 1. rewrite scheduleNextRefresh_eq.
  destruct s1 as [cfg1 tm1 rt1 mt1 rc1 pid1 c1 tms1 nid1 ka1 sf1 lf1 tk1].
  cbn in Hc, Hrc, Hrt, Hmt, Hpid, Hclk, Htms, Hnid, Htk, Hfile. subst.
  eexists. split; [reflexivity |].
  destruct Hsf as [-> | [st ->]]; cbn -[timer_delay Z.mul Z.add]; repeat split.
Qed.

Lemma successful_start_sets_both_timers_witness :
  exists s1 st,
    Daemon.start (okTick 2000)
      (Daemon.new (sample_config 30 6) 4242 0
         (Some (Status.Json (sample_status "stopped" 17 (Some 5)))) [])
    = Daemon.Ok tt s1
    /\ Daemon.timers s1
       = [{| tid := 0; kind := RefreshTimer; delay := 1800000;
             due := 1802000 |};
          {| tid := 1; kind := MaxRuntimeTimer; delay := 21600000;
             due := 21602000 |}]
    /\ Daemon.statusFile s1 = Some (Status.Json st)
    /\ Status.pid st = 4242
    /\ Status.status st = "running"%string
    /\ Status.refreshCount st = 1.
Proof.
  destruct (successful_start_sets_both_timers (okTick 2000)
              (sample_config 30 6) 4242 0
              (Some (Status.Json (sample_status "stopped" 17 (Some 5)))) [])
    as [s1 [Hrun [_ [_ [Htms [_ [_ [_ Hfile]]]]]]]].
  - reflexivity.
  - unfold durationsOk. cbn. lia.
  - discriminate.
  - exists s1. eexists. split; [exact Hrun |]. split; [exact Htms |].
    split; [exact Hfile |]. repeat split.
Defined.
